(** * SPSDK: protected flash region records and the elftosb front end

  A shallow embedding of [spsdk/pfr/pfr.py] and [spsdk/apps/elftosb.py]
  together with the properties their specification states about them.

  Part I holds the embedding: a small model of the Python run time
  (exceptions, byte strings, slices), the helper modules the two
  sources call into, and then the functions of the sources themselves.
  Part II holds the theorems. *)

From Stdlib Require Import ZArith Lia.
From Stdlib.Strings Require Import Ascii Byte.
From stdpp Require Import base option list strings gmap pretty.

Set Default Proof Using "Type".
Set Warnings "-register-all".

(* ================================================================= *)
(** * Part I: the embedding *)
(* ================================================================= *)

(** ** Python run time *)

Module Py.

(** Exceptions the modelled code raises or lets through. *)
Inductive exn : Type :=
| AssertionError
| IndexError
| KeyError (key : string)
| OverflowError
| ValueError
| SyntaxError (msg : string)
| SystemExit (code : Z)
| FileNotFoundError (path : string)
| IsADirectoryError (path : string)
| SPSDKError (msg : string)
| SPSDKRegsErrorRegisterNotFound (reg : string)
| SPSDKPfrError (msg : string)
| SPSDKPfrConfigError (msg : string)
| SPSDKPfrRotkhIsNotPresent (msg : string).

(** The outcome of a call: a value, or a raised exception. *)
Inductive result (A : Type) : Type :=
| Ok (a : A)
| Raise (e : exn).
Arguments Ok {A} a.
Arguments Raise {A} e.

#[global] Instance result_ret : MRet result := @Ok.
#[global] Instance result_bind : MBind result := fun A B f m =>
  match m with
  | Ok a => f a
  | Raise e => Raise e
  end.
#[global] Instance result_fmap : FMap result := fun A B f m =>
  match m with
  | Ok a => Ok (f a)
  | Raise e => Raise e
  end.

(** [assert c]. *)
Definition assert (c : bool) : result unit :=
  if c then Ok tt else Raise AssertionError.

(** [[f(x) for x in xs]] for an [f] that may raise. *)
Fixpoint comprehension {A B} (f : A -> result B) (xs : list A) : result (list B) :=
  match xs with
  | [] => Ok []
  | x :: xs' => y ← f x; ys ← comprehension f xs'; Ok (y :: ys)
  end.

(** [for x in xs: acc = body(acc, x)] for a body that may raise. *)
Fixpoint for_each {A S} (body : S -> A -> result S) (xs : list A) (acc : S) : result S :=
  match xs with
  | [] => Ok acc
  | x :: xs' => acc' ← body acc x; for_each body xs' acc'
  end.

(** Byte strings ([bytes] and [bytearray]). *)
Abbreviation bytes := (list byte).

#[global] Instance byte_eq_dec : EqDecision byte := Byte.byte_eq_dec.

Definition byte_of_Z (z : Z) : byte :=
  default x00 (Byte.of_N (Z.to_N (z mod 256))).

(** [b ^ 0xFF] on one byte. *)
Definition byte_xor (a b : byte) : byte :=
  default x00 (Byte.of_N (N.lxor (Byte.to_N a) (Byte.to_N b))).

(** [bytes(n)]: [n] zero bytes. *)
Definition zeros (n : nat) : bytes := replicate n x00.

(** [s.ljust(width, fill)]. *)
Definition ljust (s : bytes) (width : nat) (fill : byte) : bytes :=
  s ++ replicate (width - length s) fill.

(** [data[lo:hi]] for non-negative bounds; Python clips both to the
    length of [data]. *)
Definition slice (data : bytes) (lo hi : nat) : bytes :=
  take (hi - lo) (drop lo data).

(** [data[lo:hi] = val] on a bytearray, for non-negative bounds: the
    clipped span is replaced by [val], whatever the length of [val], so
    the array shrinks or grows when the lengths differ. *)
Definition slice_assign (data : bytes) (lo hi : nat) (val : bytes) : bytes :=
  take lo data ++ val ++ drop (lo `max` hi) data.

(** [b"..." * n]. *)
Fixpoint repeat_bytes (s : bytes) (n : nat) : bytes :=
  match n with
  | O => []
  | S n' => s ++ repeat_bytes s n'
  end.

(** [xs[i]]. *)
Definition index {A} (xs : list A) (i : nat) : result A :=
  match xs !! i with
  | Some x => Ok x
  | None => Raise IndexError
  end.

(** [n.bit_length()]. *)
Definition bit_length (n : Z) : nat :=
  if (n =? 0)%Z then 0 else S (Z.to_nat (Z.log2 (Z.abs n))).

(** [math.ceil(k / 8)], for a [k] small enough for the division to be
    exact (any bit length that fits in memory is). *)
Definition ceil_div8 (k : nat) : nat := (k + 7) / 8.

(** The [len] low base-256 digits of [n], most significant first. *)
Fixpoint be_digits (len : nat) (n : Z) : bytes :=
  match len with
  | O => []
  | S len' => be_digits len' (n / 256) ++ [byte_of_Z n]
  end.

(** [n.to_bytes(len, "big")]: raises [OverflowError] on a negative [n]
    and on an [n] that does not fit in [len] bytes. *)
Definition to_bytes_big (n : Z) (len : nat) : result bytes :=
  if ((n <? 0) || (256 ^ Z.of_nat len <=? n))%Z
  then Raise OverflowError
  else Ok (be_digits len n).

(** [str.upper()] on ASCII letters. *)
Definition upper_ascii (c : ascii) : ascii :=
  let n := nat_of_ascii c in
  if (97 <=? n)%nat && (n <=? 122)%nat then ascii_of_nat (n - 32) else c.

Fixpoint upper (s : string) : string :=
  match s with
  | EmptyString => EmptyString
  | String c s' => String (upper_ascii c) (upper s')
  end.

(** Truth value of a string: [not s] holds of the empty string. *)
Definition truthy_str (s : string) : bool :=
  match s with EmptyString => false | _ => true end.

End Py.
Export Py.

(** ** Public keys and the crypto provider *)

Module Crypto.

(** [RSAPublicKey] and [EllipticCurvePublicKey] of the [cryptography]
    package, reduced to what [public_numbers()] and [key_size] give. *)
Inductive PublicKey : Type :=
| RSAPublicKey (e n : Z)
| EllipticCurvePublicKey (key_size : nat) (x y : Z).

(** [BackendClass]: the crypto provider, consumed through
    [hash(data, algorithm)] only. What it computes is left open. *)
Record BackendClass : Type := {
  hash : bytes -> string -> bytes
}.

End Crypto.
Export Crypto.

(** ** The register file *)

Module Registers.

(** Modelled from the spec: [spsdk.utils.registers] is not among the
    sources. A register has a name, a byte offset, a bit width, an
    optional byte-order-reversal flag, optional sub-registers and
    hooks that recompute its value; its value is a byte string.
    [set_value] with [raw] set stores the value as given (non-validated,
    non-recomputed); without [raw] the hooks recompute it first. *)
Inductive RegsRegister : Type := {
  name : string;
  offset : nat;
  width : nat;
  reverse : bool;
  value : bytes;
  sub_regs : list RegsRegister;
  _set_value_hooks : list (bytes -> result bytes)
}.

(** Modelled from the spec: [get_value()] gives the stored value. *)
Definition get_value (reg : RegsRegister) : bytes := value reg.

(** Modelled from the spec: a register has group registers when it has
    sub-registers. *)
Definition has_group_registers (reg : RegsRegister) : bool :=
  match sub_regs reg with [] => false | _ => true end.

(** The register with another value. *)
Definition with_value (reg : RegsRegister) (val : bytes) : RegsRegister :=
  {| name := name reg; offset := offset reg; width := width reg;
     reverse := reverse reg; value := val; sub_regs := sub_regs reg;
     _set_value_hooks := _set_value_hooks reg |}.

(** Modelled from the spec: [add_setvalue_hook(hook, context)] adds a
    hook, here the handler already given its context. *)
Definition add_setvalue_hook (reg : RegsRegister) (hook : bytes -> result bytes)
  : RegsRegister :=
  {| name := name reg; offset := offset reg; width := width reg;
     reverse := reverse reg; value := value reg; sub_regs := sub_regs reg;
     _set_value_hooks := _set_value_hooks reg ++ [hook] |}.

(** Modelled from the spec: the hooks of a register are applied in the
    order they were added. *)
Definition apply_hooks (reg : RegsRegister) (val : bytes) : result bytes :=
  for_each (fun v hook => hook v) (_set_value_hooks reg) val.

(** Modelled from the spec: [set_value(val, raw)] stores [val] as given
    when [raw] is set, and the value the hooks make of it otherwise. *)
Definition set_value (reg : RegsRegister) (val : bytes) (raw : bool)
  : result RegsRegister :=
  if raw then Ok (with_value reg val)
  else val' ← apply_hooks reg val; Ok (with_value reg val').

(** Modelled from the spec: [reg.run_hooks()] recomputes the stored
    value. *)
Definition reg_run_hooks (reg : RegsRegister) : result RegsRegister :=
  val' ← apply_hooks reg (get_value reg); Ok (with_value reg val').

(** [Registers]: the registers of a device, in schema order. *)
Abbreviation Registers := (list RegsRegister).

Definition named (reg_name : string) (reg : RegsRegister) : bool :=
  String.eqb (name reg) reg_name.

(** Modelled from the spec: [find_reg(name)] gives the first register of
    that name, and raises [SPSDKRegsErrorRegisterNotFound] (the exception
    [export] catches) when there is none. *)
Definition find_reg (regs : Registers) (reg_name : string) : result RegsRegister :=
  match List.find (named reg_name) regs with
  | Some reg => Ok reg
  | None => Raise (SPSDKRegsErrorRegisterNotFound reg_name)
  end.

(** A register object is shared between the register file and whoever
    looked it up: a change made through [find_reg(name)] is a change of
    the first register of that name in the file. *)
Fixpoint update_reg (regs : Registers) (reg_name : string) (new : RegsRegister)
  : Registers :=
  match regs with
  | [] => []
  | reg :: regs' =>
      if named reg_name reg then new :: regs'
      else reg :: update_reg regs' reg_name new
  end.

Definition excluded (exclude : list string) (reg : RegsRegister) : bool :=
  bool_decide (name reg ∈ exclude).

(** Modelled from the spec: [get_registers(exclude)] gives all registers
    but the named ones. *)
Definition get_registers (regs : Registers) (exclude : list string) : Registers :=
  List.filter (fun reg => negb (excluded exclude reg)) regs.

(** Modelled from the spec: [get_reg_names()] gives the names of the
    registers. *)
Definition get_reg_names (regs : Registers) : list string := name <$> regs.

(** Modelled from the spec: [Registers.run_hooks] is not among the
    sources, and the spec tells of it only through its use in
    [set_config]. [run_hooks(exclude)] runs the hooks of every register
    but the ones named in [exclude], which is how the one caller,
    [set_config], names the list it passes ([exclude_hooks]) and
    describes the call ("Just update only configured registers"). *)
Definition run_hooks (regs : Registers) (exclude : list string) : result Registers :=
  comprehension
    (fun reg => if excluded exclude reg then Ok reg else reg_run_hooks reg) regs.

End Registers.
Export Registers.

(** ** The device database *)

Module RegConfig.

(** Modelled from the spec: [spsdk.utils.reg_config] and the database
    are not among the sources. [RegConfig] holds the answers of
    [database.json] the config areas ask for, each a function of the
    device name; its content is a parameter of every area. A missing
    seal entry is [None]; [seal_count] is a count. *)
Record RegConfig : Type := {
  get_devices : list string;
  get_revisions : string -> list string;
  get_latest_revision : string -> string;
  get_ignored_registers : string -> list string;
  get_computed_registers : string -> list string;
  get_computed_fields : string -> list (string * list (string * string));
  get_seal_start_address : string -> option string;
  get_seal_count : string -> option nat
}.

End RegConfig.
Export RegConfig.

(** ** spsdk.utils.misc *)

Module Misc.

(** Modelled from the spec: [spsdk.utils.misc] is not among the sources.
    [reverse_bytes_in_longs] reverses the byte order inside every 32-bit
    word of a byte string whose length is a multiple of four. *)
Fixpoint reverse_words (fuel : nat) (arr : bytes) : bytes :=
  match fuel, arr with
  | S fuel', b0 :: b1 :: b2 :: b3 :: arr' => b3 :: b2 :: b1 :: b0 :: reverse_words fuel' arr'
  | _, _ => []
  end.

(** Modelled from the spec: [reverse_bytes_in_longs(arr)]. *)
Definition reverse_bytes_in_longs (arr : bytes) : result bytes :=
  if (length arr mod 4 =? 0)%nat
  then Ok (reverse_words (length arr) arr)
  else Raise (SPSDKError "The input array is not in modulo 4!").

(** Modelled from the spec: [spsdk.utils.misc] is not among the sources.
    [change_endianism] is the byte-order transform between a register
    value and its span of the record: one byte is kept, two bytes are
    swapped, and longer values are rewritten four bytes at a time. *)
Definition change_endianism (bin_data : bytes) : result bytes :=
  match bin_data with
  | [_] => Ok bin_data
  | [b0; b1] => Ok [b1; b0]
  | [_; _; _] => Raise (SPSDKError "Unsupported length (3) for change endianism.")
  | _ => reverse_bytes_in_longs bin_data
  end.

End Misc.

(** ** spsdk/pfr/pfr.py *)

Module Pfr.

(** What [pfr.py] imports from modules that are not among the sources:
    the byte-order transform of [spsdk.utils.misc], the crypto backend,
    and the loader of user settings of the register file (a settings
    entry is a value or a mapping of bit-fields; the loader takes the
    registers and the fields to leave out). *)
Class Externals : Type := {
  change_endianism : bytes -> result bytes;
  openssl_backend : BackendClass;
  setting : Type;
  load_yml_config :
    Registers -> gmap string setting -> list string ->
    option (list (string * list (string * string))) -> result Registers
}.

(** [PfrConfiguration]: a user configuration; every attribute may be
    [None]. *)
Module PfrConfiguration.
Record t (setting : Type) : Type := {
  device : option string;
  revision : option string;
  type : option string;
  settings : option (gmap string setting)
}.
Arguments device {setting} _.
Arguments revision {setting} _.
Arguments type {setting} _.
Arguments settings {setting} _.
End PfrConfiguration.

(** [calc_pub_key_hash(public_key, backend, sha_width)]. *)
Definition calc_pub_key_hash
    (public_key : PublicKey) (backend : BackendClass) (sha_width : nat) : result bytes :=
  let '(n_1, n1_len, n_2, n2_len) :=
    match public_key with
    | RSAPublicKey e n =>
        (e, ceil_div8 (bit_length e), n, ceil_div8 (bit_length n))
    | EllipticCurvePublicKey _ x y =>
        (y, sha_width / 8, x, sha_width / 8)
    end in
  n1_bytes ← to_bytes_big n_1 n1_len;
  n2_bytes ← to_bytes_big n_2 n2_len;
  Ok (hash backend (n2_bytes ++ n1_bytes) ("sha" +:+ pretty sha_width)).

(** [BaseConfigArea.pfr_reg_inverse_high_half(val)]. *)
Definition pfr_reg_inverse_high_half (val : bytes) : result bytes :=
  let ret := val in
  b2 ← index ret 2;
  let ret := <[0%nat := byte_xor b2 xff]> ret in
  b3 ← index ret 3;
  let ret := <[1%nat := byte_xor b3 xff]> ret in
  Ok ret.

(** The compute routines [getattr(self, method)] can find by name. *)
Definition compute_method (method : string) : option (bytes -> result bytes) :=
  if String.eqb method "pfr_reg_inverse_high_half"
  then Some pfr_reg_inverse_high_half
  else None.

(** [BaseConfigArea.reg_computed_fields_handler(val, context)]. *)
Definition reg_computed_fields_handler
    (context : list (string * string)) (val : bytes) : result bytes :=
  for_each
    (fun val method =>
       match compute_method method with
       | Some method_ref => method_ref val
       | None => Raise (SPSDKPfrError "The compute function doesn't exists.")
       end)
    (snd <$> context) val.

Section ConfigArea.
Context `{ext : !Externals}.

(** [BaseConfigArea] (and its subclasses [CMPA] and [CFPA], which differ
    in [__class__.__name__] and in the database they load). *)
Record BaseConfigArea : Type := {
  class_name : string;
  device : string;
  revision : string;
  config : RegConfig;
  registers : Registers;
  user_config : PfrConfiguration.t setting
}.

Definition BINARY_SIZE : nat := 512.
Definition ROTKH_SIZE : nat := 32.
Definition ROTKH_REGISTER : string := "ROTKH".
Definition MARK : bytes := ["S"; "E"; "A"; "L"]%byte.

Definition with_registers (self : BaseConfigArea) (regs : Registers) : BaseConfigArea :=
  {| class_name := class_name self; device := device self;
     revision := revision self; config := config self;
     registers := regs; user_config := user_config self |}.

(** The loop of [__init__] that sets the computed field handler. *)
Definition install_computed_fields_hooks (self : BaseConfigArea) : result BaseConfigArea :=
  regs ← for_each
    (fun regs '(reg, fields) =>
       reg_obj ← find_reg regs reg;
       Ok (update_reg regs reg
             (add_setvalue_hook reg_obj (reg_computed_fields_handler fields))))
    (get_computed_fields (config self) (device self)) (registers self);
  Ok (with_registers self regs).

(** [_get_registers()]. *)
Definition _get_registers (self : BaseConfigArea) : Registers :=
  let exclude := get_ignored_registers (config self) (device self) in
  get_registers (registers self) exclude.

(** [set_config(config, raw)], with [cfg] for the argument [config]. The
    configuration object is changed too (its revision is filled in), so
    it is returned with the area. *)
Definition set_config
    (self : BaseConfigArea) (cfg : PfrConfiguration.t setting) (raw : bool)
  : result (BaseConfigArea * PfrConfiguration.t setting) :=
  _ ← assert (truthy_str (device self));
  _ ← assert (truthy_str (revision self));
  if negb (bool_decide (PfrConfiguration.device cfg = Some (device self)))
  then Raise (SPSDKPfrConfigError "Invalid device in configuration.")
  else
  let cfg :=
    match PfrConfiguration.revision cfg with
    | Some r =>
        if negb (truthy_str r) || bool_decide (r ∈ ["latest"; EmptyString])
        then {| PfrConfiguration.device := PfrConfiguration.device cfg;
                PfrConfiguration.revision :=
                  Some (get_latest_revision (config self) (device self));
                PfrConfiguration.type := PfrConfiguration.type cfg;
                PfrConfiguration.settings := PfrConfiguration.settings cfg |}
        else cfg
    | None =>
        {| PfrConfiguration.device := PfrConfiguration.device cfg;
           PfrConfiguration.revision :=
             Some (get_latest_revision (config self) (device self));
           PfrConfiguration.type := PfrConfiguration.type cfg;
           PfrConfiguration.settings := PfrConfiguration.settings cfg |}
    end in
  if negb (bool_decide (PfrConfiguration.revision cfg = Some (revision self)))
  then Raise (SPSDKPfrConfigError "Invalid revision in configuration.")
  else
  if match PfrConfiguration.type cfg with
     | Some t => truthy_str t && negb (String.eqb (upper t) (class_name self))
     | None => false
     end
  then Raise (SPSDKPfrConfigError "Invalid configuration type.")
  else
  match PfrConfiguration.settings cfg with
  | None => Raise (SPSDKPfrConfigError "Missing configuration of PFR fields!")
  | Some settings =>
      if bool_decide (settings = ∅)
      then Raise (SPSDKPfrConfigError "Missing configuration of PFR fields!")
      else
      let computed_regs := get_ignored_registers (config self) (device self) in
      let computed_regs :=
        if raw then computed_regs
        else computed_regs ++ get_computed_registers (config self) (device self) in
      let computed_fields :=
        if raw then None else Some (get_computed_fields (config self) (device self)) in
      regs ← load_yml_config (registers self) settings computed_regs computed_fields;
      if raw then Ok (with_registers self regs, cfg)
      else
        (* Just update only configured registers *)
        let exclude_hooks :=
          list_difference (get_reg_names regs) (fst <$> map_to_list settings) in
        regs ← run_hooks regs exclude_hooks;
        Ok (with_registers self regs, cfg)
  end.

(** [_calc_rotkh(keys)]. *)
Definition _calc_rotkh (self : BaseConfigArea) (keys : list PublicKey) : result bytes :=
  reg_rotkh ← find_reg (registers self) "ROTKH";
  let width := width reg_rotkh in
  key0 ← index keys 0;
  let algorithm_width :=
    match key0 with
    | RSAPublicKey _ _ => 256
    | EllipticCurvePublicKey key_size _ _ => key_size
    end in
  if (width <? algorithm_width)%nat
  then Raise (SPSDKPfrError "The ROTKH field is smaller than used algorithm width.")
  else
  key_hashes ← comprehension
    (fun key => calc_pub_key_hash key openssl_backend algorithm_width) keys;
  let data :=
    (fun i => default (zeros (algorithm_width / 8)) (key_hashes !! i)) <$> seq 0 4 in
  Ok (ljust (hash openssl_backend (concat data) ("sha" +:+ pretty algorithm_width))
        (width / 8) x00).

(** [_get_seal_start_address()]. *)
Definition _get_seal_start_address (self : BaseConfigArea) : result nat :=
  let start := get_seal_start_address (config self) (device self) in
  _ ← assert (match start with Some s => truthy_str s | None => false end);
  reg ← find_reg (registers self) (default EmptyString start);
  Ok (offset reg).

(** [_get_seal_count()]. *)
Definition _get_seal_count (self : BaseConfigArea) : result nat :=
  let count := get_seal_count (config self) (device self) in
  _ ← assert (match count with Some (S _) => true | _ => false end);
  Ok (default 0 count).

(** One turn of the inner statement of the loop of [export]: the value
    of a register (or sub-register) is written over its span. *)
Definition export_reg (data : bytes) (reg : RegsRegister) : result bytes :=
  val ← (if reverse reg then Ok (get_value reg)
         else change_endianism (get_value reg));
  Ok (slice_assign data (offset reg) (offset reg + width reg / 8) val).

(** [export(add_seal, keys)]. The area is returned with the bytes, as
    the ROTKH register is changed when keys are given. *)
Definition export
    (self : BaseConfigArea) (add_seal : bool) (keys : option (list PublicKey))
  : result (BaseConfigArea * bytes) :=
  self ← match keys with
         | Some ((_ :: _) as keys) =>
             match
               rotkh_reg ← find_reg (registers self) ROTKH_REGISTER;
               rotkh_data ← _calc_rotkh self keys;
               rotkh_reg ← set_value rotkh_reg rotkh_data true;
               Ok (with_registers self
                     (update_reg (registers self) ROTKH_REGISTER rotkh_reg))
             with
             | Raise (SPSDKRegsErrorRegisterNotFound _) =>
                 Raise (SPSDKPfrRotkhIsNotPresent
                          "This device doesn't contain ROTKH register!")
             | r => r
             end
         | _ => Ok self
         end;
  let data := zeros BINARY_SIZE in
  data ← for_each
    (fun data reg =>
       (* rewriting 4B at the time *)
       if has_group_registers reg
       then for_each export_reg (sub_regs reg) data
       else export_reg data reg)
    (_get_registers self) data;
  data ← (if add_seal
          then
            seal_start ← _get_seal_start_address self;
            seal_count ← _get_seal_count self;
            Ok (slice_assign data seal_start (seal_start + seal_count * 4)
                  (repeat_bytes MARK seal_count))
          else Ok data);
  _ ← assert (length data =? BINARY_SIZE)%nat;
  Ok (self, data).

(** [parse(data)]: every register that is not ignored is set, in place,
    from its span of [data]. *)
Definition parse (self : BaseConfigArea) (data : bytes) : result BaseConfigArea :=
  let exclude := get_ignored_registers (config self) (device self) in
  regs ← comprehension
    (fun reg =>
       if excluded exclude reg then Ok reg
       else
         let value := slice data (offset reg) (offset reg + width reg / 8) in
         value ← change_endianism value;
         set_value reg value true)
    (registers self);
  Ok (with_registers self regs).

End ConfigArea.

End Pfr.

(** ** Files, console and clock *)

Module OS.

Inductive node : Type :=
| File (content : bytes)
| Dir.

(** Calls into the signing backend, in the order they were made. *)
Inductive event : Type :=
| EccSign (key data signature : bytes)
| EccVerify (key signature data : bytes) (valid : bool).

(** What a run of the tool can see and change: the file system, the
    working directory, the lines echoed to the console, the clock (in
    whole seconds since 2000-01-01) and the trace of backend calls. *)
Record world : Type := {
  fs : gmap string node;
  cwd : string;
  stdout : list string;
  clock : Z;
  trace : list event
}.

(** A statement of the tool: it may change the world, and it returns or
    raises. *)
Definition IO (A : Type) : Type := world -> result A * world.

#[global] Instance IO_ret : MRet IO := fun A a w => (Ok a, w).
#[global] Instance IO_bind : MBind IO := fun A B f m w =>
  match m w with
  | (Ok a, w') => f a w'
  | (Raise e, w') => (Raise e, w')
  end.

Definition raise {A} (e : exn) : IO A := fun w => (Raise e, w).

(** A computation that only looks at the world. *)
Definition look {A} (f : world -> result A) : IO A := fun w => (f w, w).

(** A computation that needs no world at all. *)
Definition pure {A} (r : result A) : IO A := fun w => (r, w).

(** [click.echo(msg)]. *)
Definition echo (msg : string) : IO unit := fun w =>
  (Ok tt, {| fs := fs w; cwd := cwd w; stdout := stdout w ++ [msg];
             clock := clock w; trace := trace w |}).

(** [open(path).read()], [load_binary(path)], [load_text(path)]. *)
Definition read_file (path : string) (w : world) : result bytes :=
  match fs w !! path with
  | Some (File content) => Ok content
  | Some Dir => Raise (IsADirectoryError path)
  | None => Raise (FileNotFoundError path)
  end.

Definition set_file (path : string) (content : bytes) (w : world) : world :=
  {| fs := <[path := File content]> (fs w); cwd := cwd w; stdout := stdout w;
     clock := clock w; trace := trace w |}.

(** [open(path, "wb")]: the file is created or truncated; a directory
    cannot be opened for writing. *)
Definition open_wb (path : string) : IO unit := fun w =>
  match fs w !! path with
  | Some Dir => (Raise (IsADirectoryError path), w)
  | _ => (Ok tt, set_file path [] w)
  end.

(** [file.write(data)] on a file opened by [open_wb]. *)
Definition file_write (path : string) (data : bytes) : IO unit := fun w =>
  (Ok tt, set_file path data w).

(** [write_file(data, path, mode="wb")]. *)
Definition write_file (data : bytes) (path : string) : IO unit :=
  _ ← open_wb path; file_write path data.

(** [os.getcwd()]. *)
Definition getcwd : IO string := fun w => (Ok (cwd w), w).

(** [os.path.join(a, b)] for a relative [b]. *)
Definition path_join (a b : string) : string :=
  match a with
  | EmptyString => b
  | _ => if String.eqb (String.substring (String.length a - 1) 1 a) "/"
         then a +:+ b else a +:+ "/" +:+ b
  end.

(** [int((datetime.now() - datetime(2000, 1, 1)).total_seconds())]. *)
Definition now : IO Z := fun w => (Ok (clock w), w).

(** The world once a backend call is on record. *)
Definition logged (w : world) (ev : event) : world :=
  {| fs := fs w; cwd := cwd w; stdout := stdout w; clock := clock w;
     trace := trace w ++ [ev] |}.

Definition log (ev : event) : IO unit := fun w => (Ok tt, logged w ev).

(** A statement is quiet when it leaves the files, the working directory
    and the trace of backend calls as they are. *)
Definition quiet {A} (m : IO A) : Prop :=
  forall w r w', m w = (r, w') ->
    fs w' = fs w /\ cwd w' = cwd w /\ trace w' = trace w /\ clock w' = clock w.

(** A statement leaves the world unchanged when it only looks. *)
Definition unchanged {A} (m : IO A) : Prop :=
  forall w r w', m w = (r, w') -> w' = w.

End OS.
Export OS.

(** ** spsdk/apps/elftosb.py *)

Module Elftosb.

(** The members of [MasterBootImageType] the lookup table names. *)
Inductive MasterBootImageType : Type :=
| CRC_RAM_IMAGE
| CRC_XIP_IMAGE
| SIGNED_XIP_IMAGE
| SIGNED_XIP_NXP_IMAGE.

(** [MasterBootImageConfig], reduced to the attributes the type lookup
    reads. *)
Module MasterBootImageConfig.
Record t : Type := {
  output_image_auth_type : string;
  output_image_exec_target : string;
  use_isk : bool
}.
End MasterBootImageConfig.

(** [str(b)] of a [bool], as an f-string formats it. *)
Definition str_bool (b : bool) : string := if b then "True" else "False".

(** [_get_master_boot_image_type(config)]. *)
Definition _get_master_boot_image_type (config : MasterBootImageConfig.t)
  : result MasterBootImageType :=
  let sb3_image_types : gmap string MasterBootImageType :=
    list_to_map [
      ("crc-ram-False", CRC_RAM_IMAGE);
      ("crc-xip-False", CRC_XIP_IMAGE);
      ("signed-xip-False", SIGNED_XIP_IMAGE);
      ("signed-xip-True", SIGNED_XIP_NXP_IMAGE)
    ] in
  let image_type :=
    MasterBootImageConfig.output_image_auth_type config +:+ "-" +:+
    MasterBootImageConfig.output_image_exec_target config +:+ "-" +:+
    str_bool (MasterBootImageConfig.use_isk config) in
  match sb3_image_types !! image_type with
  | Some t => Ok t
  | None => Raise (KeyError image_type)
  end.

(** Values of the options of a command script: strings and integers. *)
Inductive pyval : Type :=
| PStr (s : string)
| PInt (z : Z).

(** [not v]. *)
Definition falsy (v : pyval) : bool :=
  match v with
  | PStr s => negb (truthy_str s)
  | PInt z => (z =? 0)%Z
  end.

(** [v == -1]. *)
Definition eq_minus_one (v : pyval) : bool :=
  match v with
  | PInt z => (z =? -1)%Z
  | PStr _ => false
  end.

(** A section of the parsed command script: every command is a mapping
    from a command name to its parameters. *)
Record BDSection (cmd_params : Type) : Type := {
  bd_section_id : Z;
  bd_commands : list (list (string * cmd_params))
}.
Arguments bd_section_id {cmd_params} _.
Arguments bd_commands {cmd_params} _.

(** The parsed command script. *)
Record ParsedBD (cmd_params keyblob : Type) : Type := {
  options : gmap string pyval;
  sections : list (BDSection cmd_params);
  keyblobs : option (list keyblob)
}.
Arguments options {cmd_params keyblob} _.
Arguments sections {cmd_params keyblob} _.
Arguments keyblobs {cmd_params keyblob} _.

Record BootSectionV2 (command : Type) : Type := {
  section_id : Z;
  commands : list command
}.
Arguments Build_BootSectionV2 {command} _ _.

(** [BootImageV21]: what the constructor is given, and the two
    attributes assigned afterwards. *)
Record BootImageV21 (command cert_block_v2 : Type) : Type := {
  kek : bytes;
  boot_sections : list (BootSectionV2 command);
  product_version : pyval;
  component_version : pyval;
  build_number : pyval;
  cert_block : option cert_block_v2;
  private_key_pem_data : option bytes
}.
Arguments Build_BootImageV21 {command cert_block_v2} _ _ _ _ _ _ _.
Arguments kek {command cert_block_v2} _.
Arguments boot_sections {command cert_block_v2} _.
Arguments product_version {command cert_block_v2} _.
Arguments component_version {command cert_block_v2} _.
Arguments build_number {command cert_block_v2} _.
Arguments cert_block {command cert_block_v2} _.
Arguments private_key_pem_data {command cert_block_v2} _.

(** [CertificateBlockConfig]. *)
Module CertificateBlockConfig.
Record t : Type := {
  root_certs : list string;
  main_root_cert_id : Z;
  use_isk : bool;
  isk_sign_data_path : option string;
  main_root_private_key_file : option string;
  isk_certificate : option string;
  isk_constraint : Z
}.
End CertificateBlockConfig.

Inductive timestamp_t : Type :=
| TsInt (t : Z)
| TsStr (s : string).

(** [SB31Config], a [CertificateBlockConfig] with the attributes of the
    container. *)
Module SB31Config.
Record t : Type := {
  cert_config : CertificateBlockConfig.t;
  timestamp : option timestamp_t;
  main_curve_name : option string;
  is_encrypted : bool;
  container_keyblob_enc_key_path : option string;
  kdk_access_rights : Z;
  firmware_version : Z;
  description : string;
  is_nxp_container : bool;
  main_signing_key : option string;
  container_output : string
}.
End SB31Config.

(** What the constructor of [CertBlockV31] is given. *)
Record CertBlockV31 : Type := {
  cb_root_certs : list bytes;
  used_root_cert : Z;
  user_data : option bytes;
  constraints : Z;
  isk_cert : option bytes;
  ca_flag : bool;
  isk_private_key : option bytes
}.

(** What the constructor of [SecureBinary31Commands] is given, and the
    commands set afterwards. *)
Record SecureBinary31Commands (command31 : Type) : Type := {
  cmds_curve_name : string;
  cmds_is_encrypted : bool;
  cmds_kdk_access_rights : Z;
  pck : option bytes;
  cmds_timestamp : Z;
  cmds_commands : list command31
}.
Arguments Build_SecureBinary31Commands {command31} _ _ _ _ _ _.

(** A command block after [export()]: its bytes, and the attributes
    [final_hash] and [block_count] the export leaves behind. *)
Record ExportedCommands : Type := {
  commands_data : bytes;
  final_hash : bytes;
  cmds_block_count : Z
}.

(** [SecureBinary31Header]. *)
Record SecureBinary31Header : Type := {
  hdr_firmware_version : Z;
  hdr_description : string;
  hdr_curve_name : string;
  hdr_timestamp : Z;
  hdr_is_nxp_container : bool;
  block_count : Z;
  image_total_length : Z
}.

(** What [elftosb.py] imports from modules that are not among the
    sources. A helper that reads files is given the file system. *)
Class Externals : Type := {
  cmd_params : Type;
  keyblob : Type;
  command : Type;
  cert_block_v2 : Type;
  certificate : Type;
  json : Type;
  command31 : Type;
  (* bytes, str *)
  readline : bytes -> bytes;
  fromhex : bytes -> result bytes;
  int_base0 : string -> result Z;
  (* elftosb_utils.sb_21_helper *)
  update_keyblobs : cmd_params -> list keyblob -> cmd_params;
  get_command : string -> result (gmap string node -> cmd_params -> result command);
  (* spsdk.utils.crypto, spsdk.sbfile.images *)
  CertBlockV2 : pyval -> cert_block_v2;
  add_certificate : cert_block_v2 -> bytes -> result cert_block_v2;
  Certificate : bytes -> result certificate;
  set_root_key_hash : cert_block_v2 -> nat -> certificate -> result cert_block_v2;
  rkht : cert_block_v2 -> result bytes;
  BootImageV21_export : BootImageV21 command cert_block_v2 -> result bytes;
  (* commentjson, elftosb_utils.sb_31_helper, spsdk.sbfile.sb31.images *)
  json_load : bytes -> result json;
  SB31Config_init : json -> result SB31Config.t;
  get_cmd_from_json : gmap string node -> SB31Config.t -> result (list command31);
  SecureBinary31Commands_export : SecureBinary31Commands command31 -> result ExportedCommands;
  CertBlockV31_export : CertBlockV31 -> result bytes;
  SecureBinary31Header_init : Z -> string -> string -> Z -> bool -> SecureBinary31Header;
  SecureBinary31Header_export : SecureBinary31Header -> result bytes;
  (* spsdk.utils.crypto.backend_internal *)
  ecc_sign : bytes -> bytes -> result bytes;
  ecc_verify : bytes -> bytes -> bytes -> result bool
}.

(** [bd_parser.BDParser().parse(text, extern)]: the parsed script, or
    [None]. *)
Definition BDParser `{!Externals} : Type :=
  bytes -> list string -> option (ParsedBD cmd_params keyblob).

Section Tool.
Context `{ext : !Externals}.

Definition with_header_counts
    (h : SecureBinary31Header) (count total : Z) : SecureBinary31Header :=
  {| hdr_firmware_version := hdr_firmware_version h;
     hdr_description := hdr_description h;
     hdr_curve_name := hdr_curve_name h;
     hdr_timestamp := hdr_timestamp h;
     hdr_is_nxp_container := hdr_is_nxp_container h;
     block_count := count;
     image_total_length := total |}.

(** [assert x] for an optional path, and [assert isinstance(x, str)]. *)
Definition assert_str (x : option string) (nonempty : bool) : result string :=
  match x with
  | Some s => if nonempty && negb (truthy_str s) then Raise AssertionError else Ok s
  | None => Raise AssertionError
  end.

(** [_get_cert_block_v31(config)]; it only reads files. *)
Definition _get_cert_block_v31 (config : CertificateBlockConfig.t) (w : world)
  : result CertBlockV31 :=
  root_certs ← comprehension (fun cert_file => read_file cert_file w)
                 (CertificateBlockConfig.root_certs config);
  user_data ←
    (if CertificateBlockConfig.use_isk config
     then match CertificateBlockConfig.isk_sign_data_path config with
          | Some path => if truthy_str path then Some <$> read_file path w else Ok None
          | None => Ok None
          end
     else Ok None);
  isk_private_key ←
    (if CertificateBlockConfig.use_isk config
     then path ← assert_str (CertificateBlockConfig.main_root_private_key_file config) true;
          Some <$> read_file path w
     else Ok None);
  isk_cert ←
    (if CertificateBlockConfig.use_isk config
     then path ← assert_str (CertificateBlockConfig.isk_certificate config) true;
          Some <$> read_file path w
     else Ok None);
  Ok {| cb_root_certs := root_certs;
        used_root_cert := CertificateBlockConfig.main_root_cert_id config;
        user_data := user_data;
        constraints := CertificateBlockConfig.isk_constraint config;
        isk_cert := isk_cert;
        ca_flag := negb (CertificateBlockConfig.use_isk config);
        isk_private_key := isk_private_key |}.

(** The body of the loop over the sections of the script: the commands
    of one section, built in order. *)
Definition build_section
    (keyblobs : list keyblob) (w : world) (bd_section : BDSection cmd_params)
  : result (BootSectionV2 command) :=
  let section_id := bd_section_id bd_section in
  commands ← comprehension
    (fun '(key, value) =>
       cmd_fce ← get_command key;
       let value :=
         if bool_decide (key ∈ ["keywrap"; "encrypt"])
         then update_keyblobs value keyblobs else value in
       cmd_fce (fs w) value)
    (concat (bd_commands bd_section));
  Ok (Build_BootSectionV2 section_id commands).

(** [secure_binary.cert_block = cert_block] followed by
    [secure_binary.private_key_pem_data = ...]. *)
Definition attach_signing_material
    (secure_binary : BootImageV21 command cert_block_v2)
    (cb : cert_block_v2) (private_key : bytes) : BootImageV21 command cert_block_v2 :=
  Build_BootImageV21 (kek secure_binary) (boot_sections secure_binary)
    (product_version secure_binary) (component_version secure_binary)
    (build_number secure_binary) (Some cb) (Some private_key).

(** [generate_secure_binary_21(...)]; [parser] stands for the
    [bd_parser.BDParser()] the function creates. *)
Definition generate_secure_binary_21
    (parser : BDParser)
    (bd_file_path output_file_path : string)
    (key_file_path private_key_file_path : option string)
    (signing_certificate_file_paths root_key_certificate_paths : option (list string))
    (hoh_out_path : option string)
    (external_files : list string) : IO unit :=
  bd_file_content ← look (read_file bd_file_path);
  match parser bd_file_content external_files with
  | None =>
      raise (SyntaxError "error: invalid bd file, secure binary file generation terminated")
  | Some parsed_bd_file =>
  match private_key_file_path, signing_certificate_file_paths,
        root_key_certificate_paths with
  | Some private_key_file_path, Some signing_certificate_file_paths,
    Some root_key_certificate_paths =>
      let product_version :=
        default (PStr EmptyString) (options parsed_bd_file !! "productVersion") in
      let component_version :=
        default (PStr EmptyString) (options parsed_bd_file !! "componentVersion") in
      let build_number :=
        default (PInt (-1)) (options parsed_bd_file !! "buildNumber") in
      product_version ←
        (if falsy product_version
         then _ ← echo "warning: production version not defined, defaults to '1.0.0'";
              mret (PStr "1.0.0")
         else mret product_version);
      component_version ←
        (if falsy component_version
         then _ ← echo "warning: component version not defined, defaults to '1.0.0'";
              mret (PStr "1.0.0")
         else mret component_version);
      build_number ←
        (if eq_minus_one build_number
         then _ ← echo "warning: build number not defined, defaults to '1.0.0'";
              mret (PInt 1)
         else mret build_number);
      sb_kek ←
        match key_file_path with
        | None =>
            _ ← echo "warning: no KEK key provided, using a zero KEK key";
            mret (zeros 32)
        | Some key_file_path =>
            kek_key_file ← look (read_file key_file_path);
            pure (fromhex (readline kek_key_file))
        end;
      let keyblobs := default [] (keyblobs parsed_bd_file) in
      sb_sections ← look (fun w =>
        comprehension (build_section keyblobs w) (sections parsed_bd_file));
      let secure_binary :=
        Build_BootImageV21 sb_kek sb_sections
          product_version component_version build_number None None in
      let cert_block := CertBlockV2 build_number in
      cert_block ← look (fun w =>
        for_each
          (fun cert_block cert_file_path =>
             cert_data ← read_file cert_file_path w;
             add_certificate cert_block cert_data)
          signing_certificate_file_paths cert_block);
      cert_block ← look (fun w =>
        for_each
          (fun cert_block '(cert_idx, cert_path) =>
             cert_data ← read_file cert_path w;
             cert ← Certificate cert_data;
             set_root_key_hash cert_block cert_idx cert)
          (imap pair root_key_certificate_paths) cert_block);
      private_key ← look (read_file private_key_file_path);
      let secure_binary := attach_signing_material secure_binary cert_block private_key in
      hoh_out_path ←
        match hoh_out_path with
        | None =>
            hoh_out_path ← getcwd;
            let _ := path_join hoh_out_path "hash.bin" in
            mret hoh_out_path
        | Some hoh_out_path => mret hoh_out_path
        end;
      _ ← open_wb hoh_out_path;
      rkht_data ← pure (rkht cert_block);
      _ ← file_write hoh_out_path rkht_data;
      _ ← open_wb output_file_path;
      sb_data ← pure (BootImageV21_export secure_binary);
      file_write output_file_path sb_data
  | _, _, _ =>
      _ ← echo "error: Signed image requires private key with -s option, one or more certificate(s) using -S option and one or more root key certificates using -R option";
      raise (SystemExit 1)
  end
  end.

Definition internal_backend_ecc_sign (key data : bytes) : IO bytes :=
  signature ← pure (ecc_sign key data);
  _ ← log (EccSign key data signature);
  mret signature.

Definition internal_backend_ecc_verify (key signature data : bytes) : IO bool :=
  valid ← pure (ecc_verify key signature data);
  _ ← log (EccVerify key signature data valid);
  mret valid.

(** [generate_secure_binary(container_conf)]; [container_conf] is the
    content of the opened configuration file. *)
Definition generate_secure_binary (container_conf : bytes) : IO unit :=
  config_data ← pure (json_load container_conf);
  config ← pure (SB31Config_init config_data);
  timestamp ←
    match SB31Config.timestamp config with
    | None => now
    | Some (TsInt t) => mret t
    | Some (TsStr s) => pure (int_base0 s)
    end;
  let final_data : bytes := [] in
  main_curve_name ← pure (assert_str (SB31Config.main_curve_name config) false);
  (* COMMANDS *)
  pck ←
    (if SB31Config.is_encrypted config
     then path ← pure (assert_str (SB31Config.container_keyblob_enc_key_path config) false);
          text ← look (read_file path);
          pure (Some <$> fromhex text)
     else mret None);
  commands ← look (fun w => get_cmd_from_json (fs w) config);
  let sb_cmd_block :=
    Build_SecureBinary31Commands main_curve_name (SB31Config.is_encrypted config)
      (SB31Config.kdk_access_rights config) pck timestamp commands in
  sb_cmd_block ← pure (SecureBinary31Commands_export sb_cmd_block);
  let commands_data := commands_data sb_cmd_block in
  (* CERTIFICATE BLOCK *)
  cert_block ← look (_get_cert_block_v31 (SB31Config.cert_config config));
  data_cb ← pure (CertBlockV31_export cert_block);
  (* SB FILE HEADER *)
  let sb_header :=
    SecureBinary31Header_init (SB31Config.firmware_version config)
      (SB31Config.description config) main_curve_name timestamp
      (SB31Config.is_nxp_container config) in
  let sb_header :=
    with_header_counts sb_header (cmds_block_count sb_cmd_block)
      (image_total_length sb_header
       + (Z.of_nat (length (final_hash sb_cmd_block)) + Z.of_nat (length data_cb))
       + 2 * Z.of_nat (length (final_hash sb_cmd_block)))%Z in
  sb_header_data ← pure (SecureBinary31Header_export sb_header);
  let final_data := final_data ++ sb_header_data in
  (* HASH OF PREVIOUS BLOCK *)
  let final_data := final_data ++ final_hash sb_cmd_block in
  let final_data := final_data ++ data_cb in
  (* SIGNATURE *)
  main_signing_key ← pure (assert_str (SB31Config.main_signing_key config) false);
  private_key_data ← look (read_file main_signing_key);
  let data_to_sign := final_data in
  signature ← internal_backend_ecc_sign private_key_data data_to_sign;
  valid ← internal_backend_ecc_verify private_key_data signature data_to_sign;
  _ ← pure (assert valid);
  let final_data := final_data ++ signature in
  let final_data := final_data ++ commands_data in
  write_file final_data (SB31Config.container_output config).

(** The value an option of the command script stands for once the
    defaults are in: [fallback] when the option is missing or holds the
    value that marks it as missing. *)
Definition resolved (missing fallback : pyval) (is_missing : pyval -> bool)
    (o : option pyval) : pyval :=
  if is_missing (default missing o) then fallback else default missing o.

(** The statements of [generate_secure_binary_21] from the first
    [open(..., "wb")] on, for the path, the certificate block and the
    image the statements before them have arrived at. *)
Definition write_outputs
    (hoh_out_path output_file_path : string) (cb : cert_block_v2)
    (secure_binary : BootImageV21 command cert_block_v2) : IO unit :=
  _ ← open_wb hoh_out_path;
  rkht_data ← pure (rkht cb);
  _ ← file_write hoh_out_path rkht_data;
  _ ← open_wb output_file_path;
  sb_data ← pure (BootImageV21_export secure_binary);
  file_write output_file_path sb_data.

(** The warnings of the defaulting steps, in the order they are echoed. *)
Definition default_warnings (opts : gmap string pyval) (key_file_path : option string)
  : list string :=
  (if falsy (default (PStr EmptyString) (opts !! "productVersion"))
   then ["warning: production version not defined, defaults to '1.0.0'"] else [])
  ++ (if falsy (default (PStr EmptyString) (opts !! "componentVersion"))
      then ["warning: component version not defined, defaults to '1.0.0'"] else [])
  ++ (if eq_minus_one (default (PInt (-1)) (opts !! "buildNumber"))
      then ["warning: build number not defined, defaults to '1.0.0'"] else [])
  ++ (match key_file_path with
      | None => ["warning: no KEK key provided, using a zero KEK key"]
      | Some _ => []
      end).

End Tool.

End Elftosb.

(** ** Properties the specification states of [pfr.py], in its words *)

Module Stated.
Import Pfr.

(** The width [_calc_rotkh] works at: that of the first key. *)
Definition algorithm_width (keys : list PublicKey) : nat :=
  match keys with
  | RSAPublicKey _ _ :: _ => 256
  | EllipticCurvePublicKey key_size _ _ :: _ => key_size
  | [] => 0
  end.

(** "RSA: hash of big-endian-encoded (exponent, modulus) concatenation;
    EC: hash of big-endian-encoded (Y, X) coordinates". *)
Definition key_hash_of_exponent_then_modulus
    (public_key : PublicKey) (backend : BackendClass) (sha_width : nat) : Prop :=
  match public_key with
  | RSAPublicKey e n =>
      calc_pub_key_hash public_key backend sha_width
      = Ok (hash backend
              (be_digits (ceil_div8 (bit_length e)) e
               ++ be_digits (ceil_div8 (bit_length n)) n)
              ("sha" +:+ pretty sha_width))
  | EllipticCurvePublicKey _ x y =>
      calc_pub_key_hash public_key backend sha_width
      = Ok (hash backend
              (be_digits (sha_width / 8) y ++ be_digits (sha_width / 8) x)
              ("sha" +:+ pretty sha_width))
  end.

(** What [calc_pub_key_hash] hashes: the second number, then the first. *)
Definition key_hash_of_modulus_then_exponent
    (public_key : PublicKey) (backend : BackendClass) (sha_width : nat) : Prop :=
  match public_key with
  | RSAPublicKey e n =>
      calc_pub_key_hash public_key backend sha_width
      = Ok (hash backend
              (be_digits (ceil_div8 (bit_length n)) n
               ++ be_digits (ceil_div8 (bit_length e)) e)
              ("sha" +:+ pretty sha_width))
  | EllipticCurvePublicKey _ x y =>
      calc_pub_key_hash public_key backend sha_width
      = Ok (hash backend
              (be_digits (sha_width / 8) x ++ be_digits (sha_width / 8) y)
              ("sha" +:+ pretty sha_width))
  end.

(** The value of a big-endian byte string. *)
Definition from_bytes_big (b : bytes) : Z :=
  foldl (fun acc d => (acc * 256 + Z.of_N (Byte.to_N d))%Z) 0%Z b.

Section WithExternals.
Context `{ext : !Externals}.

(** "For each of 4 slots, take the provided key's hash or an all-zero
    slot if absent; concatenate the 4 slot hashes in fixed order; hash
    the concatenation with a digest width equal to the key width; pad the
    result to [field_width] bits with trailing zero bytes. Fails with
    [FieldTooNarrowError] if the algorithm width exceeds [field_width]." *)
Definition rotkh_of_four_slots (self : BaseConfigArea) (keys : list PublicKey) : Prop :=
  forall reg_rotkh, find_reg (registers self) "ROTKH" = Ok reg_rotkh ->
    let algorithm_width := algorithm_width keys in
    if (width reg_rotkh <? algorithm_width)%nat
    then _calc_rotkh self keys
         = Raise (SPSDKPfrError "The ROTKH field is smaller than used algorithm width.")
    else exists slots : list bytes,
      length slots = 4
      /\ (forall i, (i < 4)%nat ->
            match keys !! i with
            | Some key =>
                exists key_hash,
                  calc_pub_key_hash key openssl_backend algorithm_width = Ok key_hash
                  /\ slots !! i = Some key_hash
            | None => slots !! i = Some (zeros (algorithm_width / 8))
            end)
      /\ _calc_rotkh self keys
         = Ok (ljust (hash openssl_backend (concat slots)
                        ("sha" +:+ pretty algorithm_width))
                 (width reg_rotkh / 8) x00).

(** A register (or sub-register) whose value has the length its width
    asks for, whose span lies in the record, and whose value the
    byte-order transform accepts, keeping its length. *)
Definition writable (reg : RegsRegister) : Prop :=
  length (value reg) = width reg / 8
  /\ offset reg + width reg / 8 <= BINARY_SIZE
  /\ (reverse reg = false ->
      exists val, change_endianism (value reg) = Ok val
                  /\ length val = length (value reg)).

(** Every register [export] writes is writable. *)
Definition registers_fit (self : BaseConfigArea) : Prop :=
  Forall
    (fun reg =>
       if has_group_registers reg then Forall writable (sub_regs reg)
       else writable reg)
    (_get_registers self).

(** The database names a seal register of the area and a positive seal
    count, and the seal lies in the record. *)
Definition seal_declared (self : BaseConfigArea) (seal_reg : RegsRegister)
    (seal_count : nat) : Prop :=
  (exists start,
     get_seal_start_address (config self) (device self) = Some start
     /\ truthy_str start = true
     /\ find_reg (registers self) start = Ok seal_reg)
  /\ get_seal_count (config self) (device self) = Some seal_count
  /\ 0 < seal_count
  /\ offset seal_reg + seal_count * 4 <= BINARY_SIZE.

(** Hooks re-run on the registers picked by [pick], and on no other:
    [after] is [before] with the value of every picked register
    recomputed. *)
Definition hooks_rerun_on
    (pick : string -> bool) (before after : Registers) : Prop :=
  Forall2
    (fun reg reg' =>
       if pick (name reg) then reg_run_hooks reg = Ok reg' else reg' = reg)
    before after.

End WithExternals.

End Stated.

(** ** Sample inputs *)

Module Samples.
Import Pfr.

(** A backend that hands back the message it is asked to hash, so that
    what was hashed can be read off the result. *)
Definition transparent_backend : BackendClass :=
  {| hash := fun data _ => data |}.

(** Modelled from the spec: the loader of [spsdk.utils.registers] is not
    among the sources. The user configuration maps a register name to a
    value; the value of every named register that is not left out is
    stored as given, and an unknown register is an error. *)
Definition load_values
    (regs : Registers) (settings : gmap string bytes) (exclude_regs : list string)
    (exclude_fields : option (list (string * list (string * string))))
  : result Registers :=
  for_each
    (fun regs '(reg_name, val) =>
       if bool_decide (reg_name ∈ exclude_regs) then Ok regs
       else
         reg ← find_reg regs reg_name;
         reg ← set_value reg val true;
         Ok (update_reg regs reg_name reg))
    (map_to_list settings) regs.

#[local] Instance externals : Externals := {|
  change_endianism := Misc.change_endianism;
  openssl_backend := transparent_backend;
  setting := bytes;
  load_yml_config := load_values
|}.

(** A toy RSA key (p = 61, q = 53). *)
Definition rsa_key : PublicKey := RSAPublicKey 17 3233.

(** The base points of the curves P-256 and P-384, as public keys. *)
Definition p256_key : PublicKey :=
  EllipticCurvePublicKey 256
    0x6b17d1f2e12c4247f8bce6e563a440f277037d812deb33a0f4a13945d898c296
    0x4fe342e2fe1a7f9b8ee7eb4a7c0f9e162bce33576b315ececbb6406837bf51f5.

Definition p384_key : PublicKey :=
  EllipticCurvePublicKey 384
    0xaa87ca22be8b05378eb1c71ef320ad746e1d3b628ba79b9859f741e082542a385502f25dbf55296c3a545e3872760ab7
    0x3617de4a96262c6f5d9e98bf9292dc29f8f41dbd289a147ce9da3113b5f0b8c00a60b1ce1d7e819d7a431d7c90ea0e5f.

(** A CMPA-like area: a plain register, a register with a computed
    field, the ROTKH register (kept byte by byte, hence [reverse]), a
    register made of two sub-registers, and the first seal word. *)
Definition plain_reg (reg_name : string) (off w : nat) (rev : bool) (val : bytes)
  : RegsRegister :=
  {| name := reg_name; offset := off; width := w; reverse := rev; value := val;
     sub_regs := []; _set_value_hooks := [] |}.

Definition database : RegConfig :=
  {| get_devices := ["lpc55s6x"];
     get_revisions := fun _ => ["0a"; "1b"];
     get_latest_revision := fun _ => "1b";
     get_ignored_registers := fun _ => ["RESERVED"];
     get_computed_registers := fun _ => ["SHA256_DIGEST0"];
     get_computed_fields := fun _ =>
       [("DCFG_CC_SOCU_PIN", [("INVERSE_VALUE", "pfr_reg_inverse_high_half")]);
        ("DCFG_CC_SOCU_DFLT", [("INVERSE_VALUE", "pfr_reg_inverse_high_half")])];
     get_seal_start_address := fun _ => Some "SHA256_DIGEST0";
     get_seal_count := fun _ => Some 8 |}.

Definition rotkh_value : bytes :=
  [x00; x01; x02; x03; x04; x05; x06; x07; x08; x09; x0a; x0b; x0c; x0d; x0e; x0f;
   x10; x11; x12; x13; x14; x15; x16; x17; x18; x19; x1a; x1b; x1c; x1d; x1e; x1f].

Definition cmpa_registers : Registers :=
  [ plain_reg "BOOT_CFG" 0 32 false [x00; x00; x00; x01];
    plain_reg "DCFG_CC_SOCU_PIN" 24 32 false [x00; x00; x00; x00];
    plain_reg "DCFG_CC_SOCU_DFLT" 28 32 false [x00; x00; x00; x05];
    plain_reg "ROTKH" 80 256 true rotkh_value;
    {| name := "CUSTOMER_DEFINED"; offset := 256; width := 64; reverse := false;
       value := zeros 8;
       sub_regs := [ plain_reg "CUSTOMER_DEFINED0" 256 32 false [xca; xfe; x00; x01];
                     plain_reg "CUSTOMER_DEFINED1" 260 32 false [xca; xfe; x00; x02] ];
       _set_value_hooks := [] |};
    plain_reg "RESERVED" 264 32 false [xff; xff; xff; xff];
    plain_reg "SHA256_DIGEST0" 480 32 false [x00; x00; x00; x00] ].

Definition no_user_config : PfrConfiguration.t bytes :=
  {| PfrConfiguration.device := None; PfrConfiguration.revision := None;
     PfrConfiguration.type := None; PfrConfiguration.settings := None |}.

Definition cmpa : BaseConfigArea :=
  {| class_name := "CMPA"; device := "lpc55s6x"; revision := "1b";
     config := database; registers := cmpa_registers;
     user_config := no_user_config |}.

(** A CFPA-like area of the same device: no ROTKH register. *)
Definition cfpa : BaseConfigArea :=
  {| class_name := "CFPA"; device := "lpc55s6x"; revision := "1b";
     config := database;
     registers :=
       [ plain_reg "HEADER" 0 32 false [x00; x00; x00; x00];
         plain_reg "SHA256_DIGEST0" 480 32 false [x00; x00; x00; x00] ];
     user_config := no_user_config |}.

(** An area whose one register is the ROTKH register. *)
Definition rotkh_only : BaseConfigArea :=
  {| class_name := "CMPA"; device := "lpc55s6x"; revision := "1b";
     config := database;
     registers := [plain_reg "ROTKH" 80 256 true rotkh_value];
     user_config := no_user_config |}.

(** The CMPA-like area once [__init__] has set the computed field
    handlers. *)
Definition cmpa_hooked : BaseConfigArea :=
  match install_computed_fields_hooks cmpa with
  | Ok self => self
  | Raise _ => cmpa
  end.

(** A user configuration that sets one register, DCFG_CC_SOCU_PIN. *)
Definition pin_settings : gmap string bytes :=
  {[ "DCFG_CC_SOCU_PIN" := [x00; x00; x12; x34] ]}.

Definition pin_config : PfrConfiguration.t bytes :=
  {| PfrConfiguration.device := Some "lpc55s6x";
     PfrConfiguration.revision := Some "1b";
     PfrConfiguration.type := Some "cmpa";
     PfrConfiguration.settings := Some pin_settings |}.

End Samples.

(** ** Properties the specification states of [elftosb.py] *)

Module ToolStated.
Import Elftosb.

Section WithExternals.
Context `{ext : !Externals}.

(** How a run of the v3.1 assembler from [w] can have ended in [w'] with
    the outcome [r]. Either it made no call to the signing backend,
    wrote nothing and raised; or it signed the concatenation of header,
    hash of the previous block and certificate block, and then: the
    verification of that signature over those bytes raised, and the run
    ended in its exception with nothing written; or the verification
    failed, and the run ended in [AssertionError] with nothing written;
    or it succeeded, and the run either could not write or wrote signed
    bytes, signature and command block to one file. *)
Definition verified_before_written (w w' : world) (r : result unit) : Prop :=
    (trace w' = trace w /\ fs w' = fs w /\ exists e, r = Raise e)
  \/ exists sb_header sb_cmd_block cert_block header blk data_cb key signature,
       SecureBinary31Header_export sb_header = Ok header
       /\ SecureBinary31Commands_export sb_cmd_block = Ok blk
       /\ CertBlockV31_export cert_block = Ok data_cb
       /\ ecc_sign key (header ++ final_hash blk ++ data_cb) = Ok signature
       /\ ((trace w' = trace w ++
              [EccSign key (header ++ final_hash blk ++ data_cb) signature]
            /\ fs w' = fs w
            /\ exists e,
                 ecc_verify key signature (header ++ final_hash blk ++ data_cb) = Raise e
                 /\ r = Raise e)
           \/ (ecc_verify key signature (header ++ final_hash blk ++ data_cb) = Ok false
               /\ trace w' = trace w ++
                    [EccSign key (header ++ final_hash blk ++ data_cb) signature;
                     EccVerify key signature (header ++ final_hash blk ++ data_cb) false]
               /\ fs w' = fs w /\ r = Raise AssertionError)
           \/ (ecc_verify key signature (header ++ final_hash blk ++ data_cb) = Ok true
               /\ trace w' = trace w ++
                    [EccSign key (header ++ final_hash blk ++ data_cb) signature;
                     EccVerify key signature (header ++ final_hash blk ++ data_cb) true]
               /\ ((fs w' = fs w /\ exists e, r = Raise e)
                   \/ (r = Ok tt
                       /\ exists container_output,
                            fs w' = <[container_output :=
                                        File ((header ++ final_hash blk ++ data_cb)
                                              ++ signature ++ commands_data blk)]>
                                      (fs w))))).

End WithExternals.

End ToolStated.

(** ** Sample runs of the tool *)

Module ToolSamples.
Import Elftosb.

Definition sb31_config : SB31Config.t :=
  {| SB31Config.cert_config :=
       {| CertificateBlockConfig.root_certs := ["/work/root0.der"];
          CertificateBlockConfig.main_root_cert_id := 0;
          CertificateBlockConfig.use_isk := false;
          CertificateBlockConfig.isk_sign_data_path := None;
          CertificateBlockConfig.main_root_private_key_file := Some "/work/sign.pem";
          CertificateBlockConfig.isk_certificate := None;
          CertificateBlockConfig.isk_constraint := 0 |};
     SB31Config.timestamp := Some (TsInt 1000);
     SB31Config.main_curve_name := Some "secp256r1";
     SB31Config.is_encrypted := false;
     SB31Config.container_keyblob_enc_key_path := None;
     SB31Config.kdk_access_rights := 0;
     SB31Config.firmware_version := 1;
     SB31Config.description := "sample";
     SB31Config.is_nxp_container := false;
     SB31Config.main_signing_key := Some "/work/sign.pem";
     SB31Config.container_output := "/work/out.sb3" |}.

(** Stand-ins for the helpers that are not among the sources, simple
    enough to run: commands are their names, a certificate block is the
    list of what was added to it, every export is a short byte string,
    and a signature is the key followed by the length of the data. *)
Definition toy_sign (key data : bytes) : bytes :=
  key ++ [byte_of_Z (Z.of_nat (length data))].

#[local] Instance externals : Externals := {|
  cmd_params := unit;
  keyblob := unit;
  command := string;
  cert_block_v2 := list bytes;
  certificate := bytes;
  json := bytes;
  command31 := unit;
  readline := fun text => text;
  fromhex := fun text => Ok text;
  int_base0 := fun _ => Ok 0%Z;
  update_keyblobs := fun value _ => value;
  get_command := fun key => Ok (fun _ _ => Ok key);
  CertBlockV2 := fun _ => [];
  add_certificate := fun cb cert_data => Ok (cb ++ [cert_data]);
  Certificate := fun cert_data => Ok cert_data;
  set_root_key_hash := fun cb _ cert => Ok (cb ++ [cert]);
  rkht := fun cb => Ok (concat cb);
  BootImageV21_export := fun img => Ok (kek img ++ default [] (private_key_pem_data img));
  json_load := fun text => Ok text;
  SB31Config_init := fun _ => Ok sb31_config;
  get_cmd_from_json := fun _ _ => Ok [];
  SecureBinary31Commands_export := fun _ =>
    Ok {| commands_data := [xc0; xc1]; final_hash := [xaa; xbb]; cmds_block_count := 1 |};
  CertBlockV31_export := fun cb => Ok (concat (cb_root_certs cb));
  SecureBinary31Header_init := fun fw descr curve ts nxp =>
    {| hdr_firmware_version := fw; hdr_description := descr; hdr_curve_name := curve;
       hdr_timestamp := ts; hdr_is_nxp_container := nxp;
       block_count := 0; image_total_length := 16 |};
  SecureBinary31Header_export := fun h => Ok [byte_of_Z (image_total_length h)];
  ecc_sign := fun key data => Ok (toy_sign key data);
  ecc_verify := fun key signature data =>
    Ok (bool_decide (signature = toy_sign key data))
|}.

(** The same with a signing backend whose signatures do not verify. *)
#[local] Instance faulty_externals : Externals := {|
  cmd_params := unit;
  keyblob := unit;
  command := string;
  cert_block_v2 := list bytes;
  certificate := bytes;
  json := bytes;
  command31 := unit;
  readline := fun text => text;
  fromhex := fun text => Ok text;
  int_base0 := fun _ => Ok 0%Z;
  update_keyblobs := fun value _ => value;
  get_command := fun key => Ok (fun _ _ => Ok key);
  CertBlockV2 := fun _ => [];
  add_certificate := fun cb cert_data => Ok (cb ++ [cert_data]);
  Certificate := fun cert_data => Ok cert_data;
  set_root_key_hash := fun cb _ cert => Ok (cb ++ [cert]);
  rkht := fun cb => Ok (concat cb);
  BootImageV21_export := fun img => Ok (kek img ++ default [] (private_key_pem_data img));
  json_load := fun text => Ok text;
  SB31Config_init := fun _ => Ok sb31_config;
  get_cmd_from_json := fun _ _ => Ok [];
  SecureBinary31Commands_export := fun _ =>
    Ok {| commands_data := [xc0; xc1]; final_hash := [xaa; xbb]; cmds_block_count := 1 |};
  CertBlockV31_export := fun cb => Ok (concat (cb_root_certs cb));
  SecureBinary31Header_init := fun fw descr curve ts nxp =>
    {| hdr_firmware_version := fw; hdr_description := descr; hdr_curve_name := curve;
       hdr_timestamp := ts; hdr_is_nxp_container := nxp;
       block_count := 0; image_total_length := 16 |};
  SecureBinary31Header_export := fun h => Ok [byte_of_Z (image_total_length h)];
  ecc_sign := fun key data => Ok (toy_sign key data);
  ecc_verify := fun _ _ _ => Ok false
|}.

(** A working directory with a command script, a key file, certificates
    and a signing key. *)
Definition sample_world : world :=
  {| fs := list_to_map
       [ ("/work", Dir);
         ("/work/app.bd", File [x01]);
         ("/work/kek.txt", File [x11; x22]);
         ("/work/key.pem", File [x33]);
         ("/work/cert.der", File [x44]);
         ("/work/root0.der", File [x55]);
         ("/work/sign.pem", File [x66]);
         ("/work/sb3.json", File [x77]) ];
     cwd := "/work";
     stdout := [];
     clock := 846720000;
     trace := [] |}.

(** A parsed script with one section that holds one [load] command. *)
Definition sample_script (opts : gmap string pyval) : ParsedBD unit unit :=
  {| options := opts;
     sections := [ {| bd_section_id := 0; bd_commands := [[("load", tt)]] |} ];
     keyblobs := None |}.

(** A parser that finds no options in the script, and one that finds
    the product version set to the empty string. *)
Definition parser_missing : bytes -> list string -> option (ParsedBD unit unit) :=
  fun _ _ => Some (sample_script ∅).

Definition parser_explicit : bytes -> list string -> option (ParsedBD unit unit) :=
  fun _ _ => Some (sample_script {[ "productVersion" := PStr EmptyString ]}).

(** The sample run of [generate_secure_binary_21], for a parser and a
    path for the hash of hashes. *)
Definition run_sb21
    (parser : bytes -> list string -> option (ParsedBD unit unit))
    (hoh_out_path : option string) : result unit * world :=
  generate_secure_binary_21 (ext := externals) parser
    "/work/app.bd" "/work/out.sb2" (Some "/work/kek.txt") (Some "/work/key.pem")
    (Some ["/work/cert.der"]) (Some ["/work/root0.der"]) hoh_out_path []
    sample_world.

End ToolSamples.

(** ** The layout of an exported record, in words *)

Module Layout.
Import Pfr.

Section WithExternals.
Context `{ext : !Externals}.

(** The registers [export] writes, in the order it writes them: a
    register that has sub-registers is written through them. *)
Definition written (self : BaseConfigArea) : Registers :=
  flat_map (fun reg => if has_group_registers reg then sub_regs reg else [reg])
    (_get_registers self).

(** The bytes [export] writes for a register: its value, put through the
    byte-order transform unless the register has the [reverse] flag. *)
Definition exported_value (reg : RegsRegister) : result bytes :=
  if reverse reg then Ok (get_value reg) else change_endianism (get_value reg).

(** The indices of the record a register is written to. *)
Definition in_span (reg : RegsRegister) (i : nat) : Prop :=
  offset reg <= i < offset reg + width reg / 8.

(** Two registers whose spans do not meet. *)
Definition apart (reg1 reg2 : RegsRegister) : Prop :=
  offset reg1 + width reg1 / 8 <= offset reg2
  \/ offset reg2 + width reg2 / 8 <= offset reg1.

(** An area every handled register of which is a plain one: it has no
    sub-registers and no [reverse] flag. *)
Definition plain_area (self : BaseConfigArea) : Prop :=
  Forall (fun reg => sub_regs reg = [] /\ reverse reg = false) (_get_registers self).

(** The byte-order transform keeps the length of a value and undoes
    itself. *)
Definition endianism_is_involution : Prop :=
  forall val val',
    change_endianism val = Ok val' ->
    length val' = length val /\ change_endianism val' = Ok val.

End WithExternals.

End Layout.

(** ** More sample inputs *)

Module MoreSamples.
Import Pfr Samples.

#[local] Existing Instance Samples.externals.

(** The database of a device whose seal would end past the record. *)
Definition long_seal_database : RegConfig :=
  {| get_devices := ["lpc55s6x"];
     get_revisions := fun _ => ["0a"; "1b"];
     get_latest_revision := fun _ => "1b";
     get_ignored_registers := fun _ => ["RESERVED"];
     get_computed_registers := fun _ => ["SHA256_DIGEST0"];
     get_computed_fields := fun _ => [];
     get_seal_start_address := fun _ => Some "SHA256_DIGEST0";
     get_seal_count := fun _ => Some 9 |}.

Definition long_seal_cfpa : BaseConfigArea :=
  {| class_name := "CFPA"; device := "lpc55s6x"; revision := "1b";
     config := long_seal_database;
     registers :=
       [ plain_reg "HEADER" 0 32 false [x00; x00; x00; x07];
         plain_reg "SHA256_DIGEST0" 480 32 false [x00; x00; x00; x00] ];
     user_config := no_user_config |}.

(** A CFPA-like area of plain registers, one of them ignored. *)
Definition plain_cfpa : BaseConfigArea :=
  {| class_name := "CFPA"; device := "lpc55s6x"; revision := "1b";
     config := database;
     registers :=
       [ plain_reg "HEADER" 0 32 false [x00; x00; x00; x07];
         plain_reg "VERSION" 4 32 false [x00; x00; x01; x02];
         plain_reg "RESERVED" 8 32 false [xff; xff; xff; xff];
         plain_reg "SHA256_DIGEST0" 480 32 false [x0a; x0b; x0c; x0d] ];
     user_config := no_user_config |}.

End MoreSamples.

Module SizedSamples.
Import Pfr Samples.

(** A backend whose digests have 32 bytes: the message, cut or padded
    with zero bytes. *)
Definition sized_backend : BackendClass :=
  {| hash := fun data _ => take 32 (data ++ zeros 32) |}.

#[local] Instance sized_externals : Externals := {|
  change_endianism := Misc.change_endianism;
  openssl_backend := sized_backend;
  setting := bytes;
  load_yml_config := load_values
|}.

(** The sample CMPA area, for that backend. *)
Definition sized_cmpa : BaseConfigArea (ext := sized_externals) :=
  {| class_name := "CMPA"; device := "lpc55s6x"; revision := "1b";
     config := database; registers := cmpa_registers;
     user_config := no_user_config |}.

(** A hook that refuses every value, standing for a validation that
    the digest would not pass. *)
Definition refusing_hook (val : bytes) : result bytes :=
  Raise (SPSDKError "value refused").

Definition guarded_rotkh : RegsRegister :=
  add_setvalue_hook (plain_reg "ROTKH" 80 256 true rotkh_value) refusing_hook.

(** The sample CMPA area with that hook on its ROTKH register. *)
Definition guarded_cmpa : BaseConfigArea (ext := sized_externals) :=
  {| class_name := "CMPA"; device := "lpc55s6x"; revision := "1b";
     config := database;
     registers := update_reg cmpa_registers "ROTKH" guarded_rotkh;
     user_config := no_user_config |}.

(** The digest of the P-256 sample key for that area and backend. *)
Definition guarded_digest : bytes :=
  Eval vm_compute in
    match _calc_rotkh (ext := sized_externals) guarded_cmpa [p256_key] with
    | Ok rotkh_data => rotkh_data
    | Raise _ => []
    end.

End SizedSamples.

(** ** What a run of the tool reads, in words *)

Module ToolOutcomes.
Import Elftosb.

Section WithExternals.
Context `{ext : !Externals}.

(** The key encryption key of a run of [generate_secure_binary_21]:
    32 zero bytes without a key file, and what the first line of the key
    file holds in hexadecimal otherwise. *)
Definition kek_of (key_file_path : option string) (w : world) : result bytes :=
  match key_file_path with
  | None => Ok (zeros 32)
  | Some key_file_path =>
      kek_key_file ← read_file key_file_path w; fromhex (readline kek_key_file)
  end.

(** The certificate block of a run: the signing certificates are added
    in order, then the hash of each root key certificate is set at the
    index of the certificate. *)
Definition cert_block_of
    (build_number : pyval) (signing_certificate_file_paths
     root_key_certificate_paths : list string) (w : world) : result cert_block_v2 :=
  cert_block ← for_each
    (fun cert_block cert_file_path =>
       cert_data ← read_file cert_file_path w;
       add_certificate cert_block cert_data)
    signing_certificate_file_paths (CertBlockV2 build_number);
  for_each
    (fun cert_block '(cert_idx, cert_path) =>
       cert_data ← read_file cert_path w;
       cert ← Certificate cert_data;
       set_root_key_hash cert_block cert_idx cert)
    (imap pair root_key_certificate_paths) cert_block.

(** The timestamp of a v3.1 container: the one of the configuration, a
    string read as a number, or the reading of the clock when the
    configuration has none. *)
Definition timestamp_of (config : SB31Config.t) (w : world) : result Z :=
  match SB31Config.timestamp config with
  | None => Ok (clock w)
  | Some (TsInt t) => Ok t
  | Some (TsStr s) => int_base0 s
  end.

(** The key that encrypts the commands of a v3.1 container, if any. *)
Definition pck_of (config : SB31Config.t) (w : world) : result (option bytes) :=
  if SB31Config.is_encrypted config
  then path ← assert_str (SB31Config.container_keyblob_enc_key_path config) false;
       text ← read_file path w;
       Some <$> fromhex text
  else Ok None.

End WithExternals.

(** The world at another time of day. *)
Definition at_time (w : world) (t : Z) : world :=
  {| fs := fs w; cwd := cwd w; stdout := stdout w; clock := t; trace := trace w |}.

(** A statement that does not look at the clock: run at another time, it
    ends in the same way and leaves the same world, at that time. *)
Definition clock_blind {A} (m : IO A) : Prop :=
  forall w t, m (at_time w t) = (let '(r, w') := m w in (r, at_time w' t)).

End ToolOutcomes.

(** ** More sample runs of the tool *)

Module MoreToolSamples.
Import Elftosb ToolSamples.

(** The stand-ins of [ToolSamples], with an image whose export fails. *)
#[local] Instance failing_export_externals : Externals := {|
  cmd_params := unit;
  keyblob := unit;
  command := string;
  cert_block_v2 := list bytes;
  certificate := bytes;
  json := bytes;
  command31 := unit;
  readline := fun text => text;
  fromhex := fun text => Ok text;
  int_base0 := fun _ => Ok 0%Z;
  update_keyblobs := fun value _ => value;
  get_command := fun key => Ok (fun _ _ => Ok key);
  CertBlockV2 := fun _ => [];
  add_certificate := fun cb cert_data => Ok (cb ++ [cert_data]);
  Certificate := fun cert_data => Ok cert_data;
  set_root_key_hash := fun cb _ cert => Ok (cb ++ [cert]);
  rkht := fun cb => Ok (concat cb);
  BootImageV21_export := fun _ => Raise (SPSDKError "Certificate block is not set");
  json_load := fun text => Ok text;
  SB31Config_init := fun _ => Ok sb31_config;
  get_cmd_from_json := fun _ _ => Ok [];
  SecureBinary31Commands_export := fun _ =>
    Ok {| commands_data := [xc0; xc1]; final_hash := [xaa; xbb]; cmds_block_count := 1 |};
  CertBlockV31_export := fun cb => Ok (concat (cb_root_certs cb));
  SecureBinary31Header_init := fun fw descr curve ts nxp =>
    {| hdr_firmware_version := fw; hdr_description := descr; hdr_curve_name := curve;
       hdr_timestamp := ts; hdr_is_nxp_container := nxp;
       block_count := 0; image_total_length := 16 |};
  SecureBinary31Header_export := fun h => Ok [byte_of_Z (image_total_length h)];
  ecc_sign := fun key data => Ok (toy_sign key data);
  ecc_verify := fun key signature data =>
    Ok (bool_decide (signature = toy_sign key data))
|}.

(** The sample working directory with an image left by an earlier run. *)
Definition world_with_old_image : world :=
  {| fs := <["/work/out.sb2" := File [xde; xad; xbe; xef]]> (fs sample_world);
     cwd := cwd sample_world;
     stdout := stdout sample_world;
     clock := clock sample_world;
     trace := trace sample_world |}.

End MoreToolSamples.

(** ** spsdk/apps/elftosb.py: the entry point *)

Module ElftosbMain.
Import Elftosb.

Definition SUPPORTED_FAMILIES : list string := ["lpc55s3x"].

(** [str(x)] of an optional string, as an f-string formats it. *)
Definition str_opt (x : option string) : string := default "None" x.

(** Truth value of an optional string. *)
Definition truthy_opt (x : option string) : bool :=
  match x with Some s => truthy_str s | None => false end.

Section Main.
Context `{ext : !Externals}.

(** The parser [generate_secure_binary_21] creates, and the two handlers
    of [main] whose work is done by modules that are not among the
    sources: they are given the opened configuration file. *)
Variable parser : BDParser.
Variable generate_master_boot_image : bytes -> IO unit.
Variable generate_trustzone_binary : bytes -> IO unit.

(** [main(...)], called by [click] with the values of the options: a
    path option is a string or [None], an opened file its content or
    [None]. *)
Definition main
    (chip_family command output key pkey : option string)
    (cert root_key_cert : option (list string))
    (image_conf container_conf tzm_conf : option bytes)
    (hash_of_hashes : option string) (external : list string) : IO unit :=
  _ ← (if truthy_opt command
       then
         match output with
         | None =>
             _ ← echo "error: no output file was specified";
             raise (SystemExit 1)
         | Some output =>
             _ ← (match chip_family with
                  | None => echo "error"
                  | Some _ => mret tt
                  end);
             generate_secure_binary_21 parser (default EmptyString command) output
               key pkey cert root_key_cert hash_of_hashes external
         end
       else mret tt);
  if negb (bool_decide (chip_family ∈ (Some <$> SUPPORTED_FAMILIES)))
  then
    _ ← echo ("Family '" +:+ str_opt chip_family +:+ "' is not supported");
    raise (SystemExit 1)
  else
    _ ← (match image_conf with
         | Some image_conf => generate_master_boot_image image_conf
         | None => mret tt
         end);
    _ ← (match container_conf with
         | Some container_conf => generate_secure_binary container_conf
         | None => mret tt
         end);
    match tzm_conf with
    | Some tzm_conf => generate_trustzone_binary tzm_conf
    | None => mret tt
    end.

End Main.

End ElftosbMain.

(** ** spsdk/pfr/pfr.py: the constructors *)

Module PfrInit.
Import Pfr.

(** Truth value of an optional string: [None] and the empty string are
    false. *)
Definition truthy_opt (x : option string) : bool :=
  match x with Some s => truthy_str s | None => false end.

(** What the constructor of [BaseConfigArea] takes from modules that are
    not among the sources: the registers [load_registers_from_xml]
    reads for a device and a revision of a database, and the names of
    the registers the database lists under "backward_compatibility". *)
Class InitExternals `{ext : !Externals} : Type := {
  load_registers_from_xml : RegConfig -> string -> string -> result Registers;
  get_backward_compatibility : RegConfig -> string -> list string
}.

Section Init.
Context `{ext : !Externals} `{init : !InitExternals}.

(** [PfrConfiguration.__init__(config, device, revision, cfg_type)] for
    a [config] that is [None] or a [PfrConfiguration], the two cases the
    constructor of [BaseConfigArea] passes on; a file name or a
    dictionary goes through [PfrConfiguration.set_config] instead. *)
Definition PfrConfiguration__init__
    (config : option (PfrConfiguration.t setting))
    (device revision cfg_type : option string) : PfrConfiguration.t setting :=
  let self :=
    {| PfrConfiguration.device := device;
       PfrConfiguration.revision := revision;
       PfrConfiguration.type := cfg_type;
       PfrConfiguration.settings := None |} in
  match config with
  | None => self
  | Some config =>
      {| PfrConfiguration.device :=
           if negb (truthy_opt (PfrConfiguration.device self))
           then PfrConfiguration.device config else PfrConfiguration.device self;
         PfrConfiguration.revision :=
           if negb (truthy_opt (PfrConfiguration.revision self))
           then PfrConfiguration.revision config else PfrConfiguration.revision self;
         PfrConfiguration.type :=
           if negb (truthy_opt (PfrConfiguration.type self))
           then PfrConfiguration.type config else PfrConfiguration.type self;
         PfrConfiguration.settings :=
           match PfrConfiguration.settings config with
           | Some settings =>
               if bool_decide (settings = ∅) then PfrConfiguration.settings self
               else Some settings
           | None => PfrConfiguration.settings self
           end |}
  end.

(** [PfrConfiguration.is_invalid()]. *)
Definition is_invalid (self : PfrConfiguration.t setting) : option string :=
  if negb (truthy_opt (PfrConfiguration.device self))
  then Some "The device is NOT specified!"
  else if negb (truthy_opt (PfrConfiguration.type self))
  then Some "The PFR type (CMPA/CFPA) is NOT specified!"
  else None.

Definition with_user_config
    (self : BaseConfigArea) (cfg : PfrConfiguration.t setting) : BaseConfigArea :=
  {| class_name := class_name self; device := device self;
     revision := revision self; config := config self;
     registers := registers self; user_config := cfg |}.

(** [_apply_backward_compatibility()]: every register the database
    lists has to be there. What it enables on the registers is a matter
    of the loader of user settings. *)
Definition _apply_backward_compatibility (self : BaseConfigArea) : result unit :=
  for_each
    (fun _ bc_reg_name => _ ← find_reg (registers self) bc_reg_name; Ok tt)
    (get_backward_compatibility (config self) (device self)) tt.

(** [BaseConfigArea.__init__(device, revision, user_config)] of the
    class [cls] ([CMPA] or [CFPA]), whose [_load_config()] gives the
    database [database]. *)
Definition __init__
    (cls : string) (database : RegConfig)
    (device revision : option string)
    (user_config : option (PfrConfiguration.t setting)) : result BaseConfigArea :=
  _ ← assert (truthy_opt device || bool_decide (is_Some user_config));
  let config := database in
  let self_device :=
    if truthy_opt device then device
    else match user_config with
         | Some user_config => PfrConfiguration.device user_config
         | None => Some EmptyString
         end in
  _ ← assert (bool_decide (self_device ∈ (Some <$> get_devices config)));
  let self_device := default EmptyString self_device in
  let self_revision :=
    if truthy_opt revision then revision
    else match user_config with
         | Some user_config => PfrConfiguration.revision user_config
         | None => Some "latest"
         end in
  let self_revision :=
    if negb (truthy_opt self_revision) || bool_decide (self_revision = Some "latest")
    then get_latest_revision config self_device
    else default EmptyString self_revision in
  _ ← assert (bool_decide (self_revision ∈ get_revisions config self_device));
  registers ← load_registers_from_xml config self_device self_revision;
  let self :=
    {| class_name := cls; device := self_device; revision := self_revision;
       config := config; registers := registers;
       user_config := PfrConfiguration__init__ None None None None |} in
  (* Set the computed field handler *)
  self ← install_computed_fields_hooks self;
  (* Solve backward compatibility of configuration *)
  _ ← _apply_backward_compatibility self;
  let cfg :=
    PfrConfiguration__init__ user_config (Some self_device) (Some self_revision)
      (Some cls) in
  let self := with_user_config self cfg in
  match PfrConfiguration.settings cfg with
  | Some settings =>
      if bool_decide (settings = ∅) then Ok self
      else
        '(self, cfg) ← set_config self cfg false;
        Ok (with_user_config self cfg)
  | None => Ok self
  end.

End Init.

End PfrInit.

Module InitSamples.
Import Pfr PfrInit Samples.

#[local] Existing Instance Samples.externals.

(** The registers of the sample CMPA area stand for what the register
    description of the device holds; one register is listed for
    backward compatibility. *)
#[local] Instance init_externals : InitExternals := {|
  load_registers_from_xml := fun _ _ _ => Ok cmpa_registers;
  get_backward_compatibility := fun _ _ => ["BOOT_CFG"]
|}.

(** A user configuration written for another device and for the CFPA
    area, with the settings of [pin_config]. *)
Definition foreign_config : PfrConfiguration.t bytes :=
  {| PfrConfiguration.device := Some "lpc55s3x";
     PfrConfiguration.revision := None;
     PfrConfiguration.type := Some "CFPA";
     PfrConfiguration.settings := Some pin_settings |}.

End InitSamples.

(** ** spsdk/pfr/pfr.py: reading a configuration dictionary *)

Module PfrConfigurationDict.

(** The values [json.load] and [yaml.safe_load] give for a document
    with string keys. A float is kept as it is written. *)
Inductive yval : Type :=
| YNone
| YBool (b : bool)
| YInt (z : Z)
| YFloat (repr : string)
| YStr (s : string)
| YList (items : list yval)
| YDict (items : list (string * yval)).

(** A dictionary: its items in insertion order, every key once. *)
Abbreviation dict := (list (string * yval)).

(** What the methods raise: the exceptions of the Python run time, and
    the error of a configuration that cannot be read. *)
Inductive raised : Type :=
| TypeError
| AttributeError
| BuiltIn (e : exn)
| SPSDKPfrConfigReadError (msg : string).

Inductive outcome (A : Type) : Type :=
| Done (a : A)
| Raised (e : raised).
Arguments Done {A} a.
Arguments Raised {A} e.

#[global] Instance outcome_ret : MRet outcome := @Done.
#[global] Instance outcome_bind : MBind outcome := fun A B f m =>
  match m with
  | Done a => f a
  | Raised e => Raised e
  end.

(** [d.get(key, default)] and [d[key]]. *)
Definition dict_get (d : dict) (key : string) : option yval :=
  snd <$> List.find (fun item => String.eqb item.1 key) d.

Definition dict_item (d : dict) (key : string) : outcome yval :=
  match dict_get d key with
  | Some v => Done v
  | None => Raised (BuiltIn (KeyError key))
  end.

(** [d[key] = v]: the value of a key that is there is replaced, a new
    key goes to the end. *)
Fixpoint dict_set (d : dict) (key : string) (v : yval) : dict :=
  match d with
  | [] => [(key, v)]
  | (k, v0) :: d' =>
      if String.eqb k key then (k, v) :: d' else (k, v0) :: dict_set d' key v
  end.

(** [len(x)]. *)
Definition len (x : yval) : outcome nat :=
  match x with
  | YStr s => Done (String.length s)
  | YList items => Done (length items)
  | YDict items => Done (length items)
  | _ => Raised TypeError
  end.

(** [x.get(key, default)]: only a dictionary has it. *)
Definition get (x : yval) (key : string) (default : yval) : outcome yval :=
  match x with
  | YDict items => Done (from_option id default (dict_get items key))
  | _ => Raised AttributeError
  end.

(** [isinstance(x, (str, int))]; a [bool] is an [int]. *)
Definition is_str_or_int (x : yval) : bool :=
  match x with
  | YStr _ | YInt _ | YBool _ => true
  | _ => false
  end.

(** The loop of [_detect_obsolete_style_of_settings] over the keys of a
    dictionary. *)
Fixpoint detect_loop (items : dict) : outcome bool :=
  match items with
  | [] => Done false
  | (key, v) :: items' =>
      if is_str_or_int v then Done true
      else
        match v with
        | YDict inner =>
            match inner with
            | [] => Raised (BuiltIn IndexError)
            | (first_key, _) :: _ =>
                if negb (bool_decide (first_key ∈ ["value"; "bitfields"; "name"]))
                then Done true
                else detect_loop items'
            end
        | _ => detect_loop items'
        end
  end.

(** [_detect_obsolete_style_of_settings(data)]. *)
Definition _detect_obsolete_style_of_settings (data : yval) : outcome bool :=
  n ← len data;
  if (n =? 0)%nat then Done false
  else
    match data with
    | YDict items => detect_loop items
    | _ => Raised AttributeError
    end.

(** [_get_yml_style_of_settings(data)]. *)
Definition _get_yml_style_of_settings (data : yval) : outcome yval :=
  obsolete ← _detect_obsolete_style_of_settings data;
  if negb obsolete then Done data
  else
    match data with
    | YDict items =>
        Done (YDict
          (foldl
             (fun yml_style '(key, val) =>
                let yml_style :=
                  if is_str_or_int val
                  then dict_set yml_style key (YDict [("value", val)])
                  else yml_style in
                match val with
                | YDict bitfields =>
                    dict_set yml_style key (YDict [("bitfields", YDict bitfields)])
                | _ => yml_style
                end)
             [] items))
    | _ => Raised AttributeError
    end.

(** The attributes of a [PfrConfiguration]: each holds what it was given
    or what the dictionary held. *)
Record PfrConfiguration : Type := {
  device : yval;
  revision : yval;
  type : yval;
  settings : yval
}.

(** [arg or fallback]: the fallback is looked up only when the argument
    is [None] or empty. *)
Definition or_else (arg : option string) (fallback : outcome yval) : outcome yval :=
  match arg with
  | Some (String c s) => Done (YStr (String c s))
  | _ => fallback
  end.

(** [set_config_dict(data, device, revision, cfg_type)]: the object as
    the call leaves it, and what the call returns or raises. *)
Definition set_config_dict
    (self : PfrConfiguration) (data : yval) (device_arg revision_arg cfg_type : option string)
  : PfrConfiguration * outcome unit :=
  match data with
  | YNone => (self, Raised (SPSDKPfrConfigReadError "Empty YAML configuration."))
  | _ =>
  match len data with
  | Raised e => (self, Raised e)
  | Done O => (self, Raised (SPSDKPfrConfigReadError "Empty YAML configuration."))
  | Done (S _) =>
  let missing_fields (e : raised) : raised :=
    match e with
    | BuiltIn (KeyError _) => SPSDKPfrConfigReadError "Missing fields in YAML configuration."
    | _ => e
    end in
  match get data "description" data with
  | Raised e => (self, Raised (missing_fields e))
  | Done description =>
  match or_else device_arg (get description "device" YNone) with
  | Raised e => (self, Raised (missing_fields e))
  | Done v =>
  let self := {| device := v; revision := revision self; type := type self;
                 settings := settings self |} in
  match or_else revision_arg (get description "revision" YNone) with
  | Raised e => (self, Raised (missing_fields e))
  | Done v =>
  let self := {| device := device self; revision := v; type := type self;
                 settings := settings self |} in
  match or_else cfg_type (get description "type" YNone) with
  | Raised e => (self, Raised (missing_fields e))
  | Done v =>
  let self := {| device := device self; revision := revision self; type := v;
                 settings := settings self |} in
  match (match data with
         | YDict items => dict_item items "settings"
         | _ => Raised TypeError
         end) ≫= _get_yml_style_of_settings with
  | Raised e => (self, Raised (missing_fields e))
  | Done v =>
      ({| device := device self; revision := revision self; type := type self;
          settings := v |}, Done tt)
  end end end end end end end.

(** What the conversion to the YML style makes of one entry of a
    document in the obsolete style: a string or a number becomes the
    value of the register, a dictionary its bit-fields, and anything
    else is left out. *)
Definition converted (val : yval) : option yval :=
  if is_str_or_int val then Some (YDict [("value", val)])
  else match val with
       | YDict bitfields => Some (YDict [("bitfields", YDict bitfields)])
       | _ => None
       end.

(** What [arg or description.get(key, None)] gives for a description
    that is a dictionary. *)
Definition chosen (arg : option string) (description : dict) (key : string) : yval :=
  match arg with
  | Some (String c s) => YStr (String c s)
  | _ => from_option id YNone (dict_get description key)
  end.

(** The description [set_config_dict] reads device, revision and type
    from: the entry "description" of the document, or the document
    itself when it has none. *)
Definition description_of (items : dict) : yval :=
  from_option id (YDict items) (dict_get items "description").

(** A sample document in the obsolete style, with an entry in the YML
    style, and a document without settings. *)
Definition mixed_settings : dict :=
  [ ("BOOT_CFG", YStr "0x1");
    ("DCFG_CC_SOCU_PIN", YDict [("value", YStr "0x1234")]);
    ("CUSTOMER", YDict [("FIELD_A", YInt 1); ("FIELD_B", YBool true)]);
    ("COMMENT", YNone) ].

Definition no_settings_document : dict :=
  [ ("description",
     YDict [("device", YStr "lpc55s6x"); ("revision", YStr "1b"); ("type", YStr "CMPA")]) ].

Definition empty_configuration : PfrConfiguration :=
  {| device := YNone; revision := YNone; type := YNone; settings := YNone |}.

End PfrConfigurationDict.

(** ** spsdk/crypto/keys_management.py *)

Module KeysManagement.

(** [str.lower()] on ASCII letters. *)
Definition lower_ascii (c : ascii) : ascii :=
  let n := nat_of_ascii c in
  if (65 <=? n)%nat && (n <=? 90)%nat then ascii_of_nat (n + 32) else c.

Fixpoint lower (s : string) : string :=
  match s with
  | EmptyString => EmptyString
  | String c s' => String (lower_ascii c) (lower s')
  end.

(** The error of [spsdk.exceptions] the lookup raises. *)
Inductive raised : Type :=
| SPSDKValueError (msg : string).

Section Curves.

(** [ec._CURVE_TYPES] of the [cryptography] package, which is not among
    the sources: the names of the curves in the order of the dictionary,
    each with the curve object its class makes. *)
Context {curve : Type}.
Variable _CURVE_TYPES : list (string * curve).

(** [get_ec_curve_object(name)]. *)
Definition get_ec_curve_object (name : string) : raised + curve :=
  match
    List.find (fun item => String.eqb (lower item.1) (lower name)) _CURVE_TYPES
  with
  | Some item => inr item.2
  | None =>
      inl (SPSDKValueError
             ("The EC curve with name '" +:+ name +:+ "' is not supported."))
  end.

End Curves.

(** A sample table of curves, each standing for its key size. *)
Definition sample_curves : list (string * nat) :=
  [("prime256v1", 256); ("secp256r1", 256); ("secp384r1", 384);
   ("brainpoolP256r1", 256)].

End KeysManagement.

(* ================================================================= *)
(** * Part II: the properties *)
(* ================================================================= *)

(** ** The Master Boot Image type lookup *)

Module MasterBootImageProofs.
Import Elftosb.

Lemma String_eq_inv (c d : ascii) (s t : string) :
  String c s = String d t -> c = d /\ s = t.
Proof. intros H. by injection H. Qed.

(** Splitting a formatted key back into its parts: when the left side is
    an append with a variable head, case on the variable and compare the
    first characters. *)
Ltac split_key H :=
  repeat (cbv [String.append str_bool] in H; fold String.append in H;
    match type of H with
    | String _ _ = String _ _ =>
        let Hc := fresh "Hc" in
        apply String_eq_inv in H as [Hc H]; try discriminate Hc; try subst
    | String _ _ = EmptyString => discriminate H
    | EmptyString = String _ _ => discriminate H
    | (?a +:+ _) = _ => is_var a; destruct a
    | (if ?b then _ else _) = _ => is_var b; destruct b
    end).

Lemma image_type_key_inv (auth target : string) (isk : bool) (a x : string) (b : bool) :
  (a, x, b) ∈ [("crc", "ram", false); ("crc", "xip", false);
               ("signed", "xip", false); ("signed", "xip", true)] ->
  auth +:+ "-" +:+ target +:+ "-" +:+ str_bool isk
  = a +:+ "-" +:+ x +:+ "-" +:+ str_bool b ->
  auth = a /\ target = x /\ isk = b.
Proof.
  intros Hin H.
  repeat (apply elem_of_cons in Hin as [Hin | Hin];
          [ injection Hin as -> -> -> | ]);
    try (by apply elem_of_nil in Hin);
    split_key H; auto.
Qed.

(** C10. The type lookup answers for exactly four triples of
    (authentication type, execution target, use-ISK flag): crc-ram-False,
    crc-xip-False, signed-xip-False and signed-xip-True. For every other
    triple, such as signed-ram-False and crc-ram-True, it raises
    [KeyError] on the formatted key. *)
Theorem master_boot_image_type_lookup (config : MasterBootImageConfig.t) :
  let auth := MasterBootImageConfig.output_image_auth_type config in
  let target := MasterBootImageConfig.output_image_exec_target config in
  let isk := MasterBootImageConfig.use_isk config in
  _get_master_boot_image_type config =
    (if decide ((auth, target, isk) = ("crc", "ram", false)) then Ok CRC_RAM_IMAGE
     else if decide ((auth, target, isk) = ("crc", "xip", false)) then Ok CRC_XIP_IMAGE
     else if decide ((auth, target, isk) = ("signed", "xip", false)) then Ok SIGNED_XIP_IMAGE
     else if decide ((auth, target, isk) = ("signed", "xip", true)) then Ok SIGNED_XIP_NXP_IMAGE
     else Raise (KeyError (auth +:+ "-" +:+ target +:+ "-" +:+ str_bool isk)))
  /\ _get_master_boot_image_type
       {| MasterBootImageConfig.output_image_auth_type := "signed";
          MasterBootImageConfig.output_image_exec_target := "ram";
          MasterBootImageConfig.use_isk := false |}
     = Raise (KeyError "signed-ram-False")
  /\ _get_master_boot_image_type
       {| MasterBootImageConfig.output_image_auth_type := "crc";
          MasterBootImageConfig.output_image_exec_target := "ram";
          MasterBootImageConfig.use_isk := true |}
     = Raise (KeyError "crc-ram-True").
Proof.
  destruct config as [auth target isk]; cbn -[decide].
  split; [| split; reflexivity].
  unfold _get_master_boot_image_type; cbn -[decide list_to_map String.append].
  destruct (decide ((auth, target, isk) = ("crc", "ram", false))) as [Heq | Hne].
  { injection Heq as -> -> ->. reflexivity. }
  destruct (decide ((auth, target, isk) = ("crc", "xip", false))) as [Heq | Hne2].
  { injection Heq as -> -> ->. reflexivity. }
  destruct (decide ((auth, target, isk) = ("signed", "xip", false))) as [Heq | Hne3].
  { injection Heq as -> -> ->. reflexivity. }
  destruct (decide ((auth, target, isk) = ("signed", "xip", true))) as [Heq | Hne4].
  { injection Heq as -> -> ->. reflexivity. }
  rewrite (not_elem_of_list_to_map_1 _ (auth +:+ "-" +:+ target +:+ "-" +:+ str_bool isk));
    [reflexivity |].
  cbn [fmap list_fmap fst].
  intros Hin.
  apply elem_of_cons in Hin as [Hin | Hin].
  { by destruct (image_type_key_inv auth target isk "crc" "ram" false
                   ltac:(set_solver) Hin) as (-> & -> & ->). }
  apply elem_of_cons in Hin as [Hin | Hin].
  { by destruct (image_type_key_inv auth target isk "crc" "xip" false
                   ltac:(set_solver) Hin) as (-> & -> & ->). }
  apply elem_of_cons in Hin as [Hin | Hin].
  { by destruct (image_type_key_inv auth target isk "signed" "xip" false
                   ltac:(set_solver) Hin) as (-> & -> & ->). }
  apply elem_of_cons in Hin as [Hin | Hin].
  { by destruct (image_type_key_inv auth target isk "signed" "xip" true
                   ltac:(set_solver) Hin) as (-> & -> & ->). }
  by apply elem_of_nil in Hin.
Qed.

End MasterBootImageProofs.

(** ** Statements of the tool, one at a time *)

Module IOFacts.

Lemma bind_inv {A B} (m : IO A) (k : A -> IO B) (w w' : world) (r : result B) :
  (m ≫= k) w = (r, w') ->
  (exists e, m w = (Raise e, w') /\ r = Raise e)
  \/ (exists a w1, m w = (Ok a, w1) /\ k a w1 = (r, w')).
Proof.
  unfold mbind, IO_bind. destruct (m w) as [[a | e] w1]; intros H.
  - right. eauto.
  - left. exists e. by inversion H.
Qed.

Lemma bind_ok_inv {A B} (m : IO A) (k : A -> IO B) (w w' : world) (b : B) :
  (m ≫= k) w = (Ok b, w') ->
  exists a w1, m w = (Ok a, w1) /\ k a w1 = (Ok b, w').
Proof.
  intros H. apply bind_inv in H as [(e & _ & He) | H]; [discriminate He | exact H].
Qed.

Lemma quiet_look {A} (f : world -> result A) : quiet (look f).
Proof. intros w r w' H. by inversion H. Qed.

Lemma quiet_pure {A} (x : result A) : quiet (pure x).
Proof. intros w r w' H. by inversion H. Qed.

Lemma quiet_mret {A} (a : A) : quiet (mret a : IO A).
Proof. intros w r w' H. by inversion H. Qed.

Lemma quiet_raise {A} (e : exn) : quiet (raise e : IO A).
Proof. intros w r w' H. by inversion H. Qed.

Lemma quiet_echo (msg : string) : quiet (echo msg).
Proof. intros w r w' H. by inversion H. Qed.

Lemma quiet_getcwd : quiet getcwd.
Proof. intros w r w' H. by inversion H. Qed.

Lemma quiet_now : quiet now.
Proof. intros w r w' H. by inversion H. Qed.

Lemma quiet_bind {A B} (m : IO A) (k : A -> IO B) :
  quiet m -> (forall a, quiet (k a)) -> quiet (m ≫= k).
Proof.
  intros Hm Hk w r w' H.
  apply bind_inv in H as [(e & H & _) | (a & w1 & H1 & H2)].
  - by apply Hm in H.
  - apply Hm in H1 as (? & ? & ? & ?). apply Hk in H2 as (? & ? & ? & ?).
    repeat split; congruence.
Qed.

Lemma quiet_if {A} (c : bool) (m1 m2 : IO A) :
  quiet m1 -> quiet m2 -> quiet (if c then m1 else m2).
Proof. by destruct c. Qed.

Lemma quiet_option {A B} (o : option A) (m1 : A -> IO B) (m2 : IO B) :
  (forall a, quiet (m1 a)) -> quiet m2 ->
  quiet (match o with Some a => m1 a | None => m2 end).
Proof. destruct o; auto. Qed.

Create HintDb quiet.
#[export] Hint Resolve quiet_look quiet_pure quiet_mret quiet_raise quiet_echo
  quiet_getcwd quiet_now quiet_if quiet_option : quiet.
#[export] Hint Extern 2 (quiet (_ ≫= _)) =>
  (apply quiet_bind; [ | intros ? ]) : quiet.
#[export] Hint Extern 1 (quiet (mret _)) => apply quiet_mret : quiet.

Lemma bind_look {A B} (f : world -> result A) (k : A -> IO B) (w : world) (a : A) :
  f w = Ok a -> (look f ≫= k) w = k a w.
Proof. intros H. unfold mbind, IO_bind, look. by rewrite H. Qed.

Lemma bind_pure_ok {A B} (a : A) (k : A -> IO B) (w : world) :
  (pure (Ok a) ≫= k) w = k a w.
Proof. reflexivity. Qed.

Lemma bind_pure {A B} (x : result A) (k : A -> IO B) (w : world) (a : A) :
  x = Ok a -> (pure x ≫= k) w = k a w.
Proof. by intros ->. Qed.

Lemma bind_run {A B} (m : IO A) (k : A -> IO B) (w w1 : world) (a : A) :
  m w = (Ok a, w1) -> (m ≫= k) w = k a w1.
Proof. intros H. unfold mbind, IO_bind. by rewrite H. Qed.

Lemma unchanged_look {A} (f : world -> result A) : unchanged (look f).
Proof. intros w r w' H. by inversion H. Qed.

Lemma unchanged_pure {A} (x : result A) : unchanged (pure x).
Proof. intros w r w' H. by inversion H. Qed.

Lemma unchanged_mret {A} (a : A) : unchanged (mret a : IO A).
Proof. intros w r w' H. by inversion H. Qed.

Lemma unchanged_raise {A} (e : exn) : unchanged (raise e : IO A).
Proof. intros w r w' H. by inversion H. Qed.

Lemma unchanged_getcwd : unchanged getcwd.
Proof. intros w r w' H. by inversion H. Qed.

Lemma unchanged_now : unchanged now.
Proof. intros w r w' H. by inversion H. Qed.

Lemma unchanged_bind {A B} (m : IO A) (k : A -> IO B) :
  unchanged m -> (forall a, unchanged (k a)) -> unchanged (m ≫= k).
Proof.
  intros Hm Hk w r w' H.
  apply bind_inv in H as [(e & H & _) | (a & w1 & H1 & H2)].
  - by apply Hm in H.
  - apply Hm in H1 as ->. by apply Hk in H2.
Qed.

Lemma unchanged_if {A} (c : bool) (m1 m2 : IO A) :
  unchanged m1 -> unchanged m2 -> unchanged (if c then m1 else m2).
Proof. by destruct c. Qed.

Lemma unchanged_option {A B} (o : option A) (m1 : A -> IO B) (m2 : IO B) :
  (forall a, unchanged (m1 a)) -> unchanged m2 ->
  unchanged (match o with Some a => m1 a | None => m2 end).
Proof. destruct o; auto. Qed.

Create HintDb unchanged.
#[export] Hint Resolve unchanged_look unchanged_pure unchanged_mret unchanged_raise
  unchanged_getcwd unchanged_now unchanged_if unchanged_option : unchanged.
#[export] Hint Extern 2 (unchanged (_ ≫= _)) =>
  (apply unchanged_bind; [ | intros ? ]) : unchanged.
#[export] Hint Extern 1 (unchanged (mret _)) => apply unchanged_mret : unchanged.

(** Proof steps. [io_next] splits a run of [m ≫= k] into the case where
    [m] raises and the case where it returns and [k] runs on; [io_both]
    does so for two runs that start with the same statement;
    [quiet_in] and [unchanged_in] turn a run of a statement that is
    quiet, or only looks, into what it says about the two worlds. *)
Ltac io_next H a w1 Hm :=
  apply bind_inv in H as [(? & Hm & ->) | (a & w1 & Hm & H)];
  [ | cbn beta in H ].

Ltac io_both Ha Hb a w1 Hm :=
  let Hm' := fresh "Hm" in
  apply bind_inv in Ha as [(? & Hm & ->) | (a & w1 & Hm & Ha)];
  apply bind_inv in Hb as [(? & Hm' & ->) | (? & ? & Hm' & Hb)];
  rewrite Hm in Hm'; try discriminate Hm'; injection Hm' as <- <-;
  [ | cbn beta in Ha, Hb ].

Ltac quiet_in Hm :=
  let Hq := fresh "Hq" in
  lazymatch type of Hm with
  | ?m ?w = _ =>
      assert (quiet m) as Hq by (eauto 10 with quiet);
      apply Hq in Hm as (? & ? & ? & ?); clear Hq
  end.

Ltac unchanged_in Hm :=
  let Hq := fresh "Hq" in
  lazymatch type of Hm with
  | ?m ?w = _ =>
      assert (unchanged m) as Hq by (eauto 10 with unchanged);
      apply Hq in Hm; clear Hq; subst
  end.

(** The value a defaulting step leaves behind: [if c: v = d; echo(msg)]. *)
Lemma defaulting_inv {A} (c : bool) (msg : string) (d v : A)
    (w w1 : world) (r : result A) :
  (if c then _ ← echo msg; mret d else mret v) w = (r, w1) ->
  r = Ok (if c then d else v)
  /\ fs w1 = fs w /\ cwd w1 = cwd w /\ trace w1 = trace w
  /\ stdout w1 = stdout w ++ (if c then [msg] else []).
Proof.
  destruct c; intros H; inversion H; subst; cbn; by rewrite ?app_nil_r.
Qed.

(** Opening a path for writing. *)
Lemma open_wb_inv (path : string) (w w1 : world) (r : result unit) :
  open_wb path w = (r, w1) ->
  (fs w !! path = Some Dir /\ r = Raise (IsADirectoryError path) /\ w1 = w)
  \/ (fs w !! path <> Some Dir /\ r = Ok tt /\ w1 = set_file path [] w).
Proof.
  unfold open_wb. intros H.
  destruct (fs w !! path) as [[content |] |] eqn:Hp; inversion H; subst; auto.
Qed.

End IOFacts.

(** ** Secure Binary v2.1 *)

Module SecureBinary21Proofs.
Import Elftosb IOFacts.

Section Proofs.
Context `{EXT : !Externals}.

(** The step that settles the key encryption key. *)
Lemma kek_step_inv (key_file_path : option string) (w w1 : world) (r : result bytes) :
  match key_file_path with
  | None =>
      _ ← echo "warning: no KEK key provided, using a zero KEK key";
      mret (zeros 32)
  | Some key_file_path =>
      kek_key_file ← look (read_file key_file_path);
      pure (fromhex (readline kek_key_file))
  end w = (r, w1) ->
  fs w1 = fs w /\ cwd w1 = cwd w
  /\ stdout w1 = stdout w ++
       match key_file_path with
       | None => ["warning: no KEK key provided, using a zero KEK key"]
       | Some _ => []
       end.
Proof.
  destruct key_file_path as [p |]; intros H.
  - unchanged_in H. by rewrite app_nil_r.
  - by inversion H.
Qed.

(** A run either stops before it opens a file for writing, or reaches
    the two writes with the image it has built. *)
Lemma generate_secure_binary_21_inv
    (parser : BDParser) (bd_file_path output_file_path : string)
    (key_file_path private_key_file_path : option string)
    (signing_certificate_file_paths root_key_certificate_paths : option (list string))
    (hoh_out_path : option string)
    (external_files : list string) (w w' : world) (r : result unit) :
  generate_secure_binary_21 parser bd_file_path output_file_path key_file_path
    private_key_file_path signing_certificate_file_paths root_key_certificate_paths
    hoh_out_path external_files w = (r, w') ->
  (fs w' = fs w /\ exists e, r = Raise e)
  \/ (exists text doc secure_binary cb w1,
        read_file bd_file_path w = Ok text
        /\ parser text external_files = Some doc
        /\ product_version secure_binary
           = resolved (PStr EmptyString) (PStr "1.0.0") falsy
               (options doc !! "productVersion")
        /\ component_version secure_binary
           = resolved (PStr EmptyString) (PStr "1.0.0") falsy
               (options doc !! "componentVersion")
        /\ build_number secure_binary
           = resolved (PInt (-1)) (PInt 1) eq_minus_one
               (options doc !! "buildNumber")
        /\ fs w1 = fs w /\ cwd w1 = cwd w
        /\ stdout w1 = stdout w ++ default_warnings (options doc) key_file_path
        /\ write_outputs (default (cwd w) hoh_out_path) output_file_path cb
             secure_binary w1 = (r, w')).
Proof.
  intros H. unfold generate_secure_binary_21 in H.
  io_next H text w1 Hm.
  { left. quiet_in Hm. eauto. }
  inversion Hm; subst w1; clear Hm. rename H1 into Htext.
  destruct (parser text external_files) as [doc |] eqn:Hdoc.
  2: { left. inversion H. eauto. }
  destruct private_key_file_path as [pk |];
    [ destruct signing_certificate_file_paths as [certs |];
      [ destruct root_key_certificate_paths as [roots |] | ] | ].
  2-4: left; cbv [mbind IO_bind echo raise] in H; inversion H; cbn; eauto.
  io_next H pv w1 Hm;
    apply defaulting_inv in Hm as (Hv & Hfs1 & Hcwd1 & _ & Hout1); [discriminate Hv |].
  injection Hv as ->.
  io_next H cv w2 Hm;
    apply defaulting_inv in Hm as (Hv & Hfs2 & Hcwd2 & _ & Hout2); [discriminate Hv |].
  injection Hv as ->.
  io_next H bn w3 Hm;
    apply defaulting_inv in Hm as (Hv & Hfs3 & Hcwd3 & _ & Hout3); [discriminate Hv |].
  injection Hv as ->.
  io_next H sb_kek w4 Hm; apply kek_step_inv in Hm as (Hfs4 & Hcwd4 & Hout4).
  { left. split; [congruence | eauto]. }
  io_next H sb_sections w5 Hm; unchanged_in Hm.
  { left. split; [congruence | eauto]. }
  io_next H cb w6 Hm; unchanged_in Hm.
  { left. split; [congruence | eauto]. }
  io_next H cb' w7 Hm; unchanged_in Hm.
  { left. split; [congruence | eauto]. }
  io_next H pkey w8 Hm; unchanged_in Hm.
  { left. split; [congruence | eauto]. }
  io_next H hoh w9 Hm.
  { left. unchanged_in Hm. split; [congruence | eauto]. }
  assert (hoh = default (cwd w) hoh_out_path /\ w9 = w4) as [-> ->].
  { destruct hoh_out_path; inversion Hm; subst; cbn; split; congruence. }
  right. eexists text, doc, _, cb', w4.
  split_and!.
  9: exact H.
  all: try done; try congruence.
  rewrite Hout4, Hout3, Hout2, Hout1. unfold default_warnings.
  by rewrite <- !app_assoc.
Qed.

(** Two runs that differ in the path for the hash of hashes only: they
    stop at the same place in the same way before any write, or reach
    the writes with the same image, certificate block and world. *)
Lemma generate_secure_binary_21_two_paths
    (parser : BDParser) (bd_file_path output_file_path : string)
    (key_file_path private_key_file_path : option string)
    (signing_certificate_file_paths root_key_certificate_paths : option (list string))
    (hoh_a hoh_b : option string)
    (external_files : list string) (w wa wb : world) (ra rb : result unit) :
  generate_secure_binary_21 parser bd_file_path output_file_path key_file_path
    private_key_file_path signing_certificate_file_paths root_key_certificate_paths
    hoh_a external_files w = (ra, wa) ->
  generate_secure_binary_21 parser bd_file_path output_file_path key_file_path
    private_key_file_path signing_certificate_file_paths root_key_certificate_paths
    hoh_b external_files w = (rb, wb) ->
  (ra = rb /\ wa = wb /\ fs wa = fs w /\ exists e, ra = Raise e)
  \/ (exists secure_binary cb w1,
        fs w1 = fs w /\ cwd w1 = cwd w
        /\ write_outputs (default (cwd w) hoh_a) output_file_path cb
             secure_binary w1 = (ra, wa)
        /\ write_outputs (default (cwd w) hoh_b) output_file_path cb
             secure_binary w1 = (rb, wb)).
Proof.
  intros Ha Hb. unfold generate_secure_binary_21 in Ha, Hb.
  io_both Ha Hb text w1 Hm.
  { left. quiet_in Hm. eauto. }
  unchanged_in Hm.
  destruct (parser text external_files) as [doc |] eqn:Hdoc.
  2: { left. inversion Ha; subst. inversion Hb. eauto. }
  destruct private_key_file_path as [pk |];
    [ destruct signing_certificate_file_paths as [certs |];
      [ destruct root_key_certificate_paths as [roots |] | ] | ].
  2-4: left; cbv [mbind IO_bind echo raise] in Ha, Hb;
       inversion Ha; subst; inversion Hb; cbn; eauto.
  io_both Ha Hb pv w1 Hm;
    apply defaulting_inv in Hm as (Hv & Hfs1 & Hcwd1 & _); [discriminate Hv |].
  clear Hv.
  io_both Ha Hb cv w2 Hm;
    apply defaulting_inv in Hm as (Hv & Hfs2 & Hcwd2 & _); [discriminate Hv |].
  clear Hv.
  io_both Ha Hb bn w3 Hm;
    apply defaulting_inv in Hm as (Hv & Hfs3 & Hcwd3 & _); [discriminate Hv |].
  clear Hv.
  io_both Ha Hb sb_kek w4 Hm; apply kek_step_inv in Hm as (Hfs4 & Hcwd4 & _).
  { left. split_and!; [done | done | congruence | eauto]. }
  io_both Ha Hb sb_sections w5 Hm; unchanged_in Hm.
  { left. split_and!; [done | done | congruence | eauto]. }
  io_both Ha Hb cb w6 Hm; unchanged_in Hm.
  { left. split_and!; [done | done | congruence | eauto]. }
  io_both Ha Hb cb' w7 Hm; unchanged_in Hm.
  { left. split_and!; [done | done | congruence | eauto]. }
  io_both Ha Hb pkey w8 Hm; unchanged_in Hm.
  { left. split_and!; [done | done | congruence | eauto]. }
  apply bind_inv in Ha as [(? & Hm & ->) | (hoh1 & w9 & Hma & Ha)].
  { destruct hoh_a; inversion Hm. }
  apply bind_inv in Hb as [(? & Hm & ->) | (hoh2 & w10 & Hmb & Hb)].
  { destruct hoh_b; inversion Hm. }
  cbn beta in Ha, Hb.
  assert (hoh1 = default (cwd w) hoh_a /\ w9 = w4) as [-> ->].
  { destruct hoh_a; inversion Hma; subst; cbn; split; congruence. }
  assert (hoh2 = default (cwd w) hoh_b /\ w10 = w4) as [-> ->].
  { destruct hoh_b; inversion Hmb; subst; cbn; split; congruence. }
  right. eexists _, cb', w4. split_and!.
  3: exact Ha.
  3: exact Hb.
  all: congruence.
Qed.

(** The two writes, when both go through. *)
Lemma write_outputs_ok_inv
    (hoh_out_path output_file_path : string) (cb : cert_block_v2)
    (secure_binary : BootImageV21 command cert_block_v2) (w1 w' : world) :
  write_outputs hoh_out_path output_file_path cb secure_binary w1 = (Ok tt, w') ->
  exists rkht_data sb_data,
    rkht cb = Ok rkht_data
    /\ BootImageV21_export secure_binary = Ok sb_data
    /\ fs w' = <[output_file_path := File sb_data]>
                 (<[hoh_out_path := File rkht_data]> (fs w1))
    /\ stdout w' = stdout w1.
Proof.
  unfold write_outputs. intros H.
  apply bind_ok_inv in H as ([] & w2 & Hm & H).
  apply open_wb_inv in Hm as [(_ & Hr & _) | (_ & _ & ->)]; [discriminate Hr |].
  apply bind_ok_inv in H as (rkht_data & w3 & Hm & H).
  injection Hm as Hrk <-.
  apply bind_ok_inv in H as ([] & w4 & Hm & H).
  injection Hm as <-.
  apply bind_ok_inv in H as ([] & w5 & Hm & H).
  apply open_wb_inv in Hm as [(_ & Hr & _) | (_ & _ & ->)]; [discriminate Hr |].
  apply bind_ok_inv in H as (sb_data & w6 & Hm & H).
  injection Hm as Hsb <-.
  injection H as <-.
  exists rkht_data, sb_data. split_and!; try done.
  cbn. by rewrite !insert_insert_eq.
Qed.

(** The first write, when its path is a directory. *)
Lemma write_outputs_directory
    (hoh_out_path output_file_path : string) (cb : cert_block_v2)
    (secure_binary : BootImageV21 command cert_block_v2) (w1 : world) :
  fs w1 !! hoh_out_path = Some Dir ->
  write_outputs hoh_out_path output_file_path cb secure_binary w1
  = (Raise (IsADirectoryError hoh_out_path), w1).
Proof.
  intros Hdir. unfold write_outputs, mbind, IO_bind, open_wb. by rewrite Hdir.
Qed.

(** C3. With no path for the hash of hashes, [generate_secure_binary_21]
    opens the working directory itself for writing. The run ends in an
    exception and no file is created or changed, so the root-of-trust
    key hash is not written to [hash.bin] in the working directory. The
    exception is [IsADirectoryError] on the working directory, unless the
    run stops before its writes, in which case it stops in the same way
    whatever path is given; so whenever the call with a path completes,
    the call without one raises [IsADirectoryError]. *)
Theorem rkht_without_path_opens_the_working_directory
    (parser : BDParser) (bd_file_path output_file_path : string)
    (key_file_path private_key_file_path : option string)
    (signing_certificate_file_paths root_key_certificate_paths : option (list string))
    (external_files : list string) (w w' : world) (r : result unit) :
  fs w !! cwd w = Some Dir ->
  generate_secure_binary_21 parser bd_file_path output_file_path key_file_path
    private_key_file_path signing_certificate_file_paths root_key_certificate_paths
    None external_files w = (r, w') ->
  fs w' = fs w
  /\ fs w' !! path_join (cwd w) "hash.bin" = fs w !! path_join (cwd w) "hash.bin"
  /\ (exists e, r = Raise e)
  /\ (forall hoh_out_path r2 w2,
        generate_secure_binary_21 parser bd_file_path output_file_path key_file_path
          private_key_file_path signing_certificate_file_paths
          root_key_certificate_paths (Some hoh_out_path) external_files w = (r2, w2) ->
        r = Raise (IsADirectoryError (cwd w)) \/ (r2 = r /\ w2 = w')).
Proof.
  intros Hdir H. split_and!.
  4: { intros hoh r2 w2 H2.
       destruct (generate_secure_binary_21_two_paths _ _ _ _ _ _ _ _ _ _ _ _ _ _ _ H H2)
         as [(-> & -> & _) | (img & cb & w1 & Hfs & Hcwd & Hw & _)]; [by right | left].
       cbn in Hw. rewrite write_outputs_directory in Hw by (by rewrite Hfs).
       by injection Hw as <- _. }
  all: apply generate_secure_binary_21_inv in H
    as [(Hfs & e & ->) | (text & doc & img & cb & w1 & _ & _ & _ & _ & _ &
                          Hfs & Hcwd & _ & H)];
    [ rewrite ?Hfs; eauto
    | cbn in H; rewrite write_outputs_directory in H by (by rewrite Hfs);
      injection H as <- <-; rewrite ?Hfs; eauto ].
Qed.

(** C9. A command script whose options hold the empty string for
    [productVersion] or [componentVersion], or -1 for [buildNumber], runs
    exactly as the script without that option does. In a run that
    completes, the file written is the export of an image that carries
    the default ("1.0.0", "1.0.0", 1) in place of that value, and the
    warning for the option has been echoed. *)
Theorem explicit_missing_marker_is_defaulted
    (parser_explicit parser_missing : BDParser)
    (bd_file_path output_file_path : string)
    (key_file_path private_key_file_path : option string)
    (signing_certificate_file_paths root_key_certificate_paths : option (list string))
    (hoh_out_path : option string) (external_files : list string)
    (w : world) (text : bytes) (doc : ParsedBD cmd_params keyblob)
    (k : string) (v : pyval) :
  (k, v) ∈ [("productVersion", PStr EmptyString);
            ("componentVersion", PStr EmptyString);
            ("buildNumber", PInt (-1))] ->
  read_file bd_file_path w = Ok text ->
  options doc !! k = None ->
  parser_missing text external_files = Some doc ->
  parser_explicit text external_files
  = Some {| options := <[k := v]> (options doc);
            sections := sections doc; keyblobs := keyblobs doc |} ->
  generate_secure_binary_21 parser_explicit bd_file_path output_file_path
    key_file_path private_key_file_path signing_certificate_file_paths
    root_key_certificate_paths hoh_out_path external_files w
  = generate_secure_binary_21 parser_missing bd_file_path output_file_path
      key_file_path private_key_file_path signing_certificate_file_paths
      root_key_certificate_paths hoh_out_path external_files w
  /\ forall w',
       generate_secure_binary_21 parser_explicit bd_file_path output_file_path
         key_file_path private_key_file_path signing_certificate_file_paths
         root_key_certificate_paths hoh_out_path external_files w = (Ok tt, w') ->
       exists secure_binary sb_data,
         BootImageV21_export secure_binary = Ok sb_data
         /\ fs w' !! output_file_path = Some (File sb_data)
         /\ (k = "productVersion" ->
             product_version secure_binary = PStr "1.0.0"
             /\ "warning: production version not defined, defaults to '1.0.0'"
                ∈ stdout w')
         /\ (k = "componentVersion" ->
             component_version secure_binary = PStr "1.0.0"
             /\ "warning: component version not defined, defaults to '1.0.0'"
                ∈ stdout w')
         /\ (k = "buildNumber" ->
             build_number secure_binary = PInt 1
             /\ "warning: build number not defined, defaults to '1.0.0'"
                ∈ stdout w').
Proof.
  intros Hk Htext Hmiss HB HA. split.
  - unfold generate_secure_binary_21.
    rewrite !(bind_look _ _ _ _ Htext), HA, HB.
    destruct private_key_file_path, signing_certificate_file_paths,
      root_key_certificate_paths; try reflexivity.
    cbn [options sections keyblobs].
    repeat (apply elem_of_cons in Hk as [Hk | Hk];
            [ injection Hk as -> ->;
              rewrite ?lookup_insert_eq, ?lookup_insert_ne, ?Hmiss by done;
              reflexivity | ]).
    by apply elem_of_nil in Hk.
  - intros w' H.
    apply generate_secure_binary_21_inv in H
      as [(_ & e & He) | (text' & doc' & img & cb & w1 & Htext' & Hdoc & Hpv & Hcv & Hbn
                          & _ & _ & Hout & H)]; [discriminate He |].
    rewrite Htext in Htext'. injection Htext' as <-.
    rewrite HA in Hdoc. injection Hdoc as <-. cbn [options] in *.
    apply write_outputs_ok_inv in H as (rk & data & _ & Hexp & Hfs & Hout').
    exists img, data. split; [done |]. split; [by rewrite Hfs, lookup_insert_eq |].
    rewrite Hout', Hout. unfold default_warnings.
    repeat (apply elem_of_cons in Hk as [Hk | Hk];
            [ injection Hk as -> ->;
              split_and!; intros Heq; try discriminate Heq;
              rewrite ?Hpv, ?Hcv, ?Hbn, lookup_insert_eq; cbn; split; [done |];
              set_solver | ]).
    by apply elem_of_nil in Hk.
Qed.

End Proofs.
End SecureBinary21Proofs.

(** ** Secure Binary v3.1 *)

Module SecureBinary31Proofs.
Import Elftosb ToolStated ToolOutcomes IOFacts.

Section Proofs.
Context `{EXT : !Externals}.

Lemma ecc_sign_inv (key data : bytes) (w w1 : world) (r : result bytes) :
  internal_backend_ecc_sign key data w = (r, w1) ->
  (exists e, ecc_sign key data = Raise e /\ r = Raise e /\ w1 = w)
  \/ (exists signature, ecc_sign key data = Ok signature /\ r = Ok signature
        /\ w1 = logged w (EccSign key data signature)).
Proof.
  unfold internal_backend_ecc_sign, mbind, IO_bind, pure, log, mret, IO_ret.
  destruct (ecc_sign key data) as [signature | e]; intros H; inversion H; eauto.
Qed.

Lemma ecc_verify_inv (key signature data : bytes) (w w1 : world) (r : result bool) :
  internal_backend_ecc_verify key signature data w = (r, w1) ->
  (exists e, ecc_verify key signature data = Raise e /\ r = Raise e /\ w1 = w)
  \/ (exists valid, ecc_verify key signature data = Ok valid /\ r = Ok valid
        /\ w1 = logged w (EccVerify key signature data valid)).
Proof.
  unfold internal_backend_ecc_verify, mbind, IO_bind, pure, log, mret, IO_ret.
  destruct (ecc_verify key signature data) as [valid | e]; intros H; inversion H; eauto.
Qed.

Lemma write_file_inv (data : bytes) (path : string) (w w1 : world) (r : result unit) :
  write_file data path w = (r, w1) ->
  (r = Raise (IsADirectoryError path) /\ w1 = w)
  \/ (r = Ok tt /\ fs w1 = <[path := File data]> (fs w) /\ trace w1 = trace w).
Proof.
  unfold write_file. intros H.
  apply bind_inv in H as [(e & Hm & ->) | ([] & w2 & Hm & H)].
  - apply open_wb_inv in Hm as [(_ & -> & ->) | (_ & Hr & _)]; [eauto | discriminate Hr].
  - apply open_wb_inv in Hm as [(_ & Hr & _) | (_ & _ & ->)]; [discriminate Hr |].
    inversion H; subst. right. cbn. by rewrite insert_insert_eq.
Qed.

(** The timestamp step and the key step of the v3.1 assembler only look
    at the world. *)
Lemma timestamp_step {B} (config : SB31Config.t) (k : Z -> IO B)
    (w : world) (timestamp : Z) :
  timestamp_of config w = Ok timestamp ->
  (match SB31Config.timestamp config with
   | None => now
   | Some (TsInt t) => mret t
   | Some (TsStr s) => pure (int_base0 s)
   end ≫= k) w = k timestamp w.
Proof.
  unfold timestamp_of. intros H. apply bind_run.
  destruct (SB31Config.timestamp config) as [[t | s] |].
  - by injection H as <-.
  - unfold pure. by rewrite H.
  - by injection H as <-.
Qed.

Lemma pck_step {B} (config : SB31Config.t) (k : option bytes -> IO B)
    (w : world) (pck : option bytes) :
  pck_of config w = Ok pck ->
  ((if SB31Config.is_encrypted config
    then path ← pure (assert_str (SB31Config.container_keyblob_enc_key_path config) false);
         text ← look (read_file path);
         pure (Some <$> fromhex text)
    else mret None) ≫= k) w = k pck w.
Proof.
  unfold pck_of. intros H. apply bind_run.
  destruct (SB31Config.is_encrypted config); [| by injection H as <-].
  destruct (assert_str (SB31Config.container_keyblob_enc_key_path config) false)
    as [path | e]; [| discriminate H].
  rewrite bind_pure_ok. cbn [mbind result_bind] in H.
  destruct (read_file path w) as [text | e] eqn:Htext; [| discriminate H].
  rewrite (bind_look _ _ _ _ Htext). cbn [mbind result_bind] in H.
  unfold pure. by rewrite H.
Qed.

(** C7. The v3.1 assembler signs the concatenation of header, hash of
    the previous block and certificate block, and the next thing it does
    is verify that very signature over those very bytes. Two statements,
    for a configuration text and a world the run starts from.

    Every run ends in one of these ways: it raised before any call to the
    backend, with nothing written; or it signed, and the verification of
    that signature over the signed bytes raised, with nothing written; or
    the verification failed and the run ended in [AssertionError] with
    nothing written; or the verification succeeded and one file was
    written (or could not be), which starts with the signed bytes,
    followed by the signature and the command block.

    Once the parts of the container are built and the signing key is
    read, the run is exactly: sign; if that raises, stop; verify the
    signature over the signed bytes; if that raises, stop; if the
    verification fails, raise [AssertionError] with the files as they
    were; otherwise write signed bytes, signature and command block to the
    output file of the configuration. So the run verifies whenever it has
    signed, and writes what the configuration asks for whenever the
    verification has succeeded. *)
Theorem signature_is_verified_before_the_container_is_written
    (container_conf : bytes) (w : world) :
  (forall (w' : world) (r : result unit),
     generate_secure_binary container_conf w = (r, w') ->
     verified_before_written w w' r)
  /\ (forall config_data config timestamp curve pck commands blk cert_block
             data_cb header signing_key key,
        json_load container_conf = Ok config_data ->
        SB31Config_init config_data = Ok config ->
        timestamp_of config w = Ok timestamp ->
        SB31Config.main_curve_name config = Some curve ->
        pck_of config w = Ok pck ->
        get_cmd_from_json (fs w) config = Ok commands ->
        SecureBinary31Commands_export
          (Build_SecureBinary31Commands curve (SB31Config.is_encrypted config)
             (SB31Config.kdk_access_rights config) pck timestamp commands) = Ok blk ->
        _get_cert_block_v31 (SB31Config.cert_config config) w = Ok cert_block ->
        CertBlockV31_export cert_block = Ok data_cb ->
        (let sb_header :=
           SecureBinary31Header_init (SB31Config.firmware_version config)
             (SB31Config.description config) curve timestamp
             (SB31Config.is_nxp_container config) in
         SecureBinary31Header_export
           (with_header_counts sb_header (cmds_block_count blk)
              (image_total_length sb_header
               + (Z.of_nat (length (final_hash blk)) + Z.of_nat (length data_cb))
               + 2 * Z.of_nat (length (final_hash blk)))%Z) = Ok header) ->
        SB31Config.main_signing_key config = Some signing_key ->
        read_file signing_key w = Ok key ->
        let data_to_sign := header ++ final_hash blk ++ data_cb in
        generate_secure_binary container_conf w
        = match ecc_sign key data_to_sign with
          | Raise e => (Raise e, w)
          | Ok signature =>
              let w1 := logged w (EccSign key data_to_sign signature) in
              match ecc_verify key signature data_to_sign with
              | Raise e => (Raise e, w1)
              | Ok valid =>
                  let w2 := logged w1 (EccVerify key signature data_to_sign valid) in
                  if valid
                  then write_file (data_to_sign ++ signature ++ commands_data blk)
                         (SB31Config.container_output config) w2
                  else (Raise AssertionError, w2)
              end
          end).
Proof.
  split.
  - intros w' r H. unfold verified_before_written. unfold generate_secure_binary in H.
    io_next H cfd w1 Hm; unchanged_in Hm; [left; eauto |].
    io_next H cfg w1 Hm; unchanged_in Hm; [left; eauto |].
    io_next H ts w1 Hm.
    { left. destruct (SB31Config.timestamp cfg) as [[t | s] |];
        unchanged_in Hm; eauto. }
    assert (w1 = w) as ->.
    { destruct (SB31Config.timestamp cfg) as [[t | s] |]; by unchanged_in Hm. }
    clear Hm.
    io_next H mcn w1 Hm; unchanged_in Hm; [left; eauto |].
    io_next H pck' w1 Hm; unchanged_in Hm; [left; eauto |].
    io_next H cmds w1 Hm; unchanged_in Hm; [left; eauto |].
    io_next H bk w1 Hm; [unchanged_in Hm; left; eauto |].
    injection Hm as Hblk <-.
    io_next H cb w1 Hm; unchanged_in Hm; [left; eauto |].
    io_next H dcb w1 Hm; [unchanged_in Hm; left; eauto |].
    injection Hm as Hcb <-.
    io_next H hdr w1 Hm; [unchanged_in Hm; left; eauto |].
    injection Hm as Hhdr <-.
    io_next H msk w1 Hm; unchanged_in Hm; [left; eauto |].
    io_next H pkd w1 Hm; unchanged_in Hm; [left; eauto |].
    rewrite app_nil_l, <- app_assoc in H.
    io_next H sg w1 Hm;
      apply ecc_sign_inv in Hm as [(e & _ & Hr & ->) | (s & Hsign & Hr & ->)];
      try discriminate Hr; [left; eauto |].
    injection Hr as <-.
    right. do 8 eexists. split_and!; [exact Hhdr | exact Hblk | exact Hcb | exact Hsign |].
    io_next H vld w1 Hm;
      apply ecc_verify_inv in Hm as [(e & Hver & Hr & ->) | (b & Hver & Hr & ->)];
      try discriminate Hr.
    { injection Hr as ->. left. cbn. eauto 6. }
    injection Hr as <-. right.
    io_next H u w1 Hm.
    { destruct vld; inversion Hm; subst. left. cbn. by rewrite <- app_assoc. }
    destruct vld; inversion Hm; subst. right.
    apply write_file_inv in H as [(-> & ->) | (-> & Hfs & Htr)].
    + split_and!; [done | cbn; by rewrite <- app_assoc | left; eauto].
    + split_and!; [done | rewrite Htr; cbn; by rewrite <- app_assoc | right].
      split; [done |]. eexists. rewrite Hfs. cbn. by rewrite <- !app_assoc.
  - intros cfd cfg ts mcn pck cmds blk cb dcb hdr msk key
      Hjson Hcfg Hts Hcurve Hpck Hcmds Hblk Hcb Hdcb Hhdr Hmsk Hkey data_to_sign.
    unfold generate_secure_binary.
    rewrite Hjson, bind_pure_ok, Hcfg, bind_pure_ok.
    rewrite (timestamp_step _ _ _ _ Hts).
    rewrite Hcurve. cbn [assert_str andb]. rewrite bind_pure_ok.
    rewrite (pck_step _ _ _ _ Hpck).
    rewrite (bind_look _ _ _ _ Hcmds).
    rewrite Hblk, bind_pure_ok.
    rewrite (bind_look _ _ _ _ Hcb).
    rewrite Hdcb, bind_pure_ok.
    cbn zeta in Hhdr. rewrite Hhdr, bind_pure_ok.
    rewrite Hmsk. cbn [assert_str andb]. rewrite bind_pure_ok.
    rewrite (bind_look _ _ _ _ Hkey).
    rewrite app_nil_l, <- app_assoc. fold data_to_sign.
    unfold internal_backend_ecc_sign, internal_backend_ecc_verify.
    unfold mbind at 1 2 3, IO_bind, pure at 1, log at 1, mret, IO_ret.
    destruct (ecc_sign key data_to_sign) as [signature | e]; [| reflexivity].
    unfold mbind, IO_bind, pure, log.
    destruct (ecc_verify key signature data_to_sign) as [[|] | e]; cbn;
      [| reflexivity | reflexivity].
    by rewrite <- !app_assoc.
Qed.

End Proofs.
End SecureBinary31Proofs.

(** ** Key hashes and the root-of-trust key hash *)

Module RotkhProofs.
Import Pfr Stated.

(** A number fits in the bytes its bit length asks for. *)
Lemma fits_in_its_bit_length (n : Z) :
  (0 <= n)%Z -> (n < 256 ^ Z.of_nat (ceil_div8 (bit_length n)))%Z.
Proof.
  intros Hn. unfold bit_length, ceil_div8.
  destruct (Z.eqb_spec n 0) as [-> | Hne]; [done |].
  rewrite Z.abs_eq by done.
  assert (0 < n)%Z as Hpos by lia.
  pose proof (Z.log2_spec n Hpos) as [_ Hlt].
  pose proof (Z.log2_nonneg n) as Hl.
  set (b := S (Z.to_nat (Z.log2 n))).
  assert (Z.succ (Z.log2 n) = Z.of_nat b) as Hb by (unfold b; lia).
  rewrite Hb in Hlt.
  eapply Z.lt_le_trans; [exact Hlt |].
  change 256%Z with (2 ^ 8)%Z. rewrite <- Z.pow_mul_r by lia.
  apply Z.pow_le_mono_r; [lia |].
  pose proof (Nat.div_mod_eq (b + 7) 8) as Hdm.
  pose proof (Nat.mod_upper_bound (b + 7) 8) as Hmod.
  lia.
Qed.

Lemma to_bytes_big_minimal (n : Z) :
  (0 <= n)%Z ->
  to_bytes_big n (ceil_div8 (bit_length n))
  = Ok (be_digits (ceil_div8 (bit_length n)) n).
Proof.
  intros Hn. unfold to_bytes_big.
  pose proof (fits_in_its_bit_length n Hn).
  destruct (n <? 0)%Z eqn:H1; [lia |].
  destruct (256 ^ Z.of_nat (ceil_div8 (bit_length n)) <=? n)%Z eqn:H2; [lia | done].
Qed.

Lemma to_bytes_big_fits (n : Z) (len : nat) :
  (0 <= n < 256 ^ Z.of_nat len)%Z ->
  to_bytes_big n len = Ok (be_digits len n).
Proof.
  intros Hn. unfold to_bytes_big.
  destruct (n <? 0)%Z eqn:H1; [lia |].
  destruct (256 ^ Z.of_nat len <=? n)%Z eqn:H2; [lia | done].
Qed.

Lemma to_bytes_big_overflow (n : Z) (len : nat) :
  (256 ^ Z.of_nat len <= n)%Z -> to_bytes_big n len = Raise OverflowError.
Proof.
  intros Hn. unfold to_bytes_big.
  destruct (256 ^ Z.of_nat len <=? n)%Z eqn:H2; [| lia].
  by rewrite orb_true_r.
Qed.

(** [be_digits] is the big-endian encoding: read back most significant
    byte first, the digits give the number modulo 256 to the length. *)
Lemma byte_of_Z_value (z : Z) : Z.of_N (Byte.to_N (byte_of_Z z)) = (z mod 256)%Z.
Proof.
  unfold byte_of_Z.
  pose proof (Z.mod_pos_bound z 256 ltac:(lia)) as Hb.
  destruct (Byte.of_N (Z.to_N (z mod 256))) as [b |] eqn:Hof.
  - apply Byte.to_of_N in Hof. cbn. rewrite Hof. lia.
  - apply Byte.of_N_None_iff in Hof. lia.
Qed.

Lemma from_bytes_big_be_digits (len : nat) (n : Z) :
  from_bytes_big (be_digits len n) = (n mod 256 ^ Z.of_nat len)%Z.
Proof.
  revert n. induction len as [| len IH]; intros n.
  - cbn. by rewrite Z.mod_1_r.
  - cbn [be_digits]. unfold from_bytes_big in *.
    rewrite foldl_app. cbn [foldl]. rewrite IH, byte_of_Z_value.
    rewrite Nat2Z.inj_succ, Z.pow_succ_r by lia.
    rewrite Z.rem_mul_r by lia. lia.
Qed.

(** C2, as stated, fails: for the RSA key (e = 17, n = 3233) the bytes
    hashed are those of the modulus followed by those of the exponent,
    not those of the exponent followed by those of the modulus; and for
    the base point of P-256 they are those of X followed by those of Y,
    not Y followed by X. *)
Lemma key_hash_order_counterexample :
  ~ key_hash_of_exponent_then_modulus Samples.rsa_key Samples.transparent_backend 256
  /\ ~ key_hash_of_exponent_then_modulus Samples.p256_key Samples.transparent_backend 256.
Proof.
  split; unfold key_hash_of_exponent_then_modulus; vm_compute; discriminate.
Qed.

(** C2, amended. The key hash is the hash, at the digest width asked
    for, of the big-endian bytes of the modulus followed by those of the
    exponent for an RSA key, and of the X coordinate followed by the Y
    coordinate, each on [sha_width // 8] bytes, for an EC key whose
    coordinates fit that length. *)
Theorem key_hash_is_of_modulus_then_exponent
    (public_key : PublicKey) (backend : BackendClass) (sha_width : nat) :
  match public_key with
  | RSAPublicKey e n => (0 <= e)%Z /\ (0 <= n)%Z
  | EllipticCurvePublicKey _ x y =>
      (0 <= x < 256 ^ Z.of_nat (sha_width / 8))%Z
      /\ (0 <= y < 256 ^ Z.of_nat (sha_width / 8))%Z
  end ->
  key_hash_of_modulus_then_exponent public_key backend sha_width.
Proof.
  destruct public_key as [e n | key_size x y]; intros [H1 H2];
    unfold key_hash_of_modulus_then_exponent, calc_pub_key_hash.
  - by rewrite !to_bytes_big_minimal.
  - by rewrite !to_bytes_big_fits.
Qed.

Lemma key_hash_is_of_modulus_then_exponent_witness :
  key_hash_of_modulus_then_exponent Samples.rsa_key Samples.transparent_backend 256
  /\ key_hash_of_modulus_then_exponent Samples.p256_key Samples.transparent_backend 256.
Proof.
  split.
  - apply (key_hash_is_of_modulus_then_exponent
             Samples.rsa_key Samples.transparent_backend 256).
    cbn. lia.
  - apply (key_hash_is_of_modulus_then_exponent
             Samples.p256_key Samples.transparent_backend 256).
    cbn. lia.
Defined.

Lemma comprehension_all_ok {A B} (f : A -> result B) (xs : list A) :
  Forall (fun x => exists y, f x = Ok y) xs ->
  exists ys, comprehension f xs = Ok ys
    /\ forall i, match xs !! i with
                 | Some x => exists y, f x = Ok y /\ ys !! i = Some y
                 | None => ys !! i = None
                 end.
Proof.
  induction 1 as [| x xs [y Hy] _ (ys & Hys & Hlook)].
  - exists []. split; [done |]. by intros [].
  - exists (y :: ys). split.
    + cbn. rewrite Hy. cbn. by rewrite Hys.
    + intros [| i]; cbn; [eauto | apply Hlook].
Qed.

(** C5, as stated, fails: hashing the base point of P-384 after that of
    P-256 into a 256-bit ROTKH register raises [OverflowError], as the
    coordinates do not fit the 32 bytes the first key's width allows. *)
Lemma rotkh_mixed_widths_counterexample :
  _calc_rotkh (ext := Samples.externals) Samples.cmpa
    [Samples.p256_key; Samples.p384_key] = Raise OverflowError
  /\ ~ rotkh_of_four_slots (ext := Samples.externals) Samples.cmpa
         [Samples.p256_key; Samples.p384_key].
Proof.
  assert (_calc_rotkh (ext := Samples.externals) Samples.cmpa
            [Samples.p256_key; Samples.p384_key] = Raise OverflowError) as Hraise
    by (vm_compute; reflexivity).
  split; [exact Hraise |].
  intros Hclaim.
  specialize (Hclaim _ eq_refl). vm_compute in Hclaim.
  destruct Hclaim as (slots & _ & _ & Hok). discriminate Hok.
Qed.

Section WithExternals.
Context `{EXT : !Externals}.

(** C5, amended. For 1 to 4 keys each of whose hashes can be formed at
    the width of the first key, the ROTKH is built from exactly 4 slots
    in order (slot i the hash of key i, or zero bytes of the hash width
    when there is no key i), hashed at that width and padded with
    trailing zero bytes to the width of the ROTKH register; when the
    width of the first key exceeds the register's, the computation fails
    with the field-too-narrow error, whatever the keys. *)
Theorem rotkh_is_of_four_slots (self : BaseConfigArea) (keys : list PublicKey) :
  (1 <= length keys <= 4)%nat ->
  (forall reg_rotkh, find_reg (registers self) "ROTKH" = Ok reg_rotkh ->
     (algorithm_width keys <= width reg_rotkh)%nat ->
     Forall (fun key => exists key_hash,
               calc_pub_key_hash key openssl_backend (algorithm_width keys)
               = Ok key_hash) keys) ->
  rotkh_of_four_slots self keys.
Proof.
  intros Hlen Hkeys reg_rotkh Hreg. cbn zeta.
  specialize (Hkeys reg_rotkh Hreg).
  unfold _calc_rotkh. rewrite Hreg. cbn [mbind result_bind].
  destruct keys as [| key0 keys]; [cbn in Hlen; lia |].
  cbn [index lookup list_lookup mbind result_bind].
  replace (match key0 with
           | RSAPublicKey _ _ => 256
           | EllipticCurvePublicKey key_size _ _ => key_size
           end) with (algorithm_width (key0 :: keys)) by by destruct key0.
  generalize dependent (algorithm_width (key0 :: keys)). intros aw Hkeys.
  destruct (width reg_rotkh <? aw)%nat eqn:Hw; [done |].
  apply Nat.ltb_ge in Hw.
  destruct (comprehension_all_ok _ _ (Hkeys Hw)) as (key_hashes & -> & Hlook).
  cbn [mbind result_bind].
  eexists. split_and!; [| | reflexivity].
  - by rewrite length_fmap, length_seq.
  - intros i Hi. rewrite list_lookup_fmap, lookup_seq_lt by done. cbn.
    specialize (Hlook i).
    destruct ((key0 :: keys) !! i) as [key |].
    + destruct Hlook as (key_hash & Hhash & ->). eauto.
    + by rewrite Hlook.
Qed.

End WithExternals.

Lemma rotkh_is_of_four_slots_witness :
  rotkh_of_four_slots (ext := Samples.externals) Samples.cmpa
    [Samples.p256_key; Samples.p256_key].
Proof.
  apply (rotkh_is_of_four_slots (EXT := Samples.externals) Samples.cmpa
           [Samples.p256_key; Samples.p256_key]).
  - cbn. lia.
  - intros reg_rotkh _ _.
    repeat (apply Forall_cons; split; [eexists; vm_compute; reflexivity |]).
    apply Forall_nil_2.
Defined.

End RotkhProofs.

(** ** Export and parse of a config area *)

Module BytesFacts.

Lemma length_zeros (n : nat) : length (zeros n) = n.
Proof. apply length_replicate. Qed.

Lemma length_repeat_bytes (s : bytes) (n : nat) :
  length (repeat_bytes s n) = n * length s.
Proof. induction n as [| n IH]; cbn; [done |]. rewrite length_app, IH. lia. Qed.

Lemma length_slice_assign (data : bytes) (lo hi : nat) (val : bytes) :
  length (slice_assign data lo hi val)
  = lo `min` length data + length val + (length data - lo `max` hi).
Proof.
  unfold slice_assign. rewrite !length_app, length_take, length_drop. lia.
Qed.

(** Writing a value of the length of its span inside the array keeps the
    length of the array. *)
Lemma length_slice_assign_fit (data : bytes) (lo n : nat) (val : bytes) :
  length val = n -> lo + n <= length data ->
  length (slice_assign data lo (lo + n) val) = length data.
Proof. intros Hv Hin. rewrite length_slice_assign. lia. Qed.

(** What was written can be read back. *)
Lemma slice_slice_assign (data : bytes) (lo n : nat) (val : bytes) :
  length val = n -> lo <= length data ->
  slice (slice_assign data lo (lo + n) val) lo (lo + n) = val.
Proof.
  intros Hv Hlo. unfold slice, slice_assign.
  rewrite drop_app_length' by (rewrite length_take; lia).
  replace (lo + n - lo) with n by lia.
  by rewrite take_app_length' by done.
Qed.

(** If the array has the length [size] after a write of [n] bytes at
    [lo], and the span lies below [size], the write was in place. *)
Lemma slice_assign_in_place (data : bytes) (lo n size : nat) (val : bytes) :
  length val = n -> lo + n <= size ->
  length (slice_assign data lo (lo + n) val) = size ->
  lo <= length data.
Proof. intros Hv Hin. rewrite length_slice_assign. lia. Qed.

End BytesFacts.

Module RegistersFacts.

Lemma named_spec (reg_name : string) (reg : RegsRegister) :
  named reg_name reg = true <-> name reg = reg_name.
Proof. unfold named. apply String.eqb_eq. Qed.

Lemma find_reg_absent (regs : Registers) (reg_name : string) :
  Forall (fun reg => name reg <> reg_name) regs ->
  find_reg regs reg_name = Raise (SPSDKRegsErrorRegisterNotFound reg_name).
Proof.
  unfold find_reg. induction 1 as [| reg regs Hne _ IH]; [done |].
  cbn. destruct (named reg_name reg) eqn:Hn; [by apply named_spec in Hn |].
  exact IH.
Qed.

Lemma find_reg_name (regs : Registers) (reg_name : string) (reg : RegsRegister) :
  find_reg regs reg_name = Ok reg -> name reg = reg_name.
Proof.
  unfold find_reg. destruct (List.find _ regs) as [r |] eqn:Hf; [| done].
  intros [= <-]. apply find_some in Hf as [_ Hn]. by apply named_spec.
Qed.

Lemma find_reg_update (regs : Registers) (reg_name : string) (reg new : RegsRegister) :
  find_reg regs reg_name = Ok reg -> name new = reg_name ->
  find_reg (update_reg regs reg_name new) reg_name = Ok new.
Proof.
  unfold find_reg. intros Hfind Hnew.
  induction regs as [| r regs IH]; [done |].
  cbn in *. destruct (named reg_name r) eqn:Hn.
  - cbn. by rewrite (proj2 (named_spec _ _) Hnew).
  - cbn. rewrite Hn. by apply IH.
Qed.

(** A change of value keeps where every register is found. *)
Lemma find_reg_update_offset
    (regs : Registers) (reg_name other : string) (reg : RegsRegister) (val : bytes) :
  find_reg regs reg_name = Ok reg ->
  offset <$> find_reg (update_reg regs reg_name (with_value reg val)) other
  = offset <$> find_reg regs other.
Proof.
  unfold find_reg. intros Hfind.
  induction regs as [| r regs IH]; [done |].
  cbn in *. destruct (named reg_name r) eqn:Hn.
  - injection Hfind as ->. cbn.
    unfold named. by destruct (String.eqb (name reg) other).
  - cbn. destruct (named other r); [done |]. by apply IH.
Qed.

End RegistersFacts.

Module ExportProofs.
Import Pfr Stated BytesFacts RegistersFacts.

Section WithExternals.
Context `{EXT : !Externals}.

(** [export] with no keys, or with an empty list of keys. *)
Lemma export_without_keys (self : BaseConfigArea) (add_seal : bool) :
  export self add_seal (Some []) = export self add_seal None.
Proof. reflexivity. Qed.

(** Writing a writable register keeps the record at its size. *)
Lemma export_reg_fit (data : bytes) (reg : RegsRegister) :
  writable reg -> length data = BINARY_SIZE ->
  exists data', export_reg data reg = Ok data' /\ length data' = BINARY_SIZE.
Proof.
  intros (Hlen & Hspan & Hendian) Hdata. unfold export_reg, get_value.
  destruct (reverse reg).
  - eexists. split; [reflexivity |].
    rewrite length_slice_assign_fit; [done | done | lia].
  - destruct (Hendian eq_refl) as (val & -> & Hval). cbn [mbind result_bind].
    eexists. split; [reflexivity |].
    rewrite length_slice_assign_fit; [done | by rewrite Hval | lia].
Qed.

Lemma export_sub_regs_fit (regs : Registers) (data : bytes) :
  Forall writable regs -> length data = BINARY_SIZE ->
  exists data', for_each export_reg regs data = Ok data'
                /\ length data' = BINARY_SIZE.
Proof.
  intros Hregs. revert data.
  induction Hregs as [| reg regs Hreg _ IH]; intros data Hdata; [by exists data |].
  destruct (export_reg_fit data reg Hreg Hdata) as (data1 & Hw & Hlen).
  cbn. rewrite Hw. cbn. by apply IH.
Qed.

Lemma export_loop_fit (regs : Registers) (data : bytes) :
  Forall (fun reg => if has_group_registers reg
                     then Forall writable (sub_regs reg) else writable reg) regs ->
  length data = BINARY_SIZE ->
  exists data',
    for_each (fun data reg =>
                if has_group_registers reg
                then for_each export_reg (sub_regs reg) data
                else export_reg data reg) regs data = Ok data'
    /\ length data' = BINARY_SIZE.
Proof.
  intros Hregs. revert data.
  induction Hregs as [| reg regs Hreg _ IH]; intros data Hdata; [by exists data |].
  cbn. destruct (has_group_registers reg).
  - destruct (export_sub_regs_fit _ data Hreg Hdata) as (data1 & -> & Hlen).
    cbn. by apply IH.
  - destruct (export_reg_fit data reg Hreg Hdata) as (data1 & -> & Hlen).
    cbn. by apply IH.
Qed.

(** The seal start and count of an area whose seal is declared. *)
Lemma seal_start_of_declared
    (self self0 : BaseConfigArea) (seal_reg : RegsRegister) (seal_count : nat) :
  seal_declared self seal_reg seal_count ->
  config self0 = config self -> device self0 = device self ->
  (forall other, offset <$> find_reg (registers self0) other
                 = offset <$> find_reg (registers self) other) ->
  _get_seal_start_address self0 = Ok (offset seal_reg)
  /\ _get_seal_count self0 = Ok seal_count.
Proof.
  intros ((start & Hstart & Htruthy & Hfind) & Hcount & Hpos & _) Hcfg Hdev Hoff.
  unfold _get_seal_start_address, _get_seal_count.
  rewrite Hcfg, Hdev, Hstart, Hcount, Htruthy.
  cbn [from_option id assert mbind result_bind].
  specialize (Hoff start). rewrite Hfind in Hoff. cbn in Hoff.
  destruct (find_reg (registers self0) start) as [reg0 |]; [| discriminate Hoff].
  injection Hoff as Hoff. cbn [mbind result_bind]. rewrite Hoff.
  split; [done |]. by destruct seal_count; [lia |].
Qed.

(** C6. For an area whose database declares a seal inside the record,
    whatever the values of the registers: every result of [export] with
    [add_seal] is exactly [BINARY_SIZE] (512) bytes long and holds the
    4-byte marker, repeated [seal_count] times, at the offset of the seal
    register, written over whatever a register put there. The export
    does return when every register it writes has a value of the length
    of its width and a span inside the record. *)
Theorem export_is_sealed
    (self : BaseConfigArea) (seal_reg : RegsRegister) (seal_count : nat) :
  seal_declared self seal_reg seal_count ->
  (forall keys self' data,
     export self true keys = Ok (self', data) ->
     length data = BINARY_SIZE
     /\ slice data (offset seal_reg) (offset seal_reg + seal_count * 4)
        = repeat_bytes MARK seal_count)
  /\ (registers_fit self -> exists data, export self true None = Ok (self, data)).
Proof.
  intros Hseal.
  assert (Hin : offset seal_reg + seal_count * 4 <= BINARY_SIZE) by apply Hseal.
  assert (Hmark : length (repeat_bytes MARK seal_count) = seal_count * 4)
    by (by rewrite length_repeat_bytes).
  split.
  - intros keys self' data H. unfold export in H.
    match type of H with
    | (?phase ≫= _) = _ => destruct phase as [self0 |] eqn:Hphase; [| discriminate H]
    end.
    assert (_get_seal_start_address self0 = Ok (offset seal_reg)
            /\ _get_seal_count self0 = Ok seal_count) as [Hs Hc].
    { destruct keys as [[| key keys] |];
        try (injection Hphase as <-; by eapply seal_start_of_declared).
      destruct (find_reg (registers self) ROTKH_REGISTER) as [reg |] eqn:Hfind;
        [| cbn in Hphase; by destruct e].
      cbn [mbind result_bind] in Hphase.
      destruct (_calc_rotkh self (key :: keys)) as [digest |];
        [| cbn in Hphase; by destruct e].
      cbn in Hphase. injection Hphase as <-.
      eapply seal_start_of_declared; [exact Hseal | done | done |].
      intros other. by apply find_reg_update_offset. }
    cbn [mbind result_bind] in H.
    match type of H with
    | (?loop ≫= _) = _ => destruct loop as [data1 |]; [| discriminate H]
    end.
    cbn [mbind result_bind] in H. rewrite Hs, Hc in H.
    cbn [mbind result_bind] in H. unfold assert in H.
    match type of H with
    | context [(length ?d =? BINARY_SIZE)%nat] =>
        destruct (Nat.eqb_spec (length d) BINARY_SIZE) as [Hlen | Hlen];
        [| discriminate H]
    end.
    cbn in H. injection H as <- <-. split; [exact Hlen |].
    apply (slice_slice_assign _ _ _ _ Hmark).
    exact (slice_assign_in_place _ _ _ _ _ Hmark Hin Hlen).
  - intros Hfit. unfold export. cbn [mbind result_bind].
    destruct (export_loop_fit _ (zeros BINARY_SIZE) Hfit (length_zeros _))
      as (data1 & -> & Hlen1).
    cbn [mbind result_bind].
    destruct (seal_start_of_declared self self seal_reg seal_count Hseal
                eq_refl eq_refl (fun _ => eq_refl)) as [-> ->].
    cbn [mbind result_bind].
    eexists. unfold assert.
    rewrite length_slice_assign_fit by (rewrite ?Hlen1; done).
    by rewrite Hlen1, Nat.eqb_refl.
Qed.

(** C1 does not hold of a register with the [reverse] flag: [export]
    writes its value as it is, [parse] puts every span through the
    byte-order transform, so that an area whose one register is such a
    register comes back from [parse] of its own [export] with the
    transform of the value in place of the value. *)
Theorem parse_of_export_transforms_reverse_register
    (self : BaseConfigArea) (reg : RegsRegister) (val' : bytes) :
  registers self = [reg] ->
  excluded (get_ignored_registers (config self) (device self)) reg = false ->
  reverse reg = true ->
  sub_regs reg = [] ->
  length (value reg) = width reg / 8 ->
  offset reg + width reg / 8 <= BINARY_SIZE ->
  change_endianism (value reg) = Ok val' ->
  exists data,
    export self false None = Ok (self, data)
    /\ parse self data = Ok (with_registers self [with_value reg val']).
Proof.
  intros Hregs Hexcl Hrev Hsub Hlen Hspan Hendian.
  assert (Hwritten :
    length (slice_assign (zeros BINARY_SIZE) (offset reg)
              (offset reg + width reg / 8) (value reg)) = BINARY_SIZE).
  { rewrite length_slice_assign_fit; rewrite ?length_zeros; done. }
  eexists. split.
  - unfold export. cbn [mbind result_bind].
    unfold _get_registers, get_registers. rewrite Hregs.
    cbn [mbind result_bind List.filter for_each]. rewrite Hexcl.
    cbn [negb for_each]. unfold has_group_registers. rewrite Hsub.
    unfold export_reg, get_value. rewrite Hrev.
    cbn [mbind result_bind]. unfold assert. rewrite Hwritten.
    by rewrite Nat.eqb_refl.
  - unfold parse. rewrite Hregs. cbn [comprehension]. rewrite Hexcl.
    rewrite slice_slice_assign by (rewrite ?length_zeros; done || lia).
    rewrite Hendian. reflexivity.
Qed.

(** The same area with a register without the flag: [parse] of the
    [export] gives the value back, as long as the byte-order transform
    undoes itself on it. *)
Lemma parse_of_export_restores_plain_register
    (self : BaseConfigArea) (reg : RegsRegister) (val' : bytes) :
  registers self = [reg] ->
  excluded (get_ignored_registers (config self) (device self)) reg = false ->
  reverse reg = false ->
  sub_regs reg = [] ->
  length (value reg) = width reg / 8 ->
  offset reg + width reg / 8 <= BINARY_SIZE ->
  change_endianism (value reg) = Ok val' ->
  length val' = length (value reg) ->
  change_endianism val' = Ok (value reg) ->
  exists data,
    export self false None = Ok (self, data)
    /\ parse self data = Ok (with_registers self [with_value reg (value reg)]).
Proof.
  intros Hregs Hexcl Hrev Hsub Hlen Hspan Hendian Hlen' Hback.
  assert (Hwritten :
    length (slice_assign (zeros BINARY_SIZE) (offset reg)
              (offset reg + width reg / 8) val') = BINARY_SIZE).
  { rewrite length_slice_assign_fit; rewrite ?length_zeros; [done | lia | done]. }
  eexists. split.
  - unfold export. cbn [mbind result_bind].
    unfold _get_registers, get_registers. rewrite Hregs.
    cbn [mbind result_bind List.filter for_each]. rewrite Hexcl.
    cbn [negb for_each]. unfold has_group_registers. rewrite Hsub.
    unfold export_reg, get_value. rewrite Hrev, Hendian.
    cbn [mbind result_bind]. unfold assert. rewrite Hwritten.
    by rewrite Nat.eqb_refl.
  - unfold parse. rewrite Hregs. cbn [comprehension]. rewrite Hexcl.
    rewrite slice_slice_assign by (rewrite ?length_zeros; lia).
    rewrite Hback. reflexivity.
Qed.

End WithExternals.

Lemma sample_registers_fit : registers_fit (ext := Samples.externals) Samples.cmpa.
Proof.
  unfold registers_fit, writable. cbn.
  repeat (first [ apply Forall_nil_2 | apply Forall_cons; split ]);
    (split; [reflexivity | split; [unfold BINARY_SIZE; cbn; lia |]]);
    intros Hrev; try discriminate Hrev;
    (eexists; split; [vm_compute; reflexivity | reflexivity]).
Qed.

Lemma export_is_sealed_witness :
  exists data,
    export (ext := Samples.externals) Samples.cmpa true None = Ok (Samples.cmpa, data)
    /\ length data = 512
    /\ slice data 480 (480 + 8 * 4) = repeat_bytes MARK 8.
Proof.
  destruct (export_is_sealed (EXT := Samples.externals) Samples.cmpa
              (Samples.plain_reg "SHA256_DIGEST0" 480 32 false [x00; x00; x00; x00]) 8)
    as [Hsealed Hreturns].
  { split; [| split; [reflexivity | split; [lia | unfold BINARY_SIZE; cbn; lia]]].
    exists "SHA256_DIGEST0". split; [reflexivity | split; reflexivity]. }
  destruct (Hreturns sample_registers_fit) as [data Hdata].
  exists data. split; [exact Hdata |].
  exact (Hsealed None Samples.cmpa data Hdata).
Defined.

Lemma parse_of_export_transforms_reverse_register_witness :
  exists data,
    export (ext := Samples.externals) Samples.rotkh_only false None
    = Ok (Samples.rotkh_only, data)
    /\ (registers <$> parse (ext := Samples.externals) Samples.rotkh_only data)
       = Ok [Samples.plain_reg "ROTKH" 80 256 true
               [x03; x02; x01; x00; x07; x06; x05; x04;
                x0b; x0a; x09; x08; x0f; x0e; x0d; x0c;
                x13; x12; x11; x10; x17; x16; x15; x14;
                x1b; x1a; x19; x18; x1f; x1e; x1d; x1c]].
Proof.
  destruct (parse_of_export_transforms_reverse_register (EXT := Samples.externals)
              Samples.rotkh_only
              (Samples.plain_reg "ROTKH" 80 256 true Samples.rotkh_value)
              [x03; x02; x01; x00; x07; x06; x05; x04;
               x0b; x0a; x09; x08; x0f; x0e; x0d; x0c;
               x13; x12; x11; x10; x17; x16; x15; x14;
               x1b; x1a; x19; x18; x1f; x1e; x1d; x1c])
    as (data & Hexport & Hparse);
    try reflexivity.
  { unfold BINARY_SIZE. cbn. lia. }
  exists data. split; [exact Hexport |]. by rewrite Hparse.
Defined.

(** The same on the sample CMPA area: after [parse] of its [export] the
    ROTKH register holds its value with the bytes of every word
    reversed, while a register without the flag holds its value. *)
Lemma parse_of_export_on_sample :
  exists data self',
    export (ext := Samples.externals) Samples.cmpa false None = Ok (Samples.cmpa, data)
    /\ parse (ext := Samples.externals) Samples.cmpa data = Ok self'
    /\ (get_value <$> find_reg (registers Samples.cmpa) "ROTKH") = Ok Samples.rotkh_value
    /\ (get_value <$> find_reg (registers self') "ROTKH")
       = Ok [x03; x02; x01; x00; x07; x06; x05; x04;
             x0b; x0a; x09; x08; x0f; x0e; x0d; x0c;
             x13; x12; x11; x10; x17; x16; x15; x14;
             x1b; x1a; x19; x18; x1f; x1e; x1d; x1c]
    /\ (get_value <$> find_reg (registers self') "BOOT_CFG")
       = (get_value <$> find_reg (registers Samples.cmpa) "BOOT_CFG").
Proof. eexists _, _. split_and!; vm_compute; reflexivity. Qed.

End ExportProofs.

(** ** Applying a user configuration *)

Module SetConfigProofs.
Import Pfr Stated RegistersFacts.

Lemma run_hooks_inv (regs regs' : Registers) (exclude : list string)
    (pick : string -> bool) :
  (forall reg, reg ∈ regs -> excluded exclude reg = negb (pick (name reg))) ->
  run_hooks regs exclude = Ok regs' ->
  hooks_rerun_on pick regs regs'.
Proof.
  unfold run_hooks, hooks_rerun_on. revert regs'.
  induction regs as [| reg regs IH]; intros regs' Hpick H.
  - injection H as <-. constructor.
  - cbn in H.
    pose proof (Hpick reg ltac:(left)) as Hreg.
    destruct (excluded exclude reg) eqn:Hex.
    + cbn in H.
      destruct (comprehension _ regs) as [regs1 |] eqn:Hrest; [| discriminate H].
      injection H as <-. constructor.
      * by destruct (pick (name reg)).
      * apply IH; [| done]. intros r Hr. apply Hpick. by right.
    + destruct (reg_run_hooks reg) as [reg1 |] eqn:Hrun; [| discriminate H].
      cbn in H.
      destruct (comprehension _ regs) as [regs1 |] eqn:Hrest; [| discriminate H].
      injection H as <-. constructor.
      * by destruct (pick (name reg)).
      * apply IH; [| done]. intros r Hr. apply Hpick. by right.
Qed.

Lemma configured_key {V} (settings : gmap string V) (reg_name : string) :
  reg_name ∈ (map_to_list settings).*1 <-> is_Some (settings !! reg_name).
Proof.
  rewrite list_elem_of_fmap. split.
  - intros ([k v] & -> & Hin). apply elem_of_map_to_list in Hin. by exists v.
  - intros [v Hv]. exists (reg_name, v). split; [done |].
    by apply elem_of_map_to_list.
Qed.

Section WithExternals.
Context `{EXT : !Externals}.

(** C4, amended. When [set_config] with [raw] unset goes through, the
    hooks have been re-run, after the settings were loaded, on exactly
    the registers whose names are keys of the settings: the value of each
    of them is recomputed by its hooks, and every other register is as
    the loader left it. *)
Theorem set_config_reruns_hooks_of_configured_registers
    (self self' : BaseConfigArea) (cfg cfg' : PfrConfiguration.t setting) :
  set_config self cfg false = Ok (self', cfg') ->
  exists settings loaded,
    PfrConfiguration.settings cfg = Some settings
    /\ load_yml_config (registers self) settings
         (get_ignored_registers (config self) (device self)
          ++ get_computed_registers (config self) (device self))
         (Some (get_computed_fields (config self) (device self))) = Ok loaded
    /\ hooks_rerun_on (fun reg_name => bool_decide (is_Some (settings !! reg_name)))
         loaded (registers self').
Proof.
  intros H. unfold set_config in H.
  destruct (assert (truthy_str (device self))); [| discriminate H].
  destruct (assert (truthy_str (revision self))); [| discriminate H].
  cbn [mbind result_bind] in H.
  destruct (negb (bool_decide (PfrConfiguration.device cfg = Some (device self))));
    [discriminate H |].
  match type of H with
  | (if negb (bool_decide (PfrConfiguration.revision ?c = _)) then _ else _) = _ =>
      remember c as c1 eqn:Hc
  end.
  assert (PfrConfiguration.settings c1 = PfrConfiguration.settings cfg) as Hsame.
  { subst c1. destruct (PfrConfiguration.revision cfg) as [r |]; [| done].
    by destruct (negb (truthy_str r) || bool_decide (r ∈ ["latest"; EmptyString])). }
  clear Hc.
  destruct (negb (bool_decide (PfrConfiguration.revision c1 = Some (revision self))));
    [discriminate H |].
  destruct (match PfrConfiguration.type c1 with
            | Some t => truthy_str t && negb (String.eqb (upper t) (class_name self))
            | None => false
            end); [discriminate H |].
  rewrite Hsame in H.
  destruct (PfrConfiguration.settings cfg) as [settings |]; [| discriminate H].
  destruct (bool_decide (settings = ∅)); [discriminate H |].
  destruct (load_yml_config _ _ _ _) as [loaded |] eqn:Hload; [| discriminate H].
  cbn [mbind result_bind] in H.
  destruct (run_hooks loaded _) as [regs' |] eqn:Hrun; [| discriminate H].
  cbn in H. injection H as <- <-.
  exists settings, loaded. split_and!; [done | done |].
  cbn [registers with_registers].
  eapply run_hooks_inv; [| exact Hrun].
  intros reg Hreg. unfold excluded.
  destruct (decide (is_Some (settings !! name reg))) as [Hsome | Hnone].
  - rewrite (bool_decide_eq_true_2 _ Hsome). apply bool_decide_eq_false_2.
    rewrite list_elem_of_difference, configured_key. tauto.
  - rewrite (bool_decide_eq_false_2 _ Hnone). apply bool_decide_eq_true_2.
    rewrite list_elem_of_difference, configured_key. split; [| done].
    unfold get_reg_names. apply list_elem_of_fmap. eauto.
Qed.

End WithExternals.

Lemma set_config_reruns_hooks_of_configured_registers_witness :
  exists self' cfg',
    set_config (ext := Samples.externals) Samples.cmpa_hooked Samples.pin_config false
    = Ok (self', cfg')
    /\ exists settings loaded,
         PfrConfiguration.settings Samples.pin_config = Some settings
         /\ Samples.load_values (registers Samples.cmpa_hooked) settings
              ["RESERVED"; "SHA256_DIGEST0"]
              (Some (get_computed_fields Samples.database "lpc55s6x")) = Ok loaded
         /\ hooks_rerun_on (fun reg_name => bool_decide (is_Some (settings !! reg_name)))
              loaded (registers self').
Proof.
  eexists _, _. split; [vm_compute; reflexivity |].
  eapply (set_config_reruns_hooks_of_configured_registers (EXT := Samples.externals)
            Samples.cmpa_hooked _ Samples.pin_config _).
  vm_compute. reflexivity.
Defined.

(** C4, as stated, fails. The user sets DCFG_CC_SOCU_PIN to 00 00 12 34
    and nothing else. After [set_config] the register holds ED CB 12 34:
    its hook has run and has overwritten the upper half of the value the
    user gave. DCFG_CC_SOCU_DFLT, which the user did not set, still holds
    00 00 00 05: its hook, which would make it FF FA 00 05, has not run. *)
Lemma hooks_rerun_counterexample :
  exists self' cfg' loaded,
    set_config (ext := Samples.externals) Samples.cmpa_hooked Samples.pin_config false
    = Ok (self', cfg')
    /\ Samples.load_values (registers Samples.cmpa_hooked) Samples.pin_settings
         ["RESERVED"; "SHA256_DIGEST0"]
         (Some (get_computed_fields Samples.database "lpc55s6x")) = Ok loaded
    /\ ~ hooks_rerun_on
           (fun reg_name =>
              negb (bool_decide (is_Some (Samples.pin_settings !! reg_name))))
           loaded (registers self')
    /\ (get_value <$> find_reg (registers self') "DCFG_CC_SOCU_PIN")
       = Ok [xed; xcb; x12; x34]
    /\ (get_value <$> find_reg (registers self') "DCFG_CC_SOCU_DFLT")
       = Ok [x00; x00; x00; x05]
    /\ (get_value <$> (find_reg (registers self') "DCFG_CC_SOCU_DFLT" ≫= reg_run_hooks))
       = Ok [xff; xfa; x00; x05].
Proof.
  eexists _, _, _. split; [vm_compute; reflexivity |].
  split; [vm_compute; reflexivity |].
  split; [| split_and!; vm_compute; reflexivity].
  intros Hall.
  eapply (Forall2_lookup_lr _ _ _ 1) in Hall; [| reflexivity | reflexivity].
  vm_compute in Hall. discriminate Hall.
Qed.

End SetConfigProofs.

(** ** The theorems about the tool, on the sample runs *)

Module ToolWitnesses.
Import Elftosb SecureBinary21Proofs SecureBinary31Proofs.

Lemma rkht_without_path_opens_the_working_directory_witness :
  let run := ToolSamples.run_sb21 ToolSamples.parser_missing None in
  fs run.2 = fs ToolSamples.sample_world
  /\ fs run.2 !! path_join "/work" "hash.bin"
     = fs ToolSamples.sample_world !! path_join "/work" "hash.bin"
  /\ (exists e, run.1 = Raise e)
  /\ (forall hoh_out_path r2 w2,
        ToolSamples.run_sb21 ToolSamples.parser_missing (Some hoh_out_path) = (r2, w2) ->
        run.1 = Raise (IsADirectoryError "/work") \/ (r2 = run.1 /\ w2 = run.2)).
Proof.
  intros run.
  apply (rkht_without_path_opens_the_working_directory (EXT := ToolSamples.externals)
           ToolSamples.parser_missing "/work/app.bd" "/work/out.sb2"
           (Some "/work/kek.txt") (Some "/work/key.pem")
           (Some ["/work/cert.der"]) (Some ["/work/root0.der"]) []
           ToolSamples.sample_world run.2 run.1).
  - vm_compute. reflexivity.
  - vm_compute. reflexivity.
Defined.

(** On the sample run the exception is [IsADirectoryError] on the working
    directory, and [hash.bin] does not exist afterwards; with a path
    given, the same run writes the hash there and completes. *)
Lemma rkht_without_path_on_sample :
  (ToolSamples.run_sb21 ToolSamples.parser_missing None).1
  = Raise (IsADirectoryError "/work")
  /\ fs (ToolSamples.run_sb21 ToolSamples.parser_missing None).2 !! "/work/hash.bin"
     = None
  /\ (ToolSamples.run_sb21 ToolSamples.parser_missing (Some "/work/hash.bin")).1
     = Ok tt
  /\ fs (ToolSamples.run_sb21 ToolSamples.parser_missing (Some "/work/hash.bin")).2
       !! "/work/hash.bin" = Some (File [x44; x55]).
Proof. split_and!; vm_compute; reflexivity. Qed.

Lemma explicit_missing_marker_is_defaulted_witness :
  ToolSamples.run_sb21 ToolSamples.parser_explicit (Some "/work/hash.bin")
  = ToolSamples.run_sb21 ToolSamples.parser_missing (Some "/work/hash.bin")
  /\ exists w' secure_binary sb_data,
       ToolSamples.run_sb21 ToolSamples.parser_explicit (Some "/work/hash.bin")
       = (Ok tt, w')
       /\ BootImageV21_export (Externals := ToolSamples.externals) secure_binary
          = Ok sb_data
       /\ fs w' !! "/work/out.sb2" = Some (File sb_data)
       /\ product_version secure_binary = PStr "1.0.0"
       /\ "warning: production version not defined, defaults to '1.0.0'" ∈ stdout w'.
Proof.
  destruct (explicit_missing_marker_is_defaulted (EXT := ToolSamples.externals)
              ToolSamples.parser_explicit ToolSamples.parser_missing
              "/work/app.bd" "/work/out.sb2"
              (Some "/work/kek.txt") (Some "/work/key.pem")
              (Some ["/work/cert.der"]) (Some ["/work/root0.der"])
              (Some "/work/hash.bin") []
              ToolSamples.sample_world [x01] (ToolSamples.sample_script ∅)
              "productVersion" (PStr EmptyString))
    as [Hsame Hdefault].
  - set_solver.
  - vm_compute. reflexivity.
  - reflexivity.
  - reflexivity.
  - reflexivity.
  - split; [exact Hsame |].
    destruct (Hdefault
                (ToolSamples.run_sb21 ToolSamples.parser_explicit
                   (Some "/work/hash.bin")).2)
      as (img & data & Hexp & Hfile & Hpv & _ & _).
    { vm_compute. reflexivity. }
    destruct (Hpv eq_refl) as [Hversion Hwarn].
    eexists _, img, data. split; [vm_compute; reflexivity |].
    split_and!; assumption.
Defined.

Lemma signature_is_verified_before_the_container_is_written_witness :
  let run := generate_secure_binary (ext := ToolSamples.externals) [x77]
               ToolSamples.sample_world in
  let signed := [x17; xaa; xbb; x55] in
  let signature := [x66; x04] in
  ToolStated.verified_before_written (ext := ToolSamples.externals)
    ToolSamples.sample_world run.2 run.1
  /\ run = write_file (signed ++ signature ++ [xc0; xc1]) "/work/out.sb3"
             (logged (logged ToolSamples.sample_world (EccSign [x66] signed signature))
                (EccVerify [x66] signature signed true)).
Proof.
  intros run signed signature.
  destruct (signature_is_verified_before_the_container_is_written
              (EXT := ToolSamples.externals) [x77] ToolSamples.sample_world)
    as [Hany Hrun].
  split.
  - apply Hany. vm_compute. reflexivity.
  - apply (Hrun [x77] ToolSamples.sb31_config 1000%Z "secp256r1" None []
             {| commands_data := [xc0; xc1]; final_hash := [xaa; xbb];
                cmds_block_count := 1 |}
             {| cb_root_certs := [[x55]]; used_root_cert := 0; user_data := None;
                constraints := 0; isk_cert := None; ca_flag := true;
                isk_private_key := None |}
             [x55] [x17] "/work/sign.pem" [x66]); vm_compute; reflexivity.
Defined.

(** On the sample run the signature verifies and the container is
    written: signed bytes, signature, command block. *)
Lemma self_check_on_sample :
  let run := generate_secure_binary (ext := ToolSamples.externals) [x77]
               ToolSamples.sample_world in
  run.1 = Ok tt
  /\ trace run.2
     = [EccSign [x66] [x17; xaa; xbb; x55] [x66; x04];
        EccVerify [x66] [x66; x04] [x17; xaa; xbb; x55] true]
  /\ fs run.2 !! "/work/out.sb3"
     = Some (File ([x17; xaa; xbb; x55] ++ [x66; x04] ++ [xc0; xc1])).
Proof. split_and!; vm_compute; reflexivity. Qed.

(** With a backend whose signatures do not verify, the sample run ends in
    [AssertionError] right after the verification, and no container is
    written. *)
Lemma failed_self_check_on_sample :
  let run := generate_secure_binary (ext := ToolSamples.faulty_externals) [x77]
               ToolSamples.sample_world in
  run.1 = Raise AssertionError
  /\ trace run.2
     = [EccSign [x66] [x17; xaa; xbb; x55] [x66; x04];
        EccVerify [x66] [x66; x04] [x17; xaa; xbb; x55] false]
  /\ fs run.2 = fs ToolSamples.sample_world.
Proof. split_and!; vm_compute; reflexivity. Qed.

End ToolWitnesses.

(* ================================================================= *)
(** * Part III: further properties of the code *)
(* ================================================================= *)

(** ** Computed fields *)

Module ComputedFieldProofs.
Import Pfr Stated.

Lemma byte_xor_ff_value (b : byte) :
  Z.of_N (Byte.to_N (byte_xor b xff)) = (255 - Z.of_N (Byte.to_N b))%Z.
Proof. by destruct b. Qed.

Lemma byte_xor_ff_involutive (b : byte) : byte_xor (byte_xor b xff) xff = b.
Proof. by destruct b. Qed.

Lemma byte_value_bound (b : byte) : (0 <= Z.of_N (Byte.to_N b) < 256)%Z.
Proof. pose proof (Byte.to_N_bounded b). lia. Qed.

(** X1. On the four bytes of a 32-bit register value, read as a
    big-endian number, [pfr_reg_inverse_high_half] keeps the low 16 bits
    and makes the high 16 bits their bitwise complement (65535 minus the
    low half), whatever the high half was before. *)
Theorem inverse_high_half_complements_the_low_half (b0 b1 b2 b3 : byte) :
  exists ret,
    pfr_reg_inverse_high_half [b0; b1; b2; b3] = Ok ret
    /\ length ret = 4
    /\ (from_bytes_big ret mod 65536 = from_bytes_big [b0; b1; b2; b3] mod 65536)%Z
    /\ (from_bytes_big ret / 65536
        = 65535 - from_bytes_big [b0; b1; b2; b3] mod 65536)%Z.
Proof.
  eexists. split; [reflexivity |]. split; [reflexivity |].
  cbn [from_bytes_big foldl list_insert insert].
  unfold from_bytes_big. cbn [foldl].
  rewrite !byte_xor_ff_value.
  pose proof (byte_value_bound b0). pose proof (byte_value_bound b1).
  pose proof (byte_value_bound b2). pose proof (byte_value_bound b3).
  set (z0 := Z.of_N (Byte.to_N b0)) in *. set (z1 := Z.of_N (Byte.to_N b1)) in *.
  set (z2 := Z.of_N (Byte.to_N b2)) in *. set (z3 := Z.of_N (Byte.to_N b3)) in *.
  assert (forall hi lo, 0 <= lo < 65536 -> (hi * 65536 + lo) mod 65536 = lo)%Z as Hmod.
  { intros hi lo Hlo. rewrite Z.add_comm, Z.mod_add by lia. by apply Z.mod_small. }
  assert (forall hi lo, 0 <= lo < 65536 -> (hi * 65536 + lo) / 65536 = hi)%Z as Hdiv.
  { intros hi lo Hlo. rewrite Z.add_comm, Z.div_add by lia.
    rewrite Z.div_small by done. lia. }
  replace ((((0 * 256 + (255 - z2)) * 256 + (255 - z3)) * 256 + z2) * 256 + z3)%Z
    with (((255 - z2) * 256 + (255 - z3)) * 65536 + (z2 * 256 + z3))%Z by lia.
  replace ((((0 * 256 + z0) * 256 + z1) * 256 + z2) * 256 + z3)%Z
    with ((z0 * 256 + z1) * 65536 + (z2 * 256 + z3))%Z by lia.
  rewrite !Hmod, Hdiv by lia. split; lia.
Qed.

(** X2. [pfr_reg_inverse_high_half] raises [IndexError] on a value of
    fewer than four bytes and on no other; on a longer value it returns a
    value of the same length that agrees with the input from the third
    byte on. *)
Theorem inverse_high_half_needs_four_bytes (val : bytes) :
  (length val < 4 -> pfr_reg_inverse_high_half val = Raise IndexError)
  /\ (4 <= length val ->
      exists ret, pfr_reg_inverse_high_half val = Ok ret
                  /\ length ret = length val /\ drop 2 ret = drop 2 val).
Proof.
  destruct val as [| b0 [| b1 [| b2 [| b3 rest]]]]; cbn; split; intros H;
    try lia; try reflexivity.
  eexists. split; [reflexivity |]. by split.
Qed.

Lemma inverse_high_half_needs_four_bytes_witness :
  pfr_reg_inverse_high_half [x12; x34; x56] = Raise IndexError
  /\ exists ret, pfr_reg_inverse_high_half [x00; x00; x12; x34; x56] = Ok ret
                 /\ length ret = 5 /\ drop 2 ret = [x12; x34; x56].
Proof.
  split.
  - apply (inverse_high_half_needs_four_bytes [x12; x34; x56]). cbn. lia.
  - apply (inverse_high_half_needs_four_bytes [x00; x00; x12; x34; x56]). cbn. lia.
Defined.

(** The handler applied to its own result changes nothing. *)
Lemma inverse_high_half_idempotent (val ret : bytes) :
  pfr_reg_inverse_high_half val = Ok ret -> pfr_reg_inverse_high_half ret = Ok ret.
Proof.
  destruct val as [| b0 [| b1 [| b2 [| b3 rest]]]]; cbn; intros H;
    try discriminate H.
  by injection H as <-.
Qed.

(** X3. A register whose computed fields all name
    [pfr_reg_inverse_high_half] is recomputed as by one call of it,
    however many such fields there are and whatever they are called: the
    computation is idempotent, so running the hook again on a value it
    produced leaves the value as it is. *)
Theorem computed_fields_handler_is_one_inversion
    (context : list (string * string)) (val : bytes) :
  context <> [] ->
  Forall (fun field => field.2 = "pfr_reg_inverse_high_half") context ->
  reg_computed_fields_handler context val = pfr_reg_inverse_high_half val
  /\ forall ret, reg_computed_fields_handler context val = Ok ret ->
       reg_computed_fields_handler context ret = Ok ret.
Proof.
  intros Hne Hall.
  assert (compute_method "pfr_reg_inverse_high_half" = Some pfr_reg_inverse_high_half)
    as Hcm by reflexivity.
  assert (forall v, reg_computed_fields_handler context v = pfr_reg_inverse_high_half v)
    as Hone.
  { clear val. intros v. unfold reg_computed_fields_handler.
    destruct context as [| [field method] context]; [by destruct Hne |]. clear Hne.
    apply Forall_cons in Hall as [Hm Hall]. cbn in Hm. subst method.
    cbn [fmap list_fmap snd for_each]. rewrite Hcm.
    destruct (pfr_reg_inverse_high_half v) as [ret |] eqn:Hv; [| done].
    cbn [mbind result_bind]. apply inverse_high_half_idempotent in Hv.
    induction Hall as [| [field' method'] context Hm' _ IH]; [done |].
    cbn in Hm'. subst method'. cbn [fmap list_fmap snd for_each].
    rewrite Hcm, Hv. cbn [mbind result_bind]. exact IH. }
  split; [apply Hone |].
  intros ret. rewrite !Hone. apply inverse_high_half_idempotent.
Qed.

Lemma computed_fields_handler_is_one_inversion_witness :
  let context := [("INVERSE_VALUE", "pfr_reg_inverse_high_half");
                  ("INVERSE_AGAIN", "pfr_reg_inverse_high_half")] in
  reg_computed_fields_handler context [x00; x00; x12; x34]
  = pfr_reg_inverse_high_half [x00; x00; x12; x34]
  /\ forall ret, reg_computed_fields_handler context [x00; x00; x12; x34] = Ok ret ->
       reg_computed_fields_handler context ret = Ok ret.
Proof.
  intros context.
  apply (computed_fields_handler_is_one_inversion context [x00; x00; x12; x34]).
  - discriminate.
  - repeat (apply Forall_cons; split; [reflexivity |]). apply Forall_nil_2.
Defined.

End ComputedFieldProofs.

(** ** Key hashes *)

Module KeyHashProofs.
Import Pfr Stated RotkhProofs.

Lemma to_bytes_big_raise_inv (n : Z) (len : nat) (e : exn) :
  to_bytes_big n len = Raise e ->
  e = OverflowError /\ ~ (0 <= n < 256 ^ Z.of_nat len)%Z.
Proof.
  unfold to_bytes_big.
  destruct (n <? 0)%Z eqn:H1; destruct (256 ^ Z.of_nat len <=? n)%Z eqn:H2;
    cbn; intros H; try discriminate H; injection H as <-; split; try done; lia.
Qed.

Lemma to_bytes_big_unfit (n : Z) (len : nat) :
  ~ (0 <= n < 256 ^ Z.of_nat len)%Z -> to_bytes_big n len = Raise OverflowError.
Proof.
  intros Hn. unfold to_bytes_big.
  destruct (n <? 0)%Z eqn:H1; [done |].
  destruct (256 ^ Z.of_nat len <=? n)%Z eqn:H2; [done | lia].
Qed.

Lemma to_bytes_big_ok_inv (n : Z) (len : nat) (b : bytes) :
  to_bytes_big n len = Ok b ->
  (0 <= n < 256 ^ Z.of_nat len)%Z /\ b = be_digits len n.
Proof.
  unfold to_bytes_big.
  destruct (n <? 0)%Z eqn:H1; destruct (256 ^ Z.of_nat len <=? n)%Z eqn:H2;
    cbn; intros H; try discriminate H. injection H as <-. split; [lia | done].
Qed.

Lemma length_be_digits (len : nat) (n : Z) : length (be_digits len n) = len.
Proof.
  revert n. induction len as [| len IH]; intros n; [done |].
  cbn. rewrite length_app, IH. cbn. lia.
Qed.

(** The big-endian digits tell numbers below 256 to the length apart. *)
Lemma be_digits_inj (len : nat) (n m : Z) :
  (0 <= n < 256 ^ Z.of_nat len)%Z -> (0 <= m < 256 ^ Z.of_nat len)%Z ->
  be_digits len n = be_digits len m -> n = m.
Proof.
  intros Hn Hm Heq. apply (f_equal from_bytes_big) in Heq.
  rewrite !from_bytes_big_be_digits in Heq.
  by rewrite !Z.mod_small in Heq.
Qed.

(** X4. A key with a number that cannot be encoded is refused before
    the backend is asked for anything: whatever the backend,
    [calc_pub_key_hash] raises [OverflowError], the exception of
    [to_bytes], on an RSA key with a negative exponent or modulus and on
    an EC key with a coordinate that is negative or does not fit in
    [sha_width // 8] bytes, as when a P-384 key is hashed at the width
    256. Nothing is said here of what the backend raises once it is
    called. *)
Theorem key_that_cannot_be_encoded_raises_overflow_error
    (public_key : PublicKey) (sha_width : nat) :
  match public_key with
  | RSAPublicKey e n => (e < 0)%Z \/ (n < 0)%Z
  | EllipticCurvePublicKey _ x y =>
      ~ (0 <= x < 256 ^ Z.of_nat (sha_width / 8))%Z
      \/ ~ (0 <= y < 256 ^ Z.of_nat (sha_width / 8))%Z
  end ->
  forall backend : BackendClass,
    calc_pub_key_hash public_key backend sha_width = Raise OverflowError.
Proof.
  intros Hkey backend. unfold calc_pub_key_hash.
  destruct public_key as [e n | key_size x y].
  - destruct (Z_lt_le_dec e 0) as [He | He].
    { by rewrite (to_bytes_big_unfit e) by lia. }
    rewrite (to_bytes_big_minimal e He). cbn [mbind result_bind].
    by rewrite (to_bytes_big_unfit n) by lia.
  - destruct (to_bytes_big y (sha_width / 8)) as [by' |] eqn:Hy.
    2: { by apply to_bytes_big_raise_inv in Hy as [-> _]. }
    apply to_bytes_big_ok_inv in Hy as [Hy _]. cbn [mbind result_bind].
    by rewrite (to_bytes_big_unfit x) by tauto.
Qed.

Lemma key_that_cannot_be_encoded_raises_overflow_error_witness :
  calc_pub_key_hash Samples.p384_key Samples.transparent_backend 256
  = Raise OverflowError
  /\ calc_pub_key_hash (RSAPublicKey 17 (-3233)) SizedSamples.sized_backend 256
     = Raise OverflowError.
Proof.
  split.
  - apply (key_that_cannot_be_encoded_raises_overflow_error Samples.p384_key 256).
    cbn. left. change (256 / 8) with 32. lia.
  - apply (key_that_cannot_be_encoded_raises_overflow_error (RSAPublicKey 17 (-3233)) 256).
    cbn. lia.
Defined.

(** X5. Two EC keys get the same key hash at a width only when they are
    the same point, or when the backend's hash function has a collision:
    the coordinates are encoded on a fixed number of bytes, so the
    message that is hashed determines them. *)
Theorem ec_key_hashes_meet_only_in_a_collision
    (backend : BackendClass) (sha_width key_size key_size' : nat)
    (x y x' y' : Z) (key_hash : bytes) :
  calc_pub_key_hash (EllipticCurvePublicKey key_size x y) backend sha_width
  = Ok key_hash ->
  calc_pub_key_hash (EllipticCurvePublicKey key_size' x' y') backend sha_width
  = Ok key_hash ->
  (x = x' /\ y = y')
  \/ exists data data',
       data <> data'
       /\ hash backend data ("sha" +:+ pretty sha_width)
          = hash backend data' ("sha" +:+ pretty sha_width).
Proof.
  unfold calc_pub_key_hash. intros H H'.
  destruct (to_bytes_big y _) as [by1 |] eqn:Hy; [| discriminate H].
  destruct (to_bytes_big x _) as [bx1 |] eqn:Hx; [| discriminate H].
  destruct (to_bytes_big y' _) as [by2 |] eqn:Hy'; [| discriminate H'].
  destruct (to_bytes_big x' _) as [bx2 |] eqn:Hx'; [| discriminate H'].
  cbn in H, H'. injection H as H. injection H' as H'.
  apply to_bytes_big_ok_inv in Hy as [Hy ->], Hx as [Hx ->],
    Hy' as [Hy' ->], Hx' as [Hx' ->].
  destruct (decide (be_digits (sha_width / 8) x ++ be_digits (sha_width / 8) y
                    = be_digits (sha_width / 8) x' ++ be_digits (sha_width / 8) y'))
    as [Heq | Hne].
  - left. apply app_inj_1 in Heq as [Heqx Heqy]; [| by rewrite !length_be_digits].
    split; eapply be_digits_inj; eauto.
  - right. eexists _, _. split; [exact Hne |]. congruence.
Qed.

Lemma ec_key_hashes_meet_only_in_a_collision_witness :
  (0x6b17d1f2e12c4247f8bce6e563a440f277037d812deb33a0f4a13945d898c296
   = 0x6b17d1f2e12c4247f8bce6e563a440f277037d812deb33a0f4a13945d898c296
   /\ 0x4fe342e2fe1a7f9b8ee7eb4a7c0f9e162bce33576b315ececbb6406837bf51f5
      = 0x4fe342e2fe1a7f9b8ee7eb4a7c0f9e162bce33576b315ececbb6406837bf51f5)%Z
  \/ exists data data',
       data <> data'
       /\ hash Samples.transparent_backend data ("sha" +:+ pretty 256)
          = hash Samples.transparent_backend data' ("sha" +:+ pretty 256).
Proof.
  eapply (ec_key_hashes_meet_only_in_a_collision Samples.transparent_backend 256 256 384);
    vm_compute; reflexivity.
Defined.

End KeyHashProofs.

(** ** The root-of-trust key hash *)

Module RotkhLengthProofs.
Import Pfr Stated RotkhProofs.

Lemma comprehension_app {A B} (f : A -> result B) (xs ys : list A) :
  comprehension f (xs ++ ys)
  = (a ← comprehension f xs; b ← comprehension f ys; Ok (a ++ b)).
Proof.
  induction xs as [| x xs IH]; cbn.
  - by destruct (comprehension f ys).
  - destruct (f x) as [y |]; [| done]. cbn. rewrite IH.
    destruct (comprehension f xs) as [a |]; [| done]. cbn.
    by destruct (comprehension f ys).
Qed.

Lemma comprehension_length {A B} (f : A -> result B) (xs : list A) (ys : list B) :
  comprehension f xs = Ok ys -> length ys = length xs.
Proof.
  revert ys. induction xs as [| x xs IH]; intros ys H; cbn in H.
  - by injection H as <-.
  - destruct (f x) as [y |]; [| discriminate H]. cbn in H.
    destruct (comprehension f xs) as [ys' |]; [| discriminate H].
    injection H as <-. cbn. by rewrite (IH ys').
Qed.

Section WithExternals.
Context `{EXT : !Externals}.

(** X6. Keys after the fourth do not enter the ROTKH: as long as each of
    them can be hashed at the width of the first key, [_calc_rotkh] of
    four keys followed by more keys is [_calc_rotkh] of the four keys. *)
Theorem rotkh_ignores_keys_beyond_the_fourth
    (self : BaseConfigArea) (keys extra : list PublicKey) :
  length keys = 4 ->
  Forall (fun key => exists key_hash,
            calc_pub_key_hash key openssl_backend (algorithm_width keys)
            = Ok key_hash) extra ->
  _calc_rotkh self (keys ++ extra) = _calc_rotkh self keys.
Proof.
  intros Hlen Hextra.
  destruct keys as [| k0 [| k1 [| k2 [| k3 [| k4 keys]]]]]; try discriminate Hlen.
  unfold _calc_rotkh.
  destruct (find_reg (registers self) "ROTKH") as [reg_rotkh |]; [| done].
  cbn [mbind result_bind app index lookup list_lookup].
  replace (match k0 with
           | RSAPublicKey _ _ => 256
           | EllipticCurvePublicKey key_size _ _ => key_size
           end) with (algorithm_width [k0; k1; k2; k3]) by by destruct k0.
  generalize dependent (algorithm_width [k0; k1; k2; k3]). intros aw Hextra.
  destruct (width reg_rotkh <? aw)%nat; [done |].
  change (k0 :: k1 :: k2 :: k3 :: extra) with ([k0; k1; k2; k3] ++ extra).
  rewrite comprehension_app.
  destruct (comprehension _ [k0; k1; k2; k3]) as [key_hashes |] eqn:Hfour; [| done].
  destruct (comprehension_all_ok _ _ Hextra) as (more & -> & _).
  cbn [mbind result_bind].
  apply comprehension_length in Hfour.
  destruct key_hashes as [| h0 [| h1 [| h2 [| h3 [| h4 key_hashes]]]]];
    try discriminate Hfour.
  reflexivity.
Qed.

(** X7. With a backend whose digests at the width of the first key have
    that width, the ROTKH that [_calc_rotkh] returns has exactly the
    length of the ROTKH register, [width // 8] bytes: the digest is never
    cut, and it is padded when the register is wider. *)
Theorem rotkh_has_the_length_of_its_register
    (self : BaseConfigArea) (keys : list PublicKey) (rotkh_data : bytes) :
  (forall data,
     length (hash openssl_backend data ("sha" +:+ pretty (algorithm_width keys)))
     = algorithm_width keys / 8) ->
  _calc_rotkh self keys = Ok rotkh_data ->
  exists reg_rotkh,
    find_reg (registers self) "ROTKH" = Ok reg_rotkh
    /\ length rotkh_data = width reg_rotkh / 8.
Proof.
  intros Hsize H. unfold _calc_rotkh in H.
  destruct (find_reg (registers self) "ROTKH") as [reg_rotkh |]; [| discriminate H].
  exists reg_rotkh. split; [done |].
  cbn [mbind result_bind] in H.
  destruct keys as [| key0 keys]; [discriminate H |].
  cbn [index lookup list_lookup mbind result_bind] in H.
  replace (match key0 with
           | RSAPublicKey _ _ => 256
           | EllipticCurvePublicKey key_size _ _ => key_size
           end) with (algorithm_width (key0 :: keys)) in H by by destruct key0.
  generalize dependent (algorithm_width (key0 :: keys)). intros aw Hsize H.
  destruct (width reg_rotkh <? aw)%nat eqn:Hw; [discriminate H |].
  apply Nat.ltb_ge in Hw.
  destruct (comprehension _ (key0 :: keys)) as [key_hashes |]; [| discriminate H].
  cbn [mbind result_bind] in H. injection H as <-.
  unfold ljust. rewrite length_app, length_replicate, Hsize.
  change (fst (Nat.divmod (width reg_rotkh) 7 0 7)) with (width reg_rotkh / 8).
  pose proof (Nat.Div0.div_le_mono aw (width reg_rotkh) 8 Hw). lia.
Qed.

End WithExternals.

Lemma rotkh_ignores_keys_beyond_the_fourth_witness :
  _calc_rotkh (ext := Samples.externals) Samples.cmpa
    ([Samples.p256_key; Samples.p256_key; Samples.p256_key; Samples.p256_key]
     ++ [Samples.p256_key])
  = _calc_rotkh (ext := Samples.externals) Samples.cmpa
      [Samples.p256_key; Samples.p256_key; Samples.p256_key; Samples.p256_key].
Proof.
  apply (rotkh_ignores_keys_beyond_the_fourth (EXT := Samples.externals) Samples.cmpa
           [Samples.p256_key; Samples.p256_key; Samples.p256_key; Samples.p256_key]
           [Samples.p256_key]).
  - reflexivity.
  - apply Forall_cons; split; [| apply Forall_nil_2].
    eexists. vm_compute. reflexivity.
Defined.

Lemma rotkh_has_the_length_of_its_register_witness :
  exists rotkh_data reg_rotkh,
    _calc_rotkh (ext := SizedSamples.sized_externals) SizedSamples.sized_cmpa
      [Samples.p256_key]
    = Ok rotkh_data
    /\ find_reg (registers SizedSamples.sized_cmpa) "ROTKH" = Ok reg_rotkh
    /\ length rotkh_data = width reg_rotkh / 8.
Proof.
  assert (exists rotkh_data,
            _calc_rotkh (ext := SizedSamples.sized_externals) SizedSamples.sized_cmpa
              [Samples.p256_key] = Ok rotkh_data) as [rotkh_data Hdata]
    by (eexists; vm_compute; reflexivity).
  destruct (rotkh_has_the_length_of_its_register (EXT := SizedSamples.sized_externals)
              SizedSamples.sized_cmpa [Samples.p256_key] rotkh_data)
    as (reg_rotkh & Hreg & Hlen).
  - intros data.
    cbn [hash openssl_backend SizedSamples.sized_externals SizedSamples.sized_backend].
    change (algorithm_width [Samples.p256_key] / 8) with 32.
    rewrite length_take, length_app, BytesFacts.length_zeros. lia.
  - exact Hdata.
  - exists rotkh_data, reg_rotkh. by split.
Defined.

End RotkhLengthProofs.

(** ** The layout of an exported record *)

Module LayoutProofs.
Import Pfr Stated Layout BytesFacts RegistersFacts ExportProofs.

(** A write in place leaves the bytes outside its span as they are. *)
Lemma lookup_slice_assign_outside (data : bytes) (lo n : nat) (val : bytes) (i : nat) :
  length val = n -> lo + n <= length data -> ~ (lo <= i < lo + n) ->
  slice_assign data lo (lo + n) val !! i = data !! i.
Proof.
  intros Hv Hin Hi. unfold slice_assign.
  replace (lo `max` (lo + n)) with (lo + n) by lia.
  destruct (decide (i < lo)) as [Hlt | Hge].
  - rewrite lookup_app_l by (rewrite length_take; lia). by apply lookup_take_lt.
  - rewrite lookup_app_r by (rewrite length_take; lia).
    rewrite lookup_app_r by (rewrite length_take; lia).
    rewrite lookup_drop, length_take. f_equal. lia.
Qed.

(** Two arrays that agree on a span have the same slice there. *)
Lemma slice_ext (data data' : bytes) (lo hi : nat) :
  (forall i, lo <= i < hi -> data !! i = data' !! i) ->
  slice data lo hi = slice data' lo hi.
Proof.
  intros H. unfold slice. apply list_eq. intros j.
  rewrite !lookup_take. destruct (decide (j < hi - lo)); [| done].
  rewrite !lookup_drop. apply H. lia.
Qed.

Lemma for_each_app {A S} (body : S -> A -> result S) (xs ys : list A) (acc : S) :
  for_each body (xs ++ ys) acc = (acc' ← for_each body xs acc; for_each body ys acc').
Proof.
  revert acc. induction xs as [| x xs IH]; intros acc; cbn; [done |].
  destruct (body acc x) as [acc1 |]; cbn; [apply IH | done].
Qed.

Lemma comprehension_id {A} (f : A -> result A) (xs : list A) :
  Forall (fun x => f x = Ok x) xs -> comprehension f xs = Ok xs.
Proof.
  induction 1 as [| x xs Hx _ IH]; cbn; [done |]. by rewrite Hx, IH.
Qed.

Lemma Forall_filter_inv {A} (P : A -> Prop) (f : A -> bool) (xs : list A) :
  Forall P (List.filter f xs) -> Forall (fun x => f x = true -> P x) xs.
Proof.
  induction xs as [| x xs IH]; cbn; intros H; [constructor |].
  destruct (f x) eqn:Hf.
  - apply Forall_cons in H as [Hx H]. constructor; [done | by apply IH].
  - constructor; [congruence | by apply IH].
Qed.

Section WithExternals.
Context `{EXT : !Externals}.

(** The loop of [export] writes the registers of [written], one after
    the other. *)
Lemma export_loop_flat (regs : Registers) (data : bytes) :
  for_each (fun data reg =>
              if has_group_registers reg
              then for_each export_reg (sub_regs reg) data
              else export_reg data reg) regs data
  = for_each export_reg
      (flat_map (fun reg => if has_group_registers reg then sub_regs reg else [reg])
         regs) data.
Proof.
  revert data. induction regs as [| reg regs IH]; intros data; cbn; [done |].
  rewrite for_each_app. destruct (has_group_registers reg); cbn.
  - destruct (for_each export_reg (sub_regs reg) data); cbn; [apply IH | done].
  - destruct (export_reg data reg); cbn; [apply IH | done].
Qed.

Lemma export_plain (self : BaseConfigArea) :
  export self false None
  = (data ← for_each export_reg (written self) (zeros BINARY_SIZE);
     _ ← assert (length data =? BINARY_SIZE)%nat;
     Ok (self, data)).
Proof.
  unfold export, written. cbn [mbind result_bind]. rewrite export_loop_flat.
  by destruct (for_each export_reg _ _).
Qed.

Lemma registers_fit_written (self : BaseConfigArea) :
  registers_fit self -> Forall writable (written self).
Proof.
  unfold registers_fit, written. intros H. apply Forall_flat_map.
  eapply Forall_impl; [exact H |]. intros reg Hreg. cbn in Hreg.
  destruct (has_group_registers reg); [done | by constructor].
Qed.

Lemma export_reg_inv (data data' : bytes) (reg : RegsRegister) :
  writable reg -> export_reg data reg = Ok data' ->
  exists val,
    exported_value reg = Ok val /\ length val = width reg / 8
    /\ data' = slice_assign data (offset reg) (offset reg + width reg / 8) val.
Proof.
  intros (Hlen & _ & Hendian). unfold export_reg, exported_value, get_value.
  destruct (reverse reg).
  - cbn [mbind result_bind]. intros [= <-]. eauto.
  - destruct (Hendian eq_refl) as (val & -> & Hval). cbn [mbind result_bind].
    intros [= <-]. exists val. split_and!; [done | congruence | done].
Qed.

(** What a run of writes leaves in the record: the bytes no register
    covers are untouched, and when the registers lie apart each of them
    sits at its span. *)
Lemma export_regs_layout (regs : Registers) (data0 data : bytes) :
  Forall writable regs -> length data0 = BINARY_SIZE ->
  for_each export_reg regs data0 = Ok data ->
  length data = BINARY_SIZE
  /\ (forall i, Forall (fun reg => ~ in_span reg i) regs -> data !! i = data0 !! i)
  /\ (ForallOrdPairs apart regs ->
      Forall (fun reg =>
                exported_value reg
                = Ok (slice data (offset reg) (offset reg + width reg / 8))) regs).
Proof.
  intros Hregs. revert data0.
  induction Hregs as [| reg regs Hreg Hregs IH]; intros data0 Hlen0 H; cbn in H.
  - injection H as <-. split_and!; [done | done | constructor].
  - destruct (export_reg data0 reg) as [data1 |] eqn:Hone; [| discriminate H].
    cbn in H.
    destruct (export_reg_inv _ _ _ Hreg Hone) as (val & Hval & Hvlen & ->).
    assert (Hspan : offset reg + width reg / 8 <= BINARY_SIZE) by apply Hreg.
    assert (Hlen1 : length (slice_assign data0 (offset reg)
                              (offset reg + width reg / 8) val) = BINARY_SIZE).
    { rewrite length_slice_assign_fit; [done | done | lia]. }
    destruct (IH _ Hlen1 H) as (Hlen & Hout & Hin).
    split_and!; [done | |].
    + intros i Hi. apply Forall_cons in Hi as [Hi His].
      rewrite (Hout i His).
      apply lookup_slice_assign_outside; [done | lia | exact Hi].
    + intros Hapart. inversion Hapart as [| ? ? Hfirst Hrest]; subst.
      constructor; [| by apply Hin].
      rewrite Hval. f_equal.
      rewrite <- (slice_slice_assign data0 (offset reg) (width reg / 8) val)
        by (done || lia).
      symmetry. apply slice_ext. intros i Hi. apply Hout.
      eapply Forall_impl; [exact Hfirst |]. intros reg' Hreg'. cbn in Hreg'.
      unfold in_span. destruct Hreg'; lia.
Qed.

(** A record whose registers fit is exported, and the loop of [export]
    ends with the bytes [export] returns. *)
Lemma export_returns (self : BaseConfigArea) :
  registers_fit self ->
  exists data,
    export self false None = Ok (self, data)
    /\ for_each export_reg (written self) (zeros BINARY_SIZE) = Ok data.
Proof.
  intros Hfit. rewrite export_plain.
  destruct (export_sub_regs_fit _ (zeros BINARY_SIZE)
              (registers_fit_written _ Hfit) (length_zeros _)) as (data & Hloop & Hlen).
  exists data. rewrite Hloop. cbn [mbind result_bind]. unfold assert.
  by rewrite Hlen, Nat.eqb_refl.
Qed.

(** X8. In the record [export] returns, every byte that lies in the span
    of no register (or sub-register) that was written is zero: [export]
    starts from zero bytes and writes nothing but the spans. *)
Theorem export_leaves_the_bytes_between_registers_zero (self : BaseConfigArea) :
  registers_fit self ->
  exists data,
    export self false None = Ok (self, data)
    /\ forall i, i < BINARY_SIZE ->
         Forall (fun reg => ~ in_span reg i) (written self) ->
         data !! i = Some x00.
Proof.
  intros Hfit. destruct (export_returns self Hfit) as (data & Hexport & Hloop).
  exists data. split; [done |]. intros i Hi Hout.
  destruct (export_regs_layout _ _ _ (registers_fit_written _ Hfit)
              (length_zeros _) Hloop) as (_ & Hzero & _).
  rewrite (Hzero i Hout). by apply lookup_replicate_2.
Qed.

Lemma export_spans (self : BaseConfigArea) :
  registers_fit self ->
  ForallOrdPairs apart (written self) ->
  exists data,
    export self false None = Ok (self, data)
    /\ Forall (fun reg =>
                 exported_value reg
                 = Ok (slice data (offset reg) (offset reg + width reg / 8)))
         (written self).
Proof.
  intros Hfit Hapart. destruct (export_returns self Hfit) as (data & Hexport & Hloop).
  exists data. split; [done |].
  by apply (export_regs_layout _ _ _ (registers_fit_written _ Hfit)
              (length_zeros _) Hloop).
Qed.

(** X9. When the spans of the registers written lie apart, the record
    [export] returns holds, at the span of each of them, the value of the
    register: as it is for a register with the [reverse] flag, and put
    through the byte-order transform otherwise. *)
Theorem export_places_every_register_at_its_span (self : BaseConfigArea) :
  registers_fit self ->
  ForallOrdPairs apart (written self) ->
  exists data,
    export self false None = Ok (self, data)
    /\ Forall (fun reg =>
                 exported_value reg
                 = Ok (slice data (offset reg) (offset reg + width reg / 8)))
         (written self).
Proof.
  intros Hfit Hapart. destruct (export_returns self Hfit) as (data & Hexport & Hloop).
  exists data. split; [exact Hexport |].
  destruct (export_regs_layout _ _ _ (registers_fit_written _ Hfit)
              (length_zeros _) Hloop) as (_ & _ & Hspans).
  exact (Hspans Hapart).
Qed.

Lemma written_plain (self : BaseConfigArea) :
  plain_area self -> written self = _get_registers self.
Proof.
  unfold plain_area, written. induction 1 as [| reg regs [Hsub _] _ IH]; [done |].
  cbn [flat_map].
  replace (has_group_registers reg) with false
    by (unfold has_group_registers; by rewrite Hsub).
  cbn [app]. by rewrite IH.
Qed.

(** X10. For an area of plain registers whose spans lie apart, and a
    byte-order transform that undoes itself, [parse] of the [export] of
    the area gives the area back: every register holds the value it had,
    and the ignored registers are not touched. *)
Theorem parse_of_export_is_the_area (self : BaseConfigArea) :
  endianism_is_involution ->
  plain_area self ->
  registers_fit self ->
  ForallOrdPairs apart (_get_registers self) ->
  exists data,
    export self false None = Ok (self, data)
    /\ parse self data = Ok self.
Proof.
  intros Hinv Hplain Hfit Hapart.
  rewrite <- (written_plain self Hplain) in Hapart.
  destruct (export_spans self Hfit Hapart)
    as (data & Hexport & Hspans).
  exists data. split; [done |].
  rewrite (written_plain self Hplain) in Hspans.
  unfold plain_area in Hplain. unfold _get_registers, get_registers in Hspans, Hplain.
  apply Forall_filter_inv in Hspans, Hplain.
  unfold parse. rewrite comprehension_id.
  - cbn. by destruct self.
  - pose proof (proj2 (Forall_and _ _) (conj Hspans Hplain)) as Hboth.
    clear Hspans Hplain.
    eapply Forall_impl; [exact Hboth |]. intros reg [Hspan Hreg]. cbn beta in Hspan, Hreg.
    destruct (excluded _ reg); [done |].
    destruct (Hreg eq_refl) as [_ Hrev]. specialize (Hspan eq_refl).
    unfold exported_value, get_value in Hspan. rewrite Hrev in Hspan.
    apply Hinv in Hspan as [_ ->]. cbn. by destruct reg.
Qed.

Lemma comprehension_Forall2 {A B} (f : A -> result B) (xs : list A) (ys : list B) :
  comprehension f xs = Ok ys -> Forall2 (fun x y => f x = Ok y) xs ys.
Proof.
  revert ys. induction xs as [| x xs IH]; intros ys H; cbn in H.
  - injection H as <-. constructor.
  - destruct (f x) as [y |] eqn:Hx; [| discriminate H]. cbn in H.
    destruct (comprehension f xs) as [ys' |]; [| discriminate H].
    injection H as <-. constructor; [done | by apply IH].
Qed.

Lemma Forall2_filter {A} (R : A -> A -> Prop) (f : A -> bool) (xs ys : list A) :
  (forall x y, R x y -> f x = f y) ->
  Forall2 R xs ys -> Forall2 R (List.filter f xs) (List.filter f ys).
Proof.
  intros Hf. induction 1 as [| x y xs ys Hxy _ IH]; cbn; [constructor |].
  rewrite <- (Hf x y Hxy). destruct (f x); [by constructor | done].
Qed.

Lemma ForallOrdPairs_Forall2 {A} (R P : A -> A -> Prop) (xs ys : list A) :
  (forall x y x' y', R x y -> R x' y' -> P x x' -> P y y') ->
  Forall2 R xs ys -> ForallOrdPairs P xs -> ForallOrdPairs P ys.
Proof.
  intros HP. induction 1 as [| x y xs ys Hxy Hrest IH]; intros Hord; [constructor |].
  inversion Hord as [| ? ? Hfirst Hord']; subst.
  constructor; [| by apply IH].
  clear IH Hord Hord'. induction Hrest as [| x' y' xs ys Hxy' _ IH]; [constructor |].
  apply Forall_cons in Hfirst as [Hx' Hfirst].
  constructor; [by eapply HP | by apply IH].
Qed.

Lemma length_slice_inside (data : bytes) (lo n : nat) :
  lo + n <= length data -> length (slice data lo (lo + n)) = n.
Proof. intros H. unfold slice. rewrite length_take, length_drop. lia. Qed.

(** X11. The other way round: for an area of plain registers whose
    spans lie apart inside the record, and a byte-order transform that
    undoes itself, the [export] of the area that [parse] has filled from
    a record gives, at the span of every register, the bytes the record
    parsed had there. *)
Theorem export_of_parse_restores_the_spans
    (self self' : BaseConfigArea) (data : bytes) :
  endianism_is_involution ->
  plain_area self ->
  Forall (fun reg => offset reg + width reg / 8 <= BINARY_SIZE) (_get_registers self) ->
  ForallOrdPairs apart (_get_registers self) ->
  BINARY_SIZE <= length data ->
  parse self data = Ok self' ->
  exists data',
    export self' false None = Ok (self', data')
    /\ Forall (fun reg =>
                 slice data' (offset reg) (offset reg + width reg / 8)
                 = slice data (offset reg) (offset reg + width reg / 8))
         (_get_registers self).
Proof.
  intros Hinv Hplain Hspans Hapart Hdata Hparse. unfold parse in Hparse.
  destruct (comprehension _ (registers self)) as [regs' |] eqn:Hregs;
    [| discriminate Hparse].
  cbn in Hparse. injection Hparse as <-.
  apply comprehension_Forall2 in Hregs.
  set (exclude := get_ignored_registers (config self) (device self)) in *.
  set (R := fun reg reg' : RegsRegister =>
              excluded exclude reg = false ->
              exists val,
                change_endianism
                  (slice data (offset reg) (offset reg + width reg / 8)) = Ok val
                /\ reg' = with_value reg val).
  assert (Forall2 (fun reg reg' => name reg' = name reg /\ R reg reg')
            (registers self) regs') as Hrel.
  { eapply Forall2_impl; [exact Hregs |]. intros reg reg' Hreg. cbn beta in Hreg.
    unfold R. destruct (excluded exclude reg).
    - injection Hreg as <-. by split.
    - destruct (change_endianism _) as [val |]; [| discriminate Hreg].
      cbn in Hreg. injection Hreg as <-. split; [done |]. eauto. }
  clear Hregs.
  set (self' := with_registers self regs').
  assert (Forall2 (fun reg reg' =>
                     exists val,
                       change_endianism
                         (slice data (offset reg) (offset reg + width reg / 8)) = Ok val
                       /\ reg' = with_value reg val)
            (_get_registers self) (_get_registers self')) as Hhandled.
  { unfold _get_registers, get_registers. cbn [config device registers with_registers self'].
    fold exclude.
    assert (Forall2 (fun reg reg' => name reg' = name reg /\ R reg reg')
              (List.filter (fun reg => negb (excluded exclude reg)) (registers self))
              (List.filter (fun reg => negb (excluded exclude reg)) regs')) as Hfiltered.
    { apply Forall2_filter; [| exact Hrel].
      intros reg reg' [Hname _]. unfold excluded. by rewrite Hname. }
    clear Hrel.
    remember (List.filter (fun reg => negb (excluded exclude reg)) (registers self))
      as handled eqn:Hh.
    assert (Forall (fun reg => excluded exclude reg = false) handled) as Hin.
    { subst handled. apply Forall_forall. intros reg Hreg.
      apply list_elem_of_In, filter_In in Hreg as [_ Hreg].
      by apply negb_true_iff. }
    clear Hh. induction Hfiltered as [| reg reg' regs1 regs2 [_ Hreg] _ IH];
      [constructor |].
    apply Forall_cons in Hin as [Hex Hin]. constructor; [by apply Hreg | by apply IH]. }
  assert (registers_fit self') as Hfit.
  { unfold registers_fit, plain_area in *.
    revert Hplain Hspans. clear Hapart.
    induction Hhandled as [| reg reg' regs1 regs2 (val & Hval & ->) _ IH];
      intros Hplain Hspans; [constructor |].
    apply Forall_cons in Hplain as [[Hsub Hrev] Hplain].
    apply Forall_cons in Hspans as [Hspan Hspans].
    constructor; [| by apply IH].
    unfold has_group_registers. cbn [sub_regs with_value]. rewrite Hsub.
    unfold writable. cbn [value width offset reverse with_value].
    destruct (Hinv _ _ Hval) as [Hlen Hback].
    rewrite length_slice_inside in Hlen by lia.
    split_and!; [done | done |]. intros _. eexists. split; [exact Hback |].
    rewrite length_slice_inside by lia. done. }
  assert (plain_area self') as Hplain'.
  { unfold plain_area in *. revert Hplain.
    clear Hfit Hapart Hspans.
    induction Hhandled as [| reg reg' regs1 regs2 (val & Hval & ->) _ IH];
      intros Hplain; [constructor |].
    apply Forall_cons in Hplain as [Hreg Hplain].
    constructor; [exact Hreg | by apply IH]. }
  assert (ForallOrdPairs apart (written self')) as Hapart'.
  { rewrite (written_plain self' Hplain').
    eapply ForallOrdPairs_Forall2; [| exact Hhandled | exact Hapart].
    intros reg1 reg1' reg2 reg2' (v1 & _ & ->) (v2 & _ & ->). done. }
  destruct (export_spans self' Hfit Hapart') as (data' & Hexport & Hat).
  exists data'. split; [exact Hexport |].
  rewrite (written_plain self' Hplain') in Hat.
  clear Hfit Hapart Hapart' Hexport Hspans. revert Hat Hplain.
  unfold plain_area.
  induction Hhandled as [| reg reg' regs1 regs2 (val & Hval & ->) _ IH];
    intros Hat Hplain; [constructor |].
  apply Forall_cons in Hat as [Hreg Hat].
  apply Forall_cons in Hplain as [[_ Hrev] Hplain].
  constructor; [| apply IH; [exact Hat | exact Hplain]].
  unfold exported_value, get_value in Hreg.
  cbn [reverse value offset width with_value] in Hreg. rewrite Hrev in Hreg.
  destruct (Hinv _ _ Hval) as [_ Hback]. rewrite Hback in Hreg.
  injection Hreg as Hreg. symmetry. exact Hreg.
Qed.

(** X12. With [add_seal] set, [export] of an area whose registers fit
    ends in [AssertionError] when the database has no seal entry for the
    device, and when the seal it declares would end past the record:
    the seal is then written and the record, longer than [BINARY_SIZE],
    is refused. *)
Theorem export_refuses_a_seal_outside_the_record (self : BaseConfigArea) :
  registers_fit self ->
  (get_seal_start_address (config self) (device self) = None ->
   export self true None = Raise AssertionError)
  /\ (forall start seal_reg seal_count,
        get_seal_start_address (config self) (device self) = Some start ->
        truthy_str start = true ->
        find_reg (registers self) start = Ok seal_reg ->
        get_seal_count (config self) (device self) = Some seal_count ->
        BINARY_SIZE < offset seal_reg + seal_count * 4 ->
        export self true None = Raise AssertionError).
Proof.
  intros Hfit.
  destruct (export_loop_fit _ (zeros BINARY_SIZE) Hfit (length_zeros _))
    as (data1 & Hloop & Hlen1).
  split.
  - intros Hnone. unfold export. cbn [mbind result_bind]. rewrite Hloop.
    cbn [mbind result_bind]. unfold _get_seal_start_address. by rewrite Hnone.
  - intros start seal_reg seal_count Hstart Htruthy Hfind Hcount Hout.
    unfold export. cbn [mbind result_bind]. rewrite Hloop.
    cbn [mbind result_bind]. unfold _get_seal_start_address, _get_seal_count.
    rewrite Hstart, Htruthy, Hcount. cbn [from_option id assert mbind result_bind].
    rewrite Hfind. cbn [mbind result_bind].
    destruct seal_count as [| n]; [done |].
    cbn [from_option id assert mbind result_bind].
    unfold assert.
    destruct (Nat.eqb_spec
                (length (slice_assign data1 (offset seal_reg)
                           (offset seal_reg + S n * 4) (repeat_bytes MARK (S n))))
                BINARY_SIZE) as [Hlen | Hlen]; [| done].
    rewrite length_slice_assign, length_repeat_bytes, Hlen1 in Hlen.
    change (length MARK) with 4 in Hlen. lia.
Qed.

End WithExternals.

(** The byte-order transform of [spsdk.utils.misc] undoes itself. *)
Lemma reverse_words_twice (fuel fuel' : nat) (arr : bytes) :
  length arr <= fuel -> length arr <= fuel' -> length arr mod 4 = 0 ->
  length (Misc.reverse_words fuel arr) = length arr
  /\ Misc.reverse_words fuel' (Misc.reverse_words fuel arr) = arr.
Proof.
  revert fuel' arr. induction fuel as [| fuel IH]; intros fuel' arr Hf Hf' Hm.
  - destruct arr; [| cbn in Hf; lia]. by destruct fuel'.
  - destruct arr as [| b0 [| b1 [| b2 [| b3 arr]]]]; try discriminate Hm.
    + by destruct fuel'.
    + destruct fuel' as [| fuel']; [cbn in Hf'; lia |].
      cbn [length] in Hf, Hf', Hm.
      replace (S (S (S (S (length arr))))) with (length arr + 1 * 4) in Hm by lia.
      rewrite Nat.Div0.mod_add in Hm.
      destruct (IH fuel' arr ltac:(lia) ltac:(lia) Hm) as [Hlen Hback].
      cbn. by rewrite Hlen, Hback.
Qed.

Lemma reverse_bytes_in_longs_ok (arr : bytes) :
  length arr mod 4 = 0 ->
  Misc.reverse_bytes_in_longs arr = Ok (Misc.reverse_words (length arr) arr).
Proof. intros H. unfold Misc.reverse_bytes_in_longs. by rewrite H. Qed.

Lemma misc_endianism_is_involution :
  endianism_is_involution (ext := Samples.externals).
Proof.
  intros val val' H.
  change (Misc.change_endianism val = Ok val') in H.
  change (length val' = length val /\ Misc.change_endianism val' = Ok val).
  destruct val as [| b0 [| b1 [| b2 [| b3 arr]]]].
  - cbn in H. injection H as <-. done.
  - cbn in H. injection H as <-. done.
  - cbn in H. injection H as <-. done.
  - discriminate H.
  - remember (b0 :: b1 :: b2 :: b3 :: arr) as val eqn:Hval.
    assert (Misc.reverse_bytes_in_longs val = Ok val') as H' by (by subst val).
    clear H. unfold Misc.reverse_bytes_in_longs in H'.
    destruct (Nat.eqb_spec (length val mod 4) 0) as [Hm | Hm]; [| discriminate H'].
    injection H' as <-.
    destruct (reverse_words_twice (length val) (length val) val
                ltac:(done) ltac:(done) Hm) as [Hlen Hback].
    split; [exact Hlen |].
    remember (Misc.reverse_words (length val) val) as out eqn:Hout.
    assert (4 <= length out) as Hfour by (rewrite Hlen, Hval; cbn; lia).
    clear Hout Hval.
    destruct out as [| c0 [| c1 [| c2 [| c3 out]]]]; try (cbn in Hfour; lia).
    remember (c0 :: c1 :: c2 :: c3 :: out) as out' eqn:Hout'.
    assert (Misc.change_endianism out' = Misc.reverse_bytes_in_longs out') as ->
      by (by subst out').
    rewrite reverse_bytes_in_longs_ok by (by rewrite Hlen).
    by rewrite Hlen, Hback.
Qed.

Ltac sample_fits :=
  unfold registers_fit, writable; cbn;
  repeat (first [ apply Forall_nil_2 | apply Forall_cons; split ]);
  (split; [reflexivity | split; [unfold BINARY_SIZE; cbn; lia |]]);
  intros Hrev; try discriminate Hrev;
  (eexists; split; [vm_compute; reflexivity | reflexivity]).

Ltac sample_apart :=
  cbn; repeat (first [ apply FOP_nil | apply FOP_cons
                     | apply Forall_nil_2 | apply Forall_cons; split ]);
  unfold apart; cbn; lia.

Lemma plain_cfpa_fits : registers_fit (ext := Samples.externals) MoreSamples.plain_cfpa.
Proof. sample_fits. Qed.

Lemma plain_cfpa_apart :
  ForallOrdPairs apart (written (ext := Samples.externals) MoreSamples.plain_cfpa).
Proof. sample_apart. Qed.

Lemma plain_cfpa_plain : plain_area (ext := Samples.externals) MoreSamples.plain_cfpa.
Proof.
  unfold plain_area. cbn.
  repeat (first [ apply Forall_nil_2 | apply Forall_cons; split ]); done.
Qed.

Lemma export_leaves_the_bytes_between_registers_zero_witness :
  exists data,
    export (ext := Samples.externals) MoreSamples.plain_cfpa false None
    = Ok (MoreSamples.plain_cfpa, data)
    /\ forall i, i < BINARY_SIZE ->
         Forall (fun reg => ~ in_span reg i)
           (written (ext := Samples.externals) MoreSamples.plain_cfpa) ->
         data !! i = Some x00.
Proof.
  apply (export_leaves_the_bytes_between_registers_zero (EXT := Samples.externals)
           MoreSamples.plain_cfpa).
  exact plain_cfpa_fits.
Defined.

Lemma export_places_every_register_at_its_span_witness :
  exists data,
    export (ext := Samples.externals) Samples.cmpa false None = Ok (Samples.cmpa, data)
    /\ Forall (fun reg =>
                 exported_value (ext := Samples.externals) reg
                 = Ok (slice data (offset reg) (offset reg + width reg / 8)))
         (written (ext := Samples.externals) Samples.cmpa).
Proof.
  apply (export_places_every_register_at_its_span (EXT := Samples.externals)
           Samples.cmpa).
  - exact sample_registers_fit.
  - sample_apart.
Defined.

Lemma parse_of_export_is_the_area_witness :
  exists data,
    export (ext := Samples.externals) MoreSamples.plain_cfpa false None
    = Ok (MoreSamples.plain_cfpa, data)
    /\ parse (ext := Samples.externals) MoreSamples.plain_cfpa data
       = Ok MoreSamples.plain_cfpa.
Proof.
  apply (parse_of_export_is_the_area (EXT := Samples.externals) MoreSamples.plain_cfpa).
  - exact misc_endianism_is_involution.
  - exact plain_cfpa_plain.
  - exact plain_cfpa_fits.
  - rewrite <- (written_plain _ plain_cfpa_plain). exact plain_cfpa_apart.
Defined.

Lemma export_of_parse_restores_the_spans_witness :
  let data := repeat_bytes [x01; x02; x03; x04] 128 in
  exists self' data',
    parse (ext := Samples.externals) MoreSamples.plain_cfpa data = Ok self'
    /\ export (ext := Samples.externals) self' false None = Ok (self', data')
    /\ Forall (fun reg =>
                 slice data' (offset reg) (offset reg + width reg / 8)
                 = slice data (offset reg) (offset reg + width reg / 8))
         (_get_registers (ext := Samples.externals) MoreSamples.plain_cfpa).
Proof.
  intros data.
  assert (exists self',
            parse (ext := Samples.externals) MoreSamples.plain_cfpa data = Ok self')
    as [self' Hparse] by (eexists; vm_compute; reflexivity).
  destruct (export_of_parse_restores_the_spans (EXT := Samples.externals)
              MoreSamples.plain_cfpa self' data) as (data' & Hexport & Hspans).
  - exact misc_endianism_is_involution.
  - exact plain_cfpa_plain.
  - cbn. repeat (first [ apply Forall_nil_2 | apply Forall_cons; split ]);
      unfold BINARY_SIZE; cbn; lia.
  - rewrite <- (written_plain _ plain_cfpa_plain). exact plain_cfpa_apart.
  - unfold data. rewrite length_repeat_bytes. unfold BINARY_SIZE. cbn. lia.
  - exact Hparse.
  - exists self', data'. by split_and!.
Defined.

Lemma export_refuses_a_seal_outside_the_record_witness :
  export (ext := Samples.externals) MoreSamples.long_seal_cfpa true None
  = Raise AssertionError.
Proof.
  destruct (export_refuses_a_seal_outside_the_record (EXT := Samples.externals)
              MoreSamples.long_seal_cfpa) as [_ Hlong].
  - sample_fits.
  - apply (Hlong "SHA256_DIGEST0"
             (Samples.plain_reg "SHA256_DIGEST0" 480 32 false [x00; x00; x00; x00]) 9);
      try reflexivity.
    unfold BINARY_SIZE. cbn. lia.
Defined.

End LayoutProofs.

(** ** The export with keys *)

Module RotkhExportProofs.
Import Pfr Stated Layout BytesFacts RegistersFacts ExportProofs LayoutProofs.

Section WithExternals.
Context `{EXT : !Externals}.

(** [export] without keys returns the area it was called on. *)
Lemma export_without_keys_area
    (self out : BaseConfigArea) (add_seal : bool) (data : bytes) :
  export self add_seal None = Ok (out, data) -> out = self.
Proof.
  unfold export. cbn [mbind result_bind]. intros H.
  match type of H with
  | (?loop ≫= _) = _ => destruct loop as [data1 |]; [| discriminate H]
  end.
  cbn [mbind result_bind] in H.
  match type of H with
  | (?seal ≫= _) = _ => destruct seal as [data2 |]; [| discriminate H]
  end.
  cbn [mbind result_bind] in H.
  match type of H with
  | (?check ≫= _) = _ => destruct check as [[] |]; [| discriminate H]
  end.
  cbn [mbind result_bind] in H. by injection H as <- _.
Qed.

(** The first phase of [export] with keys, once the register is found
    and the digest computed. *)
Lemma export_with_keys_unfold
    (self : BaseConfigArea) (add_seal : bool) (key : PublicKey) (keys : list PublicKey)
    (rotkh_reg : RegsRegister) (rotkh_data : bytes) :
  find_reg (registers self) ROTKH_REGISTER = Ok rotkh_reg ->
  _calc_rotkh self (key :: keys) = Ok rotkh_data ->
  export self add_seal (Some (key :: keys))
  = export
      (with_registers self
         (update_reg (registers self) ROTKH_REGISTER (with_value rotkh_reg rotkh_data)))
      add_seal None.
Proof.
  intros Hfind Hcalc. unfold export at 1. rewrite Hfind. cbn [mbind result_bind].
  rewrite Hcalc. reflexivity.
Qed.

(** Once the first register of a name is replaced by a register of that
    name, that register is what [find_reg] gives. *)
Lemma rotkh_is_held
    (self : BaseConfigArea) (rotkh_reg : RegsRegister) (rotkh_data : bytes) :
  find_reg (registers self) ROTKH_REGISTER = Ok rotkh_reg ->
  find_reg
    (update_reg (registers self) ROTKH_REGISTER (with_value rotkh_reg rotkh_data))
    ROTKH_REGISTER
  = Ok (with_value rotkh_reg rotkh_data).
Proof.
  intros Hfind. pose proof (find_reg_name _ _ _ Hfind) as Hname.
  exact (find_reg_update (registers self) ROTKH_REGISTER rotkh_reg
           (with_value rotkh_reg rotkh_data) Hfind Hname).
Qed.

(** C8. [export] with a non-empty list of keys, in three statements.

    On an area that has no register named ROTKH it raises
    [SPSDKPfrRotkhIsNotPresent].

    Whatever it returns, it returns after it has found the register and
    computed the digest, and the area it returns is the area it was
    called on with the ROTKH register holding exactly the digest: the
    register is the one that was found with the digest for its value,
    stored raw, whatever the hooks of the register would have made of it
    or said to it.

    When the register is there and the digest can be computed, the
    export is the export, without keys, of that area; and it does return
    when every register it writes has a value of the length of its width
    and a span inside the record, with a record of [BINARY_SIZE] bytes
    that, when the spans of the registers written lie apart and the ROTKH
    register is among them, holds the digest at the span of the ROTKH
    register (as it is when the register has the [reverse] flag, through
    the byte-order transform otherwise). *)
Theorem export_with_keys_sets_rotkh
    (self : BaseConfigArea) (add_seal : bool) (key : PublicKey) (keys : list PublicKey) :
  (Forall (fun reg => name reg <> ROTKH_REGISTER) (registers self) ->
   export self add_seal (Some (key :: keys))
   = Raise (SPSDKPfrRotkhIsNotPresent "This device doesn't contain ROTKH register!"))
  /\ (forall out data,
        export self add_seal (Some (key :: keys)) = Ok (out, data) ->
        exists rotkh_reg rotkh_data,
          find_reg (registers self) ROTKH_REGISTER = Ok rotkh_reg
          /\ _calc_rotkh self (key :: keys) = Ok rotkh_data
          /\ out = with_registers self
                     (update_reg (registers self) ROTKH_REGISTER
                        (with_value rotkh_reg rotkh_data))
          /\ find_reg (registers out) ROTKH_REGISTER
             = Ok (with_value rotkh_reg rotkh_data)
          /\ (get_value <$> find_reg (registers out) ROTKH_REGISTER) = Ok rotkh_data)
  /\ (forall rotkh_reg rotkh_data,
        find_reg (registers self) ROTKH_REGISTER = Ok rotkh_reg ->
        _calc_rotkh self (key :: keys) = Ok rotkh_data ->
        let self' :=
          with_registers self
            (update_reg (registers self) ROTKH_REGISTER
               (with_value rotkh_reg rotkh_data)) in
        export self add_seal (Some (key :: keys)) = export self' add_seal None
        /\ (get_value <$> find_reg (registers self') ROTKH_REGISTER) = Ok rotkh_data
        /\ (registers_fit self' ->
            exists data,
              export self false (Some (key :: keys)) = Ok (self', data)
              /\ length data = BINARY_SIZE
              /\ (ForallOrdPairs apart (written self') ->
                  with_value rotkh_reg rotkh_data ∈ written self' ->
                  exported_value (with_value rotkh_reg rotkh_data)
                  = Ok (slice data (offset rotkh_reg)
                          (offset rotkh_reg + width rotkh_reg / 8))))).
Proof.
  split_and!.
  - intros Habsent. unfold export.
    by rewrite (find_reg_absent _ _ Habsent).
  - intros out data H.
    destruct (find_reg (registers self) ROTKH_REGISTER) as [rotkh_reg | e] eqn:Hfind.
    2: { unfold export in H. rewrite Hfind in H. cbn [mbind result_bind] in H.
         by destruct e. }
    destruct (_calc_rotkh self (key :: keys)) as [rotkh_data | e] eqn:Hcalc.
    2: { unfold export in H. rewrite Hfind in H. cbn [mbind result_bind] in H.
         rewrite Hcalc in H. cbn [mbind result_bind] in H. by destruct e. }
    rewrite (export_with_keys_unfold _ _ _ _ _ _ Hfind Hcalc) in H.
    apply export_without_keys_area in H as ->.
    exists rotkh_reg, rotkh_data. cbn [registers with_registers].
    rewrite (rotkh_is_held _ _ rotkh_data Hfind). by split_and!.
  - intros rotkh_reg rotkh_data Hfind Hcalc self'.
    pose proof (export_with_keys_unfold _ add_seal _ _ _ _ Hfind Hcalc) as Hsame.
    split_and!; [exact Hsame | |].
    + unfold self'. cbn [registers with_registers].
      by rewrite (rotkh_is_held _ _ rotkh_data Hfind).
    + intros Hfit.
      rewrite (export_with_keys_unfold _ false _ _ _ _ Hfind Hcalc). fold self'.
      destruct (export_returns self' Hfit) as (data & Hexport & Hloop).
      destruct (export_regs_layout _ _ _ (registers_fit_written _ Hfit)
                  (length_zeros _) Hloop) as (Hlen & _ & Hspans).
      exists data. split_and!; [exact Hexport | exact Hlen |].
      intros Hapart Hin. specialize (Hspans Hapart).
      rewrite Forall_forall in Hspans. exact (Hspans _ Hin).
Qed.

End WithExternals.

Lemma guarded_fits :
  registers_fit (ext := SizedSamples.sized_externals)
    (with_registers SizedSamples.guarded_cmpa
       (update_reg (registers SizedSamples.guarded_cmpa) ROTKH_REGISTER
          (with_value SizedSamples.guarded_rotkh SizedSamples.guarded_digest))).
Proof. sample_fits. Qed.

Lemma guarded_apart :
  ForallOrdPairs apart
    (written (ext := SizedSamples.sized_externals)
       (with_registers SizedSamples.guarded_cmpa
          (update_reg (registers SizedSamples.guarded_cmpa) ROTKH_REGISTER
             (with_value SizedSamples.guarded_rotkh SizedSamples.guarded_digest)))).
Proof. sample_apart. Qed.

(** On the sample CFPA area, which has no ROTKH register, the export
    with a key raises. On the sample CMPA area whose ROTKH register has a
    hook that refuses every value, the export with the P-256 key returns
    the area with the digest in the register and a record that holds the
    digest at bytes 80 to 111: the hook was not asked. *)
Lemma export_with_keys_sets_rotkh_witness :
  export (ext := Samples.externals) Samples.cfpa true (Some [Samples.p256_key])
  = Raise (SPSDKPfrRotkhIsNotPresent "This device doesn't contain ROTKH register!")
  /\ apply_hooks SizedSamples.guarded_rotkh SizedSamples.guarded_digest
     = Raise (SPSDKError "value refused")
  /\ exists out data,
       export (ext := SizedSamples.sized_externals) SizedSamples.guarded_cmpa false
         (Some [Samples.p256_key]) = Ok (out, data)
       /\ (get_value <$> find_reg (registers out) ROTKH_REGISTER)
          = Ok SizedSamples.guarded_digest
       /\ length data = BINARY_SIZE
       /\ slice data 80 112 = SizedSamples.guarded_digest.
Proof.
  pose proof (export_with_keys_sets_rotkh (EXT := Samples.externals)
                Samples.cfpa true Samples.p256_key []) as [Habsent _].
  pose proof (export_with_keys_sets_rotkh (EXT := SizedSamples.sized_externals)
                SizedSamples.guarded_cmpa false Samples.p256_key [])
    as (_ & Hreturned & Hpresent).
  split_and!.
  - apply Habsent. unfold ROTKH_REGISTER. cbn.
    repeat (apply Forall_cons; split; [discriminate |]). apply Forall_nil_2.
  - reflexivity.
  - destruct (Hpresent SizedSamples.guarded_rotkh SizedSamples.guarded_digest)
      as (_ & _ & Hreturns); [vm_compute; reflexivity | vm_compute; reflexivity |].
    destruct (Hreturns guarded_fits) as (data & Hexport & Hlen & Hspan).
    destruct (Hreturned _ _ Hexport) as (reg & digest & Hfind & Hcalc & _ & _ & Hvalue).
    assert (digest = SizedSamples.guarded_digest) as ->.
    { assert (_calc_rotkh (ext := SizedSamples.sized_externals)
                SizedSamples.guarded_cmpa [Samples.p256_key]
              = Ok SizedSamples.guarded_digest) as Hdigest by (vm_compute; reflexivity).
      rewrite Hdigest in Hcalc. by injection Hcalc as <-. }
    eexists _, data. split_and!; [exact Hexport | exact Hvalue | exact Hlen |].
    specialize (Hspan guarded_apart).
    assert (Hin : with_value SizedSamples.guarded_rotkh SizedSamples.guarded_digest
                  ∈ written (ext := SizedSamples.sized_externals)
                      (with_registers SizedSamples.guarded_cmpa
                         (update_reg (registers SizedSamples.guarded_cmpa) ROTKH_REGISTER
                            (with_value SizedSamples.guarded_rotkh
                               SizedSamples.guarded_digest)))).
    { cbn. do 3 apply list_elem_of_further. apply list_elem_of_here. }
    specialize (Hspan Hin).
    change (Ok SizedSamples.guarded_digest = Ok (slice data 80 112)) in Hspan.
    by injection Hspan as <-.
Defined.

End RotkhExportProofs.

(** ** Applying a user configuration: what is accepted *)

Module SetConfigChecks.
Import Pfr Stated RegistersFacts.

Section WithExternals.
Context `{EXT : !Externals}.

(** The configuration [set_config] goes on with once it has filled in
    the revision. *)
Lemma set_config_revision_step (self : BaseConfigArea) (cfg : PfrConfiguration.t setting) :
  let cfg1 :=
    match PfrConfiguration.revision cfg with
    | Some r =>
        if negb (truthy_str r) || bool_decide (r ∈ ["latest"; EmptyString])
        then {| PfrConfiguration.device := PfrConfiguration.device cfg;
                PfrConfiguration.revision :=
                  Some (get_latest_revision (config self) (device self));
                PfrConfiguration.type := PfrConfiguration.type cfg;
                PfrConfiguration.settings := PfrConfiguration.settings cfg |}
        else cfg
    | None =>
        {| PfrConfiguration.device := PfrConfiguration.device cfg;
           PfrConfiguration.revision :=
             Some (get_latest_revision (config self) (device self));
           PfrConfiguration.type := PfrConfiguration.type cfg;
           PfrConfiguration.settings := PfrConfiguration.settings cfg |}
    end in
  PfrConfiguration.device cfg1 = PfrConfiguration.device cfg
  /\ PfrConfiguration.type cfg1 = PfrConfiguration.type cfg
  /\ PfrConfiguration.settings cfg1 = PfrConfiguration.settings cfg
  /\ (PfrConfiguration.revision cfg1 = PfrConfiguration.revision cfg
      \/ (PfrConfiguration.revision cfg ∈ [None; Some EmptyString; Some "latest"]
          /\ PfrConfiguration.revision cfg1
             = Some (get_latest_revision (config self) (device self)))).
Proof.
  cbn zeta. destruct (PfrConfiguration.revision cfg) as [r |] eqn:Hr.
  - destruct (negb (truthy_str r) || bool_decide (r ∈ ["latest"; EmptyString])) eqn:Hc.
    + cbn. split_and!; try done. right. split; [| done].
      apply orb_true_iff in Hc as [Hc | Hc].
      * destruct r; [| discriminate Hc]. rewrite !elem_of_cons. auto.
      * apply bool_decide_eq_true_1 in Hc.
        rewrite !elem_of_cons, elem_of_nil in Hc. rewrite !elem_of_cons.
        destruct Hc as [-> | [-> | []]]; auto.
    + split_and!; try done. by left.
  - cbn. split_and!; try done. right. split; [| done]. rewrite !elem_of_cons. auto.
Qed.

(** X13. [set_config] goes through only for a configuration that names
    the device of the area, gives its revision (or none, an empty one or
    "latest" when the latest revision of the device is that of the
    area), either no type or one that is the class name up to case, and
    settings that are not empty. The area keeps its device, revision,
    class and database, and the configuration leaves with the revision
    of the area. *)
Theorem set_config_accepts_only_a_matching_configuration
    (self self' : BaseConfigArea) (cfg cfg' : PfrConfiguration.t setting) (raw : bool) :
  set_config self cfg raw = Ok (self', cfg') ->
  PfrConfiguration.device cfg = Some (device self)
  /\ (PfrConfiguration.revision cfg = Some (revision self)
      \/ (PfrConfiguration.revision cfg ∈ [None; Some EmptyString; Some "latest"]
          /\ get_latest_revision (config self) (device self) = revision self))
  /\ match PfrConfiguration.type cfg with
     | Some t => t = EmptyString \/ upper t = class_name self
     | None => True
     end
  /\ (exists settings,
        PfrConfiguration.settings cfg = Some settings /\ settings <> ∅)
  /\ PfrConfiguration.revision cfg' = Some (revision self)
  /\ PfrConfiguration.device cfg' = PfrConfiguration.device cfg
  /\ PfrConfiguration.type cfg' = PfrConfiguration.type cfg
  /\ PfrConfiguration.settings cfg' = PfrConfiguration.settings cfg
  /\ device self' = device self /\ revision self' = revision self
  /\ class_name self' = class_name self /\ config self' = config self.
Proof.
  intros H. unfold set_config in H.
  destruct (assert (truthy_str (device self))); [| discriminate H].
  destruct (assert (truthy_str (revision self))); [| discriminate H].
  cbn [mbind result_bind] in H.
  destruct (decide (PfrConfiguration.device cfg = Some (device self))) as [Hdev | Hdev].
  2: { rewrite (bool_decide_eq_false_2 _ Hdev) in H. discriminate H. }
  rewrite (bool_decide_eq_true_2 _ Hdev) in H. cbn [negb] in H.
  pose proof (set_config_revision_step self cfg) as Hstep. cbn zeta in Hstep.
  match type of H with
  | (if negb (bool_decide (PfrConfiguration.revision ?c = _)) then _ else _) = _ =>
      remember c as cfg1 eqn:Hc
  end.
  clear Hc. destruct Hstep as (Hd1 & Ht1 & Hs1 & Hr1).
  destruct (decide (PfrConfiguration.revision cfg1 = Some (revision self)))
    as [Hrev | Hrev].
  2: { rewrite (bool_decide_eq_false_2 _ Hrev) in H. discriminate H. }
  rewrite (bool_decide_eq_true_2 _ Hrev) in H. cbn [negb] in H.
  destruct (match PfrConfiguration.type cfg1 with
            | Some t => truthy_str t && negb (String.eqb (upper t) (class_name self))
            | None => false
            end) eqn:Htype; [discriminate H |].
  destruct (PfrConfiguration.settings cfg1) as [settings |] eqn:Hset; [| discriminate H].
  destruct (decide (settings = ∅)) as [Hempty | Hempty].
  { rewrite (bool_decide_eq_true_2 _ Hempty) in H. discriminate H. }
  rewrite (bool_decide_eq_false_2 _ Hempty) in H.
  destruct (load_yml_config _ _ _ _) as [loaded |]; [| discriminate H].
  cbn [mbind result_bind] in H.
  assert (self' = with_registers self (registers self') /\ cfg' = cfg1) as [Hself ->].
  { destruct raw.
    - injection H as <- <-. by split.
    - destruct (run_hooks loaded _) as [regs' |]; [| discriminate H].
      cbn in H. injection H as <- <-. by split. }
  split_and!; try done; try (by rewrite Hself).
  - destruct Hr1 as [Hsame | [Hin Hlatest]]; [left; congruence | right].
    split; [done | congruence].
  - rewrite Ht1 in Htype. destruct (PfrConfiguration.type cfg) as [t |]; [| done].
    destruct t as [| c t]; [by left | right]. cbn [truthy_str andb] in Htype.
    apply negb_false_iff in Htype. by apply String.eqb_eq.
  - exists settings. split; [congruence | done].
  - congruence.
Qed.

(** X14. A configuration that gives no revision, an empty one or
    "latest" is taken for one of the latest revision of the device:
    [set_config] does with it what it does with that configuration. So an
    area of an earlier revision turns it down with
    [SPSDKPfrConfigError]. *)
Theorem set_config_takes_a_missing_revision_for_the_latest
    (self : BaseConfigArea) (cfg : PfrConfiguration.t setting) (raw : bool) :
  PfrConfiguration.revision cfg ∈ [None; Some EmptyString; Some "latest"] ->
  let latest := get_latest_revision (config self) (device self) in
  set_config self cfg raw
  = set_config self
      {| PfrConfiguration.device := PfrConfiguration.device cfg;
         PfrConfiguration.revision := Some latest;
         PfrConfiguration.type := PfrConfiguration.type cfg;
         PfrConfiguration.settings := PfrConfiguration.settings cfg |} raw
  /\ (truthy_str (device self) = true -> truthy_str (revision self) = true ->
      PfrConfiguration.device cfg = Some (device self) ->
      latest <> revision self ->
      exists msg, set_config self cfg raw = Raise (SPSDKPfrConfigError msg)).
Proof.
  intros Hin latest.
  assert (forall cfg0 : PfrConfiguration.t setting,
            PfrConfiguration.revision cfg0 ∈ [None; Some EmptyString; Some "latest"]
            \/ PfrConfiguration.revision cfg0 = Some latest ->
            match PfrConfiguration.revision cfg0 with
            | Some r =>
                if negb (truthy_str r) || bool_decide (r ∈ ["latest"; EmptyString])
                then {| PfrConfiguration.device := PfrConfiguration.device cfg0;
                        PfrConfiguration.revision := Some latest;
                        PfrConfiguration.type := PfrConfiguration.type cfg0;
                        PfrConfiguration.settings := PfrConfiguration.settings cfg0 |}
                else cfg0
            | None =>
                {| PfrConfiguration.device := PfrConfiguration.device cfg0;
                   PfrConfiguration.revision := Some latest;
                   PfrConfiguration.type := PfrConfiguration.type cfg0;
                   PfrConfiguration.settings := PfrConfiguration.settings cfg0 |}
            end
            = {| PfrConfiguration.device := PfrConfiguration.device cfg0;
                 PfrConfiguration.revision := Some latest;
                 PfrConfiguration.type := PfrConfiguration.type cfg0;
                 PfrConfiguration.settings := PfrConfiguration.settings cfg0 |})
    as Hfill.
  { intros [d r t s]. cbn. intros [Hr | ->].
    - repeat (apply elem_of_cons in Hr as [-> | Hr]); try done.
      by apply elem_of_nil in Hr.
    - by destruct (negb (truthy_str latest) || bool_decide (latest ∈ ["latest"; EmptyString])). }
  split.
  - unfold set_config. fold latest.
    rewrite (Hfill cfg (or_introl Hin)).
    rewrite (Hfill {| PfrConfiguration.device := PfrConfiguration.device cfg;
                      PfrConfiguration.revision := Some latest;
                      PfrConfiguration.type := PfrConfiguration.type cfg;
                      PfrConfiguration.settings := PfrConfiguration.settings cfg |}
               (or_intror eq_refl)).
    reflexivity.
  - intros Hdevice Hrevision Hdev Hold. unfold set_config. fold latest.
    rewrite Hdevice, Hrevision. cbn [assert mbind result_bind].
    rewrite (bool_decide_eq_true_2 _ Hdev). cbn [negb].
    rewrite (Hfill cfg (or_introl Hin)). cbn [PfrConfiguration.revision].
    rewrite bool_decide_eq_false_2 by congruence. cbn [negb]. eauto.
Qed.

End WithExternals.

Lemma set_config_accepts_only_a_matching_configuration_witness :
  exists self' cfg',
    set_config (ext := Samples.externals) Samples.cmpa_hooked Samples.pin_config false
    = Ok (self', cfg')
    /\ PfrConfiguration.revision cfg' = Some "1b"
    /\ device self' = "lpc55s6x" /\ revision self' = "1b".
Proof.
  assert (exists self' cfg',
            set_config (ext := Samples.externals) Samples.cmpa_hooked
              Samples.pin_config false = Ok (self', cfg')) as (self' & cfg' & Hset)
    by (eexists _, _; vm_compute; reflexivity).
  exists self', cfg'. split; [exact Hset |].
  destruct (set_config_accepts_only_a_matching_configuration
              (EXT := Samples.externals) _ _ _ _ _ Hset)
    as (_ & _ & _ & _ & Hrev & _ & _ & _ & Hdev & Hrev' & _).
  split_and!; [exact Hrev | exact Hdev | exact Hrev'].
Defined.

Lemma set_config_takes_a_missing_revision_for_the_latest_witness :
  let unversioned :=
    {| PfrConfiguration.device := Some "lpc55s6x";
       PfrConfiguration.revision := None;
       PfrConfiguration.type := Some "cmpa";
       PfrConfiguration.settings := Some Samples.pin_settings |} in
  set_config (ext := Samples.externals) Samples.cmpa_hooked unversioned false
  = set_config (ext := Samples.externals) Samples.cmpa_hooked Samples.pin_config false.
Proof.
  intros unversioned.
  destruct (set_config_takes_a_missing_revision_for_the_latest
              (EXT := Samples.externals) Samples.cmpa_hooked unversioned false)
    as [Hsame _].
  - set_solver.
  - exact Hsame.
Defined.

End SetConfigChecks.

(** ** Secure Binary v2.1: what a run reads and what it leaves behind *)

Module SecureBinary21Outcomes.
Import Elftosb IOFacts SecureBinary21Proofs ToolOutcomes.

Lemma read_file_fs (path : string) (w1 w2 : world) :
  fs w1 = fs w2 -> read_file path w1 = read_file path w2.
Proof. unfold read_file. by intros ->. Qed.

Lemma for_each_ext {A S} (f g : S -> A -> result S) (xs : list A) (acc : S) :
  (forall s x, f s x = g s x) -> for_each f xs acc = for_each g xs acc.
Proof.
  intros Hfg. revert acc. induction xs as [| x xs IH]; intros acc; cbn; [done |].
  rewrite Hfg. destruct (g acc x); cbn; [apply IH | done].
Qed.

Lemma comprehension_ext {A B} (f g : A -> result B) (xs : list A) :
  (forall x, f x = g x) -> comprehension f xs = comprehension g xs.
Proof.
  intros Hfg. induction xs as [| x xs IH]; cbn; [done |]. by rewrite Hfg, IH.
Qed.

Section Proofs.
Context `{EXT : !Externals}.

(** A section is built from the files, whatever else the world holds. *)
Lemma build_section_fs (keyblobs : list keyblob) (w1 w2 : world)
    (bd_section : BDSection cmd_params) :
  fs w1 = fs w2 -> build_section keyblobs w1 bd_section = build_section keyblobs w2 bd_section.
Proof. unfold build_section. by intros ->. Qed.

(** X15. The three ways [generate_secure_binary_21] gives up before it
    builds anything. A command script that cannot be read lets the error
    of [open] through. A script the parser turns down ends the run in
    [SyntaxError], whether or not the signing options were given. A
    script that parses, without a private key, signing certificates or
    root key certificates, ends it with one error line echoed and
    [SystemExit(1)]. In all three nothing is written. *)
Theorem sb21_gives_up_before_it_builds
    (parser : BDParser) (bd_file_path output_file_path : string)
    (key_file_path private_key_file_path : option string)
    (signing_certificate_file_paths root_key_certificate_paths : option (list string))
    (hoh_out_path : option string) (external_files : list string) (w : world) :
  let run :=
    generate_secure_binary_21 parser bd_file_path output_file_path key_file_path
      private_key_file_path signing_certificate_file_paths root_key_certificate_paths
      hoh_out_path external_files w in
  (forall e, read_file bd_file_path w = Raise e -> run = (Raise e, w))
  /\ (forall text,
        read_file bd_file_path w = Ok text ->
        parser text external_files = None ->
        run = (Raise (SyntaxError
                        "error: invalid bd file, secure binary file generation terminated"),
               w))
  /\ (forall text doc,
        read_file bd_file_path w = Ok text ->
        parser text external_files = Some doc ->
        private_key_file_path = None \/ signing_certificate_file_paths = None
        \/ root_key_certificate_paths = None ->
        run = (Raise (SystemExit 1),
               {| fs := fs w; cwd := cwd w;
                  stdout := stdout w ++
                    ["error: Signed image requires private key with -s option, one or more certificate(s) using -S option and one or more root key certificates using -R option"];
                  clock := clock w; trace := trace w |})).
Proof.
  cbn zeta. unfold generate_secure_binary_21. split_and!.
  - intros e He. unfold mbind, IO_bind, look. by rewrite He.
  - intros text Htext Hdoc. rewrite (bind_look _ _ _ _ Htext), Hdoc. reflexivity.
  - intros text doc Htext Hdoc Hmissing.
    rewrite (bind_look _ _ _ _ Htext), Hdoc.
    destruct private_key_file_path, signing_certificate_file_paths,
      root_key_certificate_paths; try reflexivity.
    by destruct Hmissing as [? | [? | ?]].
Qed.

(** The ways the two writes can end. *)
Lemma write_outputs_cases
    (hoh_out_path output_file_path : string) (cb : cert_block_v2)
    (secure_binary : BootImageV21 command cert_block_v2) (w1 w' : world)
    (r : result unit) :
  write_outputs hoh_out_path output_file_path cb secure_binary w1 = (r, w') ->
  ((fs w' = fs w1 /\ exists e, r = Raise e)
   \/ (fs w' = <[hoh_out_path := File []]> (fs w1) /\ exists e, r = Raise e)
   \/ (exists rkht_data,
         rkht cb = Ok rkht_data
         /\ ((fs w' = <[hoh_out_path := File rkht_data]> (fs w1)
              /\ fs w' !! output_file_path = Some Dir
              /\ r = Raise (IsADirectoryError output_file_path))
             \/ (fs w' = <[output_file_path := File []]>
                           (<[hoh_out_path := File rkht_data]> (fs w1))
                 /\ exists e, BootImageV21_export secure_binary = Raise e /\ r = Raise e)
             \/ (exists sb_data,
                   BootImageV21_export secure_binary = Ok sb_data
                   /\ fs w' = <[output_file_path := File sb_data]>
                                (<[hoh_out_path := File rkht_data]> (fs w1))
                   /\ r = Ok tt))))
  /\ cwd w' = cwd w1 /\ stdout w' = stdout w1 /\ trace w' = trace w1
  /\ clock w' = clock w1.
Proof.
  unfold write_outputs. intros H.
  io_next H u w2 Hm;
    apply open_wb_inv in Hm as [(_ & Hr & ->) | (_ & Hr & ->)]; try discriminate Hr.
  { split; [left; eauto | done]. }
  io_next H rkht_data w3 Hm.
  { injection Hm as _ <-. split; [right; left; cbn; eauto | done]. }
  injection Hm as Hrkht <-.
  io_next H u2 w4 Hm; [discriminate Hm |]. injection Hm as _ <-.
  clear Hr.
  io_next H u3 w5 Hm;
    apply open_wb_inv in Hm as [(Hdir & Hr & ->) | (_ & Hr & ->)]; try discriminate Hr.
  { injection Hr as <-. split; [| done]. right; right. exists rkht_data.
    split; [done |]. left. cbn in *. rewrite insert_insert_eq in *. done. }
  io_next H sb_data w6 Hm.
  { injection Hm as Hexp <-. split; [| done]. right; right. exists rkht_data.
    split; [done |]. right; left. cbn. rewrite insert_insert_eq. eauto. }
  injection Hm as Hexp <-. injection H as <- <-. split; [| done].
  right; right. exists rkht_data. split; [done |]. right; right. exists sb_data.
  cbn. by rewrite !insert_insert_eq.
Qed.

Lemma defaulting_frame {A} (c : bool) (msg : string) (d v : A)
    (w w1 : world) (r : result A) :
  (if c then _ ← echo msg; mret d else mret v) w = (r, w1) ->
  r = Ok (if c then d else v)
  /\ fs w1 = fs w /\ cwd w1 = cwd w /\ trace w1 = trace w /\ clock w1 = clock w
  /\ stdout w1 = stdout w ++ (if c then [msg] else []).
Proof.
  destruct c; intros H; inversion H; subst; cbn; by rewrite ?app_nil_r.
Qed.

Lemma kek_step_frame (key_file_path : option string) (w w1 : world) (r : result bytes) :
  match key_file_path with
  | None =>
      _ ← echo "warning: no KEK key provided, using a zero KEK key";
      mret (zeros 32)
  | Some key_file_path =>
      kek_key_file ← look (read_file key_file_path);
      pure (fromhex (readline kek_key_file))
  end w = (r, w1) ->
  r = kek_of key_file_path w
  /\ fs w1 = fs w /\ cwd w1 = cwd w /\ trace w1 = trace w /\ clock w1 = clock w
  /\ stdout w1 = stdout w ++
       match key_file_path with
       | None => ["warning: no KEK key provided, using a zero KEK key"]
       | Some _ => []
       end.
Proof.
  destruct key_file_path as [p |]; cbn [kek_of]; intros H.
  - unfold mbind, IO_bind, look, pure in H.
    destruct (read_file p w) as [content |]; injection H as <- <-;
      by rewrite app_nil_r.
  - by injection H as <- <-.
Qed.

Lemma look_inv {A} (f : world -> result A) (w w' : world) (r : result A) :
  look f w = (r, w') -> f w = r /\ w' = w.
Proof. unfold look. by intros [= <- <-]. Qed.

(** What a run leaves untouched when it stops before its writes, and
    what it has built when it reaches them. *)
Lemma sb21_run_inv
    (parser : BDParser) (bd_file_path output_file_path : string)
    (key_file_path private_key_file_path : option string)
    (signing_certificate_file_paths root_key_certificate_paths : option (list string))
    (hoh_out_path : option string)
    (external_files : list string) (w w' : world) (r : result unit) :
  generate_secure_binary_21 parser bd_file_path output_file_path key_file_path
    private_key_file_path signing_certificate_file_paths root_key_certificate_paths
    hoh_out_path external_files w = (r, w') ->
  (fs w' = fs w /\ cwd w' = cwd w /\ trace w' = trace w /\ clock w' = clock w
   /\ (exists lines, stdout w' = stdout w ++ lines) /\ exists e, r = Raise e)
  \/ (exists text doc pk certs roots sb_kek sb_sections cb private_key w1,
        private_key_file_path = Some pk
        /\ signing_certificate_file_paths = Some certs
        /\ root_key_certificate_paths = Some roots
        /\ read_file bd_file_path w = Ok text
        /\ parser text external_files = Some doc
        /\ kek_of key_file_path w = Ok sb_kek
        /\ comprehension (build_section (default [] (keyblobs doc)) w) (sections doc)
           = Ok sb_sections
        /\ cert_block_of
             (resolved (PInt (-1)) (PInt 1) eq_minus_one (options doc !! "buildNumber"))
             certs roots w = Ok cb
        /\ read_file pk w = Ok private_key
        /\ fs w1 = fs w /\ cwd w1 = cwd w /\ trace w1 = trace w /\ clock w1 = clock w
        /\ stdout w1 = stdout w ++ default_warnings (options doc) key_file_path
        /\ write_outputs (default (cwd w) hoh_out_path) output_file_path cb
             (Build_BootImageV21 sb_kek sb_sections
                (resolved (PStr EmptyString) (PStr "1.0.0") falsy
                   (options doc !! "productVersion"))
                (resolved (PStr EmptyString) (PStr "1.0.0") falsy
                   (options doc !! "componentVersion"))
                (resolved (PInt (-1)) (PInt 1) eq_minus_one
                   (options doc !! "buildNumber"))
                (Some cb) (Some private_key)) w1 = (r, w')).
Proof.
  intros H. unfold generate_secure_binary_21 in H.
  io_next H text w1 Hm.
  { left. apply look_inv in Hm as [_ ->]. split_and!; try done; [| eauto].
    exists []. by rewrite app_nil_r. }
  apply look_inv in Hm as [Htext ->].
  destruct (parser text external_files) as [doc |] eqn:Hdoc.
  2: { left. injection H as <- <-. split_and!; try done; [| eauto].
       exists []. by rewrite app_nil_r. }
  destruct private_key_file_path as [pk |];
    [ destruct signing_certificate_file_paths as [certs |];
      [ destruct root_key_certificate_paths as [roots |] | ] | ].
  2-4: left; cbv [mbind IO_bind echo raise] in H; injection H as <- <-; cbn;
       split_and!; eauto.
  io_next H pv w1 Hm;
    apply defaulting_frame in Hm as (Hv & Hfs1 & Hcwd1 & Htr1 & Hck1 & Hout1);
    [discriminate Hv |].
  injection Hv as ->.
  io_next H cv w2 Hm;
    apply defaulting_frame in Hm as (Hv & Hfs2 & Hcwd2 & Htr2 & Hck2 & Hout2);
    [discriminate Hv |].
  injection Hv as ->.
  io_next H bn w3 Hm;
    apply defaulting_frame in Hm as (Hv & Hfs3 & Hcwd3 & Htr3 & Hck3 & Hout3);
    [discriminate Hv |].
  injection Hv as ->.
  assert (forall w4 lines, fs w4 = fs w3 -> cwd w4 = cwd w3 -> trace w4 = trace w3 ->
            clock w4 = clock w3 -> stdout w4 = stdout w3 ++ lines ->
            fs w4 = fs w /\ cwd w4 = cwd w /\ trace w4 = trace w /\ clock w4 = clock w
            /\ exists lines', stdout w4 = stdout w ++ lines') as Hstopped.
  { intros w4 lines Hfs4 Hcwd4 Htr4 Hck4 Hout4. split_and!; try congruence.
    eexists. rewrite Hout4, Hout3, Hout2, Hout1, <- !app_assoc. reflexivity. }
  io_next H sb_kek w4 Hm;
    apply kek_step_frame in Hm as (Hkek & Hfs4 & Hcwd4 & Htr4 & Hck4 & Hout4).
  { left. destruct (Hstopped w' _ Hfs4 Hcwd4 Htr4 Hck4 Hout4) as (? & ? & ? & ? & ?).
    split_and!; eauto. }
  assert (fs w4 = fs w) as Hfs by congruence.
  assert (fs w4 = fs w /\ cwd w4 = cwd w /\ trace w4 = trace w /\ clock w4 = clock w
          /\ exists lines', stdout w4 = stdout w ++ lines')
    as (_ & Hcwd & Htr & Hck & Hlines) by (by eapply Hstopped).
  clear Hstopped.
  io_next H sb_sections w5 Hm; apply look_inv in Hm as [Hsections ->].
  { left. split_and!; eauto. }
  io_next H cb0 w6 Hm; apply look_inv in Hm as [Hcb0 ->].
  { left. split_and!; eauto. }
  io_next H cb w7 Hm; apply look_inv in Hm as [Hcb ->].
  { left. split_and!; eauto. }
  io_next H pkey w8 Hm; apply look_inv in Hm as [Hpkey ->].
  { left. split_and!; eauto. }
  io_next H hoh w9 Hm.
  { destruct hoh_out_path; inversion Hm. }
  assert (hoh = default (cwd w) hoh_out_path /\ w9 = w4) as [-> ->].
  { destruct hoh_out_path; inversion Hm; subst; cbn; split; congruence. }
  right. exists text, doc, pk, certs, roots, sb_kek, sb_sections, cb, pkey, w4.
  split_and!; try done.
  - rewrite Hkek. unfold kek_of. destruct key_file_path as [p |]; [| done].
    by rewrite (read_file_fs p w3 w) by congruence.
  - rewrite <- Hsections. apply comprehension_ext. intros bd_section.
    by apply build_section_fs.
  - unfold cert_block_of, resolved.
    erewrite for_each_ext; [rewrite Hcb0 |].
    2: { intros cb1 path. cbn beta. by rewrite (read_file_fs path w w4). }
    cbn [mbind result_bind]. rewrite <- Hcb. apply for_each_ext.
    intros cb1 [idx path]. by rewrite (read_file_fs path w w4).
  - by rewrite <- (read_file_fs pk w4 w).
  - rewrite Hout4, Hout3, Hout2, Hout1. unfold default_warnings.
    by rewrite <- !app_assoc.
Qed.



(** X16. A run of [generate_secure_binary_21] changes no file but the
    one at the output path and the one at the path for the hash of hashes
    (the working directory when none is given). It leaves the working
    directory, the clock and the record of backend calls as they are, and
    only adds lines to the console. *)
Theorem sb21_touches_only_its_two_outputs
    (parser : BDParser) (bd_file_path output_file_path : string)
    (key_file_path private_key_file_path : option string)
    (signing_certificate_file_paths root_key_certificate_paths : option (list string))
    (hoh_out_path : option string)
    (external_files : list string) (w w' : world) (r : result unit) :
  generate_secure_binary_21 parser bd_file_path output_file_path key_file_path
    private_key_file_path signing_certificate_file_paths root_key_certificate_paths
    hoh_out_path external_files w = (r, w') ->
  (forall path, path <> output_file_path -> path <> default (cwd w) hoh_out_path ->
                fs w' !! path = fs w !! path)
  /\ cwd w' = cwd w /\ trace w' = trace w /\ clock w' = clock w
  /\ exists lines, stdout w' = stdout w ++ lines.
Proof.
  intros H. apply sb21_run_inv in H
    as [(Hfs & Hcwd & Htr & Hck & Hout & _)
       | (text & doc & pk & certs & roots & sb_kek & sb_sections & cb & pkey & w1
          & _ & _ & _ & _ & _ & _ & _ & _ & _ & Hfs & Hcwd & Htr & Hck & Hout & H)].
  { split_and!; try done. intros path _ _. by rewrite Hfs. }
  apply write_outputs_cases in H as (Hcases & Hcwd' & Hout' & Htr' & Hck').
  split_and!; try congruence; [| eexists; by rewrite Hout', Hout].
  intros path Hp1 Hp2. rewrite <- Hfs.
  destruct Hcases as [(-> & _) | [(-> & _) | (rk & _ & [(-> & _) | [(-> & _)
                     | (data & _ & -> & _)]])]];
    by rewrite ?lookup_insert_ne by done.
Qed.

(** X17. A run of [generate_secure_binary_21] that ends in an exception
    leaves no partial image: the output path is as it was, or it holds an
    empty file. The output is opened for writing before the image is
    exported, so a run that fails in between has emptied an image that
    was there before. *)
Theorem sb21_failed_run_leaves_no_partial_image
    (parser : BDParser) (bd_file_path output_file_path : string)
    (key_file_path private_key_file_path : option string)
    (signing_certificate_file_paths root_key_certificate_paths : option (list string))
    (hoh_out_path : option string)
    (external_files : list string) (w w' : world) (e : exn) :
  generate_secure_binary_21 parser bd_file_path output_file_path key_file_path
    private_key_file_path signing_certificate_file_paths root_key_certificate_paths
    hoh_out_path external_files w = (Raise e, w') ->
  fs w' !! output_file_path = fs w !! output_file_path
  \/ fs w' !! output_file_path = Some (File []).
Proof.
  intros H. apply sb21_run_inv in H
    as [(Hfs & _)
       | (text & doc & pk & certs & roots & sb_kek & sb_sections & cb & pkey & w1
          & _ & _ & _ & _ & _ & _ & _ & _ & _ & Hfs & _ & _ & _ & _ & H)].
  { left. by rewrite Hfs. }
  apply write_outputs_cases in H as (Hcases & _).
  rewrite <- Hfs.
  destruct Hcases as [(-> & _) | [(-> & _) | (rk & _ & [(Hfs' & Hdir & _) | [(-> & _)
                     | (data & _ & _ & Hr)]])]].
  - by left.
  - destruct (decide (output_file_path = default (cwd w) hoh_out_path)) as [-> | Hne].
    + right. by rewrite lookup_insert_eq.
    + left. by rewrite lookup_insert_ne.
  - left. rewrite Hdir. rewrite Hfs' in Hdir.
    destruct (decide (output_file_path = default (cwd w) hoh_out_path)) as [-> | Hne].
    + by rewrite lookup_insert_eq in Hdir.
    + by rewrite lookup_insert_ne in Hdir.
  - right. by rewrite lookup_insert_eq.
  - discriminate Hr.
Qed.

(** X18. A run of [generate_secure_binary_21] that completes has written
    two files. The output file holds the export of the image built from
    the script: its key encryption key is 32 zero bytes when no key file
    is given and the content of the key file otherwise, its certificate
    block is made of the signing and root key certificates, and its
    private key is the content of the private key file. The file for the
    hash of hashes holds the [rkht] of that same certificate block.
    Every input is read from the files as they were before the run. *)
Theorem sb21_completed_run_writes_image_and_hash
    (parser : BDParser) (bd_file_path output_file_path : string)
    (key_file_path private_key_file_path : option string)
    (signing_certificate_file_paths root_key_certificate_paths : option (list string))
    (hoh_out_path : string)
    (external_files : list string) (w w' : world) :
  generate_secure_binary_21 parser bd_file_path output_file_path key_file_path
    private_key_file_path signing_certificate_file_paths root_key_certificate_paths
    (Some hoh_out_path) external_files w = (Ok tt, w') ->
  exists pk certs roots secure_binary cb private_key sb_data rkht_data,
    private_key_file_path = Some pk
    /\ signing_certificate_file_paths = Some certs
    /\ root_key_certificate_paths = Some roots
    /\ kek_of key_file_path w = Ok (kek secure_binary)
    /\ cert_block_of (build_number secure_binary) certs roots w = Ok cb
    /\ cert_block secure_binary = Some cb
    /\ read_file pk w = Ok private_key
    /\ private_key_pem_data secure_binary = Some private_key
    /\ BootImageV21_export secure_binary = Ok sb_data
    /\ rkht cb = Ok rkht_data
    /\ fs w' = <[output_file_path := File sb_data]>
                 (<[hoh_out_path := File rkht_data]> (fs w)).
Proof.
  intros H. apply sb21_run_inv in H
    as [(_ & _ & _ & _ & _ & e & He)
       | (text & doc & pk & certs & roots & sb_kek & sb_sections & cb & pkey & w1
          & -> & -> & -> & _ & _ & Hkek & _ & Hcb & Hpkey & Hfs & _ & _ & _ & _ & H)];
    [discriminate He |].
  apply write_outputs_cases in H as (Hcases & _).
  destruct Hcases as [(_ & e & He) | [(_ & e & He) | (rk & Hrk & [(_ & _ & He)
                     | [(_ & e & _ & He) | (data & Hdata & Hfs' & _)]])]];
    try discriminate He.
  eexists pk, certs, roots, _, cb, pkey, data, rk.
  split_and!; try done; try exact Hdata; cbn; try done.
  by rewrite Hfs', Hfs.
Qed.

End Proofs.

Lemma sb21_gives_up_before_it_builds_witness :
  generate_secure_binary_21 (ext := ToolSamples.externals) ToolSamples.parser_missing
    "/work/app.bd" "/work/out.sb2" (Some "/work/kek.txt") None
    (Some ["/work/cert.der"]) (Some ["/work/root0.der"]) (Some "/work/hash.bin") []
    ToolSamples.sample_world
  = (Raise (SystemExit 1),
     {| fs := fs ToolSamples.sample_world; cwd := "/work";
        stdout :=
          [] ++ ["error: Signed image requires private key with -s option, one or more certificate(s) using -S option and one or more root key certificates using -R option"];
        clock := clock ToolSamples.sample_world; trace := [] |}).
Proof.
  destruct (sb21_gives_up_before_it_builds (EXT := ToolSamples.externals)
              ToolSamples.parser_missing
              "/work/app.bd" "/work/out.sb2" (Some "/work/kek.txt") None
              (Some ["/work/cert.der"]) (Some ["/work/root0.der"])
              (Some "/work/hash.bin") [] ToolSamples.sample_world) as (_ & _ & Hexit).
  apply (Hexit [x01] (ToolSamples.sample_script ∅)).
  - vm_compute. reflexivity.
  - reflexivity.
  - by left.
Defined.

(** The sample run whose export fails, over an image of an earlier run. *)
Lemma sb21_touches_only_its_two_outputs_witness :
  let run :=
    generate_secure_binary_21 (ext := MoreToolSamples.failing_export_externals)
      ToolSamples.parser_missing
      "/work/app.bd" "/work/out.sb2" (Some "/work/kek.txt") (Some "/work/key.pem")
      (Some ["/work/cert.der"]) (Some ["/work/root0.der"]) (Some "/work/hash.bin") []
      MoreToolSamples.world_with_old_image in
  (forall path, path <> "/work/out.sb2" -> path <> "/work/hash.bin" ->
                fs run.2 !! path = fs MoreToolSamples.world_with_old_image !! path)
  /\ cwd run.2 = "/work" /\ trace run.2 = []
  /\ clock run.2 = clock MoreToolSamples.world_with_old_image
  /\ exists lines, stdout run.2 = [] ++ lines.
Proof.
  intros run.
  apply (sb21_touches_only_its_two_outputs
           (EXT := MoreToolSamples.failing_export_externals)
           ToolSamples.parser_missing
           "/work/app.bd" "/work/out.sb2" (Some "/work/kek.txt") (Some "/work/key.pem")
           (Some ["/work/cert.der"]) (Some ["/work/root0.der"]) (Some "/work/hash.bin") []
           MoreToolSamples.world_with_old_image run.2 run.1).
  vm_compute. reflexivity.
Defined.

Lemma sb21_failed_run_leaves_no_partial_image_witness :
  let run :=
    generate_secure_binary_21 (ext := MoreToolSamples.failing_export_externals)
      ToolSamples.parser_missing
      "/work/app.bd" "/work/out.sb2" (Some "/work/kek.txt") (Some "/work/key.pem")
      (Some ["/work/cert.der"]) (Some ["/work/root0.der"]) (Some "/work/hash.bin") []
      MoreToolSamples.world_with_old_image in
  fs run.2 !! "/work/out.sb2"
  = fs MoreToolSamples.world_with_old_image !! "/work/out.sb2"
  \/ fs run.2 !! "/work/out.sb2" = Some (File []).
Proof.
  intros run.
  apply (sb21_failed_run_leaves_no_partial_image
           (EXT := MoreToolSamples.failing_export_externals)
           ToolSamples.parser_missing
           "/work/app.bd" "/work/out.sb2" (Some "/work/kek.txt") (Some "/work/key.pem")
           (Some ["/work/cert.der"]) (Some ["/work/root0.der"]) (Some "/work/hash.bin") []
           MoreToolSamples.world_with_old_image run.2
           (SPSDKError "Certificate block is not set")).
  vm_compute. reflexivity.
Defined.

(** On that run the image of the earlier run is gone: the output file is
    empty, and the hash of hashes has been written. *)
Lemma failed_export_on_sample :
  let run :=
    generate_secure_binary_21 (ext := MoreToolSamples.failing_export_externals)
      ToolSamples.parser_missing
      "/work/app.bd" "/work/out.sb2" (Some "/work/kek.txt") (Some "/work/key.pem")
      (Some ["/work/cert.der"]) (Some ["/work/root0.der"]) (Some "/work/hash.bin") []
      MoreToolSamples.world_with_old_image in
  run.1 = Raise (SPSDKError "Certificate block is not set")
  /\ fs MoreToolSamples.world_with_old_image !! "/work/out.sb2"
     = Some (File [xde; xad; xbe; xef])
  /\ fs run.2 !! "/work/out.sb2" = Some (File [])
  /\ fs run.2 !! "/work/hash.bin" = Some (File [x44; x55]).
Proof. split_and!; vm_compute; reflexivity. Qed.

Lemma sb21_completed_run_writes_image_and_hash_witness :
  exists w' secure_binary sb_data rkht_data,
    ToolSamples.run_sb21 ToolSamples.parser_missing (Some "/work/hash.bin") = (Ok tt, w')
    /\ kek secure_binary = [x11; x22]
    /\ private_key_pem_data secure_binary = Some [x33]
    /\ BootImageV21_export (Externals := ToolSamples.externals) secure_binary = Ok sb_data
    /\ fs w' = <["/work/out.sb2" := File sb_data]>
                 (<["/work/hash.bin" := File rkht_data]> (fs ToolSamples.sample_world)).
Proof.
  assert (exists w',
            ToolSamples.run_sb21 ToolSamples.parser_missing (Some "/work/hash.bin")
            = (Ok tt, w')) as [w' Hrun] by (eexists; vm_compute; reflexivity).
  unfold ToolSamples.run_sb21 in Hrun.
  destruct (sb21_completed_run_writes_image_and_hash (EXT := ToolSamples.externals)
              _ _ _ _ _ _ _ _ _ _ _ Hrun)
    as (pk & certs & roots & img & cb & pkey & data & rk & Hpk & _ & _ & Hkek & _ & _
        & Hread & Hpkey & Hexp & _ & Hfs).
  injection Hpk as <-.
  exists w', img, data, rk. split_and!; try done.
  - change (Ok [x11; x22] = Ok (kek img)) in Hkek. congruence.
  - change (Ok [x33] = Ok pkey) in Hread. congruence.
Defined.

End SecureBinary21Outcomes.

(** ** Secure Binary v3.1: the clock and the certificate block *)

Module SecureBinary31Outcomes.
Import Elftosb IOFacts ToolOutcomes.
Import SecureBinary21Outcomes (look_inv).

Lemma blind_pure {A} (x : result A) : clock_blind (pure x).
Proof. by intros w t. Qed.

Lemma blind_mret {A} (a : A) : clock_blind (mret a : IO A).
Proof. by intros w t. Qed.

Lemma blind_raise {A} (e : exn) : clock_blind (raise e : IO A).
Proof. by intros w t. Qed.

Lemma blind_echo (msg : string) : clock_blind (echo msg).
Proof. by intros w t. Qed.

Lemma blind_log (ev : event) : clock_blind (log ev).
Proof. by intros w t. Qed.

Lemma blind_look {A} (f : world -> result A) :
  (forall w t, f (at_time w t) = f w) -> clock_blind (look f).
Proof. intros Hf w t. unfold look. by rewrite Hf. Qed.

Lemma blind_read_file (path : string) : clock_blind (look (read_file path)).
Proof. by apply blind_look. Qed.

Lemma blind_write_file (data : bytes) (path : string) : clock_blind (write_file data path).
Proof.
  intros w t. unfold write_file, mbind, IO_bind, open_wb, file_write. cbn.
  by destruct (fs w !! path) as [[content |] |].
Qed.

Lemma blind_bind {A B} (m : IO A) (k : A -> IO B) :
  clock_blind m -> (forall a, clock_blind (k a)) -> clock_blind (m ≫= k).
Proof.
  intros Hm Hk w t. unfold mbind, IO_bind. rewrite Hm.
  destruct (m w) as [[a | e] w1]; [apply Hk | done].
Qed.

Lemma blind_if {A} (c : bool) (m1 m2 : IO A) :
  clock_blind m1 -> clock_blind m2 -> clock_blind (if c then m1 else m2).
Proof. by destruct c. Qed.

Create HintDb blind.
#[export] Hint Resolve blind_pure blind_mret blind_raise blind_echo blind_log
  blind_read_file blind_write_file blind_if : blind.
#[export] Hint Extern 2 (clock_blind (_ ≫= _)) =>
  (apply blind_bind; [ | intros ? ]) : blind.
#[export] Hint Extern 1 (clock_blind (mret _)) => apply blind_mret : blind.
#[export] Hint Extern 3 (clock_blind (look _)) =>
  (apply blind_look; intros ? ?; reflexivity) : blind.

Section Proofs.
Context `{EXT : !Externals}.

(** X19. When the configuration of a v3.1 container carries a
    timestamp, [generate_secure_binary] does not depend on the clock: run
    at any other time it ends in the same way, with the same files
    written, the same calls to the signing backend and the same lines
    echoed. *)
Theorem sb31_with_a_timestamp_ignores_the_clock
    (container_conf : bytes) (config_data : json) (config : SB31Config.t)
    (w : world) (t : Z) :
  json_load container_conf = Ok config_data ->
  SB31Config_init config_data = Ok config ->
  SB31Config.timestamp config <> None ->
  generate_secure_binary container_conf (at_time w t)
  = (let '(r, w') := generate_secure_binary container_conf w in (r, at_time w' t)).
Proof.
  intros Hjson Hconfig Hts. unfold generate_secure_binary.
  rewrite Hjson, !bind_pure_ok, Hconfig, !bind_pure_ok.
  revert w t.
  match goal with
  | |- forall w t, ?m (at_time w t) = _ => change (clock_blind m)
  end.
  apply blind_bind.
  { destruct (SB31Config.timestamp config) as [[t0 | s] |]; [| | done];
      auto with blind. }
  intros timestamp. unfold internal_backend_ecc_sign, internal_backend_ecc_verify.
  eauto 30 with blind.
Qed.

Lemma pure_inv {A} (x : result A) (w w' : world) (r : result A) :
  pure x w = (r, w') -> x = r /\ w' = w.
Proof. unfold pure. by intros [= <- <-]. Qed.

(** X20. A run of [generate_secure_binary] that completes has written
    one file, the container: the header, the hash of the command block,
    the certificate block, the signature over these three and the
    command block, in this order. Header and command block carry the
    same timestamp, that of the configuration or else the reading of the
    clock, and the length the header announces counts twice the length of
    the hash for the signature. *)
Theorem sb31_completed_run_writes_the_container
    (container_conf : bytes) (w w' : world) :
  generate_secure_binary container_conf w = (Ok tt, w') ->
  exists config_data config timestamp curve pck commands blk cert_block data_cb
         header signing_key key signature,
    json_load container_conf = Ok config_data
    /\ SB31Config_init config_data = Ok config
    /\ timestamp_of config w = Ok timestamp
    /\ SB31Config.main_curve_name config = Some curve
    /\ pck_of config w = Ok pck
    /\ get_cmd_from_json (fs w) config = Ok commands
    /\ SecureBinary31Commands_export
         (Build_SecureBinary31Commands curve (SB31Config.is_encrypted config)
            (SB31Config.kdk_access_rights config) pck timestamp commands) = Ok blk
    /\ _get_cert_block_v31 (SB31Config.cert_config config) w = Ok cert_block
    /\ CertBlockV31_export cert_block = Ok data_cb
    /\ (let sb_header :=
          SecureBinary31Header_init (SB31Config.firmware_version config)
            (SB31Config.description config) curve timestamp
            (SB31Config.is_nxp_container config) in
        SecureBinary31Header_export
          (with_header_counts sb_header (cmds_block_count blk)
             (image_total_length sb_header
              + (Z.of_nat (length (final_hash blk)) + Z.of_nat (length data_cb))
              + 2 * Z.of_nat (length (final_hash blk)))%Z) = Ok header)
    /\ SB31Config.main_signing_key config = Some signing_key
    /\ read_file signing_key w = Ok key
    /\ ecc_sign key (header ++ final_hash blk ++ data_cb) = Ok signature
    /\ ecc_verify key signature (header ++ final_hash blk ++ data_cb) = Ok true
    /\ fs w' = <[SB31Config.container_output config :=
                   File (header ++ final_hash blk ++ data_cb ++ signature
                         ++ commands_data blk)]> (fs w).
Proof.
  intros H. unfold generate_secure_binary in H.
  apply bind_ok_inv in H as (cfd & w1 & Hm & H). apply pure_inv in Hm as [Hjson ->].
  apply bind_ok_inv in H as (cfg & w1 & Hm & H). apply pure_inv in Hm as [Hcfg ->].
  apply bind_ok_inv in H as (ts & w1 & Hm & H).
  assert (timestamp_of cfg w = Ok ts /\ w1 = w) as [Hts ->].
  { unfold timestamp_of. destruct (SB31Config.timestamp cfg) as [[t | s] |].
    - by injection Hm as <- <-.
    - by apply pure_inv in Hm.
    - by injection Hm as <- <-. }
  clear Hm.
  apply bind_ok_inv in H as (mcn & w1 & Hm & H). apply pure_inv in Hm as [Hcurve ->].
  assert (SB31Config.main_curve_name cfg = Some mcn) as Hcurve'.
  { destruct (SB31Config.main_curve_name cfg); [| discriminate Hcurve].
    cbn in Hcurve. by injection Hcurve as <-. }
  apply bind_ok_inv in H as (pck' & w1 & Hm & H).
  assert (pck_of cfg w = Ok pck' /\ w1 = w) as [Hpck ->].
  { unfold pck_of. destruct (SB31Config.is_encrypted cfg).
    - apply bind_ok_inv in Hm as (path & w2 & Hm1 & Hm).
      apply pure_inv in Hm1 as [Hpath ->]. rewrite Hpath. cbn [mbind result_bind].
      apply bind_ok_inv in Hm as (text & w2 & Hm1 & Hm).
      apply look_inv in Hm1 as [Htext ->]. rewrite Htext. cbn [mbind result_bind].
      by apply pure_inv in Hm.
    - by injection Hm as <- <-. }
  clear Hm.
  apply bind_ok_inv in H as (cmds & w1 & Hm & H). apply look_inv in Hm as [Hcmds ->].
  apply bind_ok_inv in H as (blk & w1 & Hm & H). apply pure_inv in Hm as [Hblk ->].
  apply bind_ok_inv in H as (cb & w1 & Hm & H). apply look_inv in Hm as [Hcb ->].
  apply bind_ok_inv in H as (dcb & w1 & Hm & H). apply pure_inv in Hm as [Hdcb ->].
  apply bind_ok_inv in H as (hdr & w1 & Hm & H). apply pure_inv in Hm as [Hhdr ->].
  apply bind_ok_inv in H as (msk & w1 & Hm & H). apply pure_inv in Hm as [Hmsk ->].
  assert (SB31Config.main_signing_key cfg = Some msk) as Hmsk'.
  { destruct (SB31Config.main_signing_key cfg); [| discriminate Hmsk].
    cbn in Hmsk. by injection Hmsk as <-. }
  apply bind_ok_inv in H as (pkd & w1 & Hm & H). apply look_inv in Hm as [Hkey ->].
  rewrite app_nil_l, <- app_assoc in H.
  apply bind_ok_inv in H as (sg & w1 & Hm & H).
  apply SecureBinary31Proofs.ecc_sign_inv in Hm
    as [(e & _ & Hr & _) | (s & Hsign & Hr & ->)]; [discriminate Hr |].
  injection Hr as <-.
  apply bind_ok_inv in H as (vld & w1 & Hm & H).
  apply SecureBinary31Proofs.ecc_verify_inv in Hm
    as [(e & _ & Hr & _) | (b & Hver & Hr & ->)]; [discriminate Hr |].
  injection Hr as <-.
  apply bind_ok_inv in H as ([] & w1 & Hm & H). apply pure_inv in Hm as [Hvalid ->].
  destruct vld; [| discriminate Hvalid].
  apply SecureBinary31Proofs.write_file_inv in H as [(Hr & _) | (_ & Hfs & _)];
    [discriminate Hr |].
  exists cfd, cfg, ts, mcn, pck', cmds, blk, cb, dcb, hdr, msk, pkd, sg.
  split_and!; try done.
  rewrite Hfs. cbn. by rewrite <- !app_assoc.
Qed.

(** X21. The certificate block [_get_cert_block_v31] returns holds the
    contents of the root certificate files, in the order of the
    configuration. Its [ca_flag] is set exactly when no ISK certificate
    is used. With an ISK certificate, the block holds the content of the
    ISK certificate file and of the private key file, both of which the
    configuration has to name; without one it holds neither, nor user
    data, and the files the configuration may name for them are not
    read. *)
Theorem cert_block_v31_holds_isk_material_iff_isk_is_used
    (config : CertificateBlockConfig.t) (w : world) (cert_block : CertBlockV31) :
  _get_cert_block_v31 config w = Ok cert_block ->
  Forall2 (fun cert_file content => read_file cert_file w = Ok content)
    (CertificateBlockConfig.root_certs config) (cb_root_certs cert_block)
  /\ used_root_cert cert_block = CertificateBlockConfig.main_root_cert_id config
  /\ constraints cert_block = CertificateBlockConfig.isk_constraint config
  /\ ca_flag cert_block = negb (CertificateBlockConfig.use_isk config)
  /\ if CertificateBlockConfig.use_isk config
     then (exists key_file key cert_file cert,
             CertificateBlockConfig.main_root_private_key_file config = Some key_file
             /\ key_file <> EmptyString
             /\ read_file key_file w = Ok key
             /\ isk_private_key cert_block = Some key
             /\ CertificateBlockConfig.isk_certificate config = Some cert_file
             /\ cert_file <> EmptyString
             /\ read_file cert_file w = Ok cert
             /\ isk_cert cert_block = Some cert)
          /\ match CertificateBlockConfig.isk_sign_data_path config with
             | Some (String c path) =>
                 exists data, read_file (String c path) w = Ok data
                              /\ user_data cert_block = Some data
             | _ => user_data cert_block = None
             end
     else isk_private_key cert_block = None /\ isk_cert cert_block = None
          /\ user_data cert_block = None.
Proof.
  unfold _get_cert_block_v31. intros H.
  destruct (comprehension _ (CertificateBlockConfig.root_certs config))
    as [root_certs |] eqn:Hroots; [| discriminate H].
  apply LayoutProofs.comprehension_Forall2 in Hroots.
  cbn [mbind result_bind] in H.
  destruct (CertificateBlockConfig.use_isk config).
  - destruct (match CertificateBlockConfig.isk_sign_data_path config with
              | Some path => if truthy_str path then Some <$> read_file path w else Ok None
              | None => Ok None
              end) as [ud |] eqn:Hud; [| discriminate H].
    cbn [mbind result_bind] in H.
    destruct (CertificateBlockConfig.main_root_private_key_file config)
      as [[| c1 key_file] |]; try discriminate H.
    cbn [assert_str truthy_str negb andb mbind result_bind] in H.
    destruct (read_file (String c1 key_file) w) as [key |] eqn:Hkey; [| discriminate H].
    cbn [fmap result_fmap mbind result_bind] in H.
    destruct (CertificateBlockConfig.isk_certificate config)
      as [[| c2 cert_file] |]; try discriminate H.
    cbn [assert_str truthy_str negb andb mbind result_bind] in H.
    destruct (read_file (String c2 cert_file) w) as [cert |] eqn:Hcert; [| discriminate H].
    cbn [fmap result_fmap mbind result_bind] in H. injection H as <-. cbn.
    split_and!; try done.
    + exists (String c1 key_file), key, (String c2 cert_file), cert. by split_and!.
    + destruct (CertificateBlockConfig.isk_sign_data_path config) as [[| c path] |].
      * by injection Hud as <-.
      * cbn [truthy_str] in Hud.
        destruct (read_file (String c path) w) as [data |]; [| discriminate Hud].
        injection Hud as <-. eauto.
      * by injection Hud as <-.
  - cbn [mbind result_bind] in H. injection H as <-. cbn. by split_and!.
Qed.

End Proofs.

Lemma sb31_with_a_timestamp_ignores_the_clock_witness :
  generate_secure_binary (ext := ToolSamples.externals) [x77]
    (at_time ToolSamples.sample_world 0)
  = (let '(r, w') := generate_secure_binary (ext := ToolSamples.externals) [x77]
                       ToolSamples.sample_world in
     (r, at_time w' 0)).
Proof.
  apply (sb31_with_a_timestamp_ignores_the_clock (EXT := ToolSamples.externals)
           [x77] [x77] ToolSamples.sb31_config ToolSamples.sample_world 0).
  - reflexivity.
  - reflexivity.
  - discriminate.
Defined.

Lemma sb31_completed_run_writes_the_container_witness :
  exists w' header blk data_cb signature,
    generate_secure_binary (ext := ToolSamples.externals) [x77] ToolSamples.sample_world
    = (Ok tt, w')
    /\ fs w' = <["/work/out.sb3" :=
                   File (header ++ final_hash blk ++ data_cb ++ signature
                         ++ commands_data blk)]> (fs ToolSamples.sample_world).
Proof.
  assert (exists w',
            generate_secure_binary (ext := ToolSamples.externals) [x77]
              ToolSamples.sample_world = (Ok tt, w')) as [w' Hrun]
    by (eexists; vm_compute; reflexivity).
  destruct (sb31_completed_run_writes_the_container (EXT := ToolSamples.externals)
              _ _ _ Hrun)
    as (cfd & cfg & ts & mcn & pck' & cmds & blk & cb & dcb & hdr & msk & key & sg
        & _ & Hcfg & _ & _ & _ & _ & _ & _ & _ & _ & _ & _ & _ & _ & Hfs).
  injection Hcfg as <-.
  exists w', hdr, blk, dcb, sg. split; [exact Hrun | exact Hfs].
Defined.

Lemma cert_block_v31_holds_isk_material_iff_isk_is_used_witness :
  exists cert_block,
    _get_cert_block_v31 (SB31Config.cert_config ToolSamples.sb31_config)
      ToolSamples.sample_world = Ok cert_block
    /\ cb_root_certs cert_block = [[x55]]
    /\ ca_flag cert_block = true
    /\ isk_private_key cert_block = None.
Proof.
  assert (exists cert_block,
            _get_cert_block_v31 (SB31Config.cert_config ToolSamples.sb31_config)
              ToolSamples.sample_world = Ok cert_block) as [cert_block Hcb]
    by (eexists; vm_compute; reflexivity).
  destruct (cert_block_v31_holds_isk_material_iff_isk_is_used _ _ _ Hcb)
    as (Hroots & _ & _ & Hca & Hkey & _).
  exists cert_block. split_and!; [exact Hcb | | exact Hca | exact Hkey].
  cbn in Hroots. apply Forall2_cons_inv_l in Hroots as (content & rest & Hread & Hrest & ->).
  apply Forall2_nil_inv_l in Hrest as ->.
  vm_compute in Hread. by injection Hread as <-.
Defined.

End SecureBinary31Outcomes.

(** ** The entry point of elftosb *)

Module MainProofs.
Import Elftosb ElftosbMain IOFacts.

Section Proofs.
Context `{EXT : !Externals}.
Variable parser : BDParser.
Variable generate_master_boot_image : bytes -> IO unit.
Variable generate_trustzone_binary : bytes -> IO unit.

(** X22. [main] checks the chip family only after it has run the
    command file. For a family that is not supported, a call without a
    command file ends in [SystemExit(1)] before any handler runs; a call
    with one runs [generate_secure_binary_21] in full, files and all, and
    only then, if that run completed, turns the family down. *)
Theorem main_checks_the_family_after_the_command_run
    (chip_family command key pkey : option string) (output : string)
    (cert root_key_cert : option (list string))
    (image_conf container_conf tzm_conf : option bytes)
    (hash_of_hashes : option string) (external : list string) (w : world) :
  chip_family ∉ (Some <$> SUPPORTED_FAMILIES) ->
  let refused w1 :=
    (Raise (SystemExit 1),
     (echo ("Family '" +:+ str_opt chip_family +:+ "' is not supported") w1).2) in
  (truthy_opt command = false ->
   main parser generate_master_boot_image generate_trustzone_binary
     chip_family command (Some output) key pkey cert root_key_cert
     image_conf container_conf tzm_conf hash_of_hashes external w
   = refused w)
  /\ (truthy_opt command = true ->
      let w0 := match chip_family with None => (echo "error" w).2 | Some _ => w end in
      main parser generate_master_boot_image generate_trustzone_binary
        chip_family command (Some output) key pkey cert root_key_cert
        image_conf container_conf tzm_conf hash_of_hashes external w
      = match generate_secure_binary_21 parser (default EmptyString command) output
                key pkey cert root_key_cert hash_of_hashes external w0 with
        | (Ok _, w1) => refused w1
        | (Raise e, w1) => (Raise e, w1)
        end).
Proof.
  intros Hfamily. cbn zeta. unfold main.
  rewrite (bool_decide_eq_false_2 _ Hfamily). cbn [negb].
  split; intros ->.
  - reflexivity.
  - unfold mbind at 1. unfold IO_bind at 1.
    assert (forall m : IO unit,
              (_ ← (match chip_family with
                    | None => echo "error"
                    | Some _ => mret tt
                    end); m) w
              = m (match chip_family with None => (echo "error" w).2 | Some _ => w end))
      as Hstep by (intros m; by destruct chip_family).
    rewrite Hstep. clear Hstep.
    destruct (generate_secure_binary_21 _ _ _ _ _ _ _ _ _ _) as [[[] | e] w1];
      reflexivity.
Qed.

(** A command file without an output path: [main] echoes one error line
    and ends in [SystemExit(1)]; the command file is not read. *)
Lemma main_needs_an_output_for_a_command_file
    (chip_family command key pkey : option string)
    (cert root_key_cert : option (list string))
    (image_conf container_conf tzm_conf : option bytes)
    (hash_of_hashes : option string) (external : list string) (w : world) :
  truthy_opt command = true ->
  main parser generate_master_boot_image generate_trustzone_binary
    chip_family command None key pkey cert root_key_cert
    image_conf container_conf tzm_conf hash_of_hashes external w
  = (Raise (SystemExit 1), (echo "error: no output file was specified" w).2).
Proof. intros Hcommand. unfold main. by rewrite Hcommand. Qed.

End Proofs.

Lemma main_checks_the_family_after_the_command_run_witness :
  let run :=
    main (ext := ToolSamples.externals) ToolSamples.parser_missing
      (fun _ => raise AssertionError) (fun _ => raise AssertionError)
      (Some "lpc55s6x") (Some "/work/app.bd") (Some "/work/out.sb2")
      (Some "/work/kek.txt") (Some "/work/key.pem")
      (Some ["/work/cert.der"]) (Some ["/work/root0.der"])
      None None None (Some "/work/hash.bin") [] ToolSamples.sample_world in
  run
  = match ToolSamples.run_sb21 ToolSamples.parser_missing (Some "/work/hash.bin") with
    | (Ok _, w1) =>
        (Raise (SystemExit 1), (echo "Family 'lpc55s6x' is not supported" w1).2)
    | (Raise e, w1) => (Raise e, w1)
    end.
Proof.
  intros run.
  destruct (main_checks_the_family_after_the_command_run (EXT := ToolSamples.externals)
              ToolSamples.parser_missing
              (fun _ => raise AssertionError) (fun _ => raise AssertionError)
              (Some "lpc55s6x") (Some "/work/app.bd")
              (Some "/work/kek.txt") (Some "/work/key.pem") "/work/out.sb2"
              (Some ["/work/cert.der"]) (Some ["/work/root0.der"])
              None None None (Some "/work/hash.bin") [] ToolSamples.sample_world)
    as [_ Hrun].
  - unfold SUPPORTED_FAMILIES. cbn. rewrite !elem_of_cons, elem_of_nil.
    intros [Heq | []]. discriminate Heq.
  - apply Hrun. reflexivity.
Defined.

(** On the sample run, for a family that is not supported, the image and
    the hash of hashes are written before [main] exits with 1. *)
Lemma unsupported_family_on_sample :
  let run :=
    main (ext := ToolSamples.externals) ToolSamples.parser_missing
      (fun _ => raise AssertionError) (fun _ => raise AssertionError)
      (Some "lpc55s6x") (Some "/work/app.bd") (Some "/work/out.sb2")
      (Some "/work/kek.txt") (Some "/work/key.pem")
      (Some ["/work/cert.der"]) (Some ["/work/root0.der"])
      None None None (Some "/work/hash.bin") [] ToolSamples.sample_world in
  run.1 = Raise (SystemExit 1)
  /\ fs run.2 !! "/work/out.sb2" = Some (File [x11; x22; x33])
  /\ fs run.2 !! "/work/hash.bin" = Some (File [x44; x55])
  /\ last (stdout run.2) = Some "Family 'lpc55s6x' is not supported".
Proof. split_and!; vm_compute; reflexivity. Qed.

End MainProofs.

(** ** Constructing a config area *)

Module InitProofs.
Import Pfr PfrInit.

Section WithExternals.
Context `{EXT : !Externals} `{INIT : !InitExternals}.

(** What [set_config] leaves as it is. *)
Lemma set_config_keeps_identity
    (self self' : BaseConfigArea) (cfg cfg' : PfrConfiguration.t setting) (raw : bool) :
  set_config self cfg raw = Ok (self', cfg') ->
  class_name self' = class_name self /\ device self' = device self
  /\ revision self' = revision self /\ config self' = config self
  /\ PfrConfiguration.device cfg' = PfrConfiguration.device cfg
  /\ PfrConfiguration.type cfg' = PfrConfiguration.type cfg
  /\ PfrConfiguration.revision cfg' = Some (revision self).
Proof.
  intros H. unfold set_config in H.
  destruct (assert (truthy_str (device self))); [| discriminate H].
  destruct (assert (truthy_str (revision self))); [| discriminate H].
  cbn [mbind result_bind] in H.
  destruct (negb (bool_decide (PfrConfiguration.device cfg = Some (device self))));
    [discriminate H |].
  match type of H with
  | (if negb (bool_decide (PfrConfiguration.revision ?c = _)) then _ else _) = _ =>
      remember c as cfg1 eqn:Hc
  end.
  assert (PfrConfiguration.device cfg1 = PfrConfiguration.device cfg
          /\ PfrConfiguration.type cfg1 = PfrConfiguration.type cfg) as [Hd Ht].
  { subst cfg1. destruct (PfrConfiguration.revision cfg) as [r |]; [| done].
    by destruct (negb (truthy_str r) || bool_decide (r ∈ ["latest"; EmptyString])). }
  clear Hc.
  destruct (decide (PfrConfiguration.revision cfg1 = Some (revision self)))
    as [Hrev | Hrev].
  2: { rewrite (bool_decide_eq_false_2 _ Hrev) in H. discriminate H. }
  rewrite (bool_decide_eq_true_2 _ Hrev) in H. cbn [negb] in H.
  destruct (match PfrConfiguration.type cfg1 with
            | Some t => truthy_str t && negb (String.eqb (upper t) (class_name self))
            | None => false
            end); [discriminate H |].
  destruct (PfrConfiguration.settings cfg1) as [settings |]; [| discriminate H].
  destruct (bool_decide (settings = ∅)); [discriminate H |].
  destruct (load_yml_config _ _ _ _) as [loaded |]; [| discriminate H].
  cbn [mbind result_bind] in H.
  destruct raw.
  - injection H as <- <-. by split_and!.
  - destruct (run_hooks loaded _) as [regs' |]; [| discriminate H].
    cbn in H. injection H as <- <-. by split_and!.
Qed.

(** Setting the computed field handlers changes the registers only. *)
Lemma install_computed_fields_hooks_keeps_identity (self self' : BaseConfigArea) :
  install_computed_fields_hooks self = Ok self' ->
  class_name self' = class_name self /\ device self' = device self
  /\ revision self' = revision self /\ config self' = config self.
Proof.
  unfold install_computed_fields_hooks. intros H.
  destruct (for_each _ _ _) as [regs |]; [| discriminate H].
  cbn in H. by injection H as <-.
Qed.

(** X23. An area that [__init__] returns is one of a device and a
    revision of its database, and its user configuration is its own: it
    names the device of the area, the class of the area as its type and
    the revision of the area, whatever the configuration passed in said,
    so that it is valid in the sense of [is_invalid]. *)
Theorem constructed_area_owns_its_configuration
    (cls : string) (database : RegConfig) (device_arg revision_arg : option string)
    (user_config_arg : option (PfrConfiguration.t setting)) (self : BaseConfigArea) :
  truthy_str cls = true ->
  __init__ cls database device_arg revision_arg user_config_arg = Ok self ->
  class_name self = cls /\ config self = database
  /\ device self ∈ get_devices database
  /\ revision self ∈ get_revisions database (device self)
  /\ PfrConfiguration.device (user_config self) = Some (device self)
  /\ PfrConfiguration.type (user_config self) = Some cls
  /\ (truthy_str (revision self) = true ->
      PfrConfiguration.revision (user_config self) = Some (revision self))
  /\ (truthy_str (device self) = true -> is_invalid (user_config self) = None).
Proof.
  intros Hcls H. unfold __init__ in H.
  destruct (assert (truthy_opt device_arg || bool_decide (is_Some user_config_arg)))
    eqn:Hgiven; [| discriminate H].
  cbn [mbind result_bind] in H.
  match type of H with
  | context [bool_decide (?x ∈ Some <$> get_devices database)] =>
      remember x as sd eqn:Hsd
  end.
  destruct (decide (sd ∈ Some <$> get_devices database)) as [Hin | Hout].
  2: { rewrite (bool_decide_eq_false_2 _ Hout) in H. discriminate H. }
  rewrite (bool_decide_eq_true_2 _ Hin) in H. cbn [assert mbind result_bind] in H.
  apply list_elem_of_fmap in Hin as (d & -> & Hd).
  cbn [default from_option id] in H.
  match type of H with
  | context [bool_decide (?x ∈ get_revisions database d)] =>
      remember x as r eqn:Hr
  end.
  clear Hr.
  destruct (decide (r ∈ get_revisions database d)) as [Hrin | Hrout].
  2: { rewrite (bool_decide_eq_false_2 _ Hrout) in H. discriminate H. }
  rewrite (bool_decide_eq_true_2 _ Hrin) in H. cbn [assert mbind result_bind] in H.
  destruct (load_registers_from_xml database d r) as [regs |]; [| discriminate H].
  cbn [mbind result_bind] in H.
  destruct (install_computed_fields_hooks _) as [self1 |] eqn:Hinstall;
    [| discriminate H].
  apply install_computed_fields_hooks_keeps_identity in Hinstall
    as (Hc1 & Hd1 & Hr1 & Hdb1). cbn in Hc1, Hd1, Hr1, Hdb1.
  cbn [mbind result_bind] in H.
  destruct (_apply_backward_compatibility self1); [| discriminate H].
  cbn [mbind result_bind] in H.
  set (cfg := PfrConfiguration__init__ user_config_arg (Some d) (Some r) (Some cls)) in *.
  assert (PfrConfiguration.device cfg = Some d) as Hcd.
  { unfold cfg, PfrConfiguration__init__.
    destruct user_config_arg as [c |]; [| done]. cbn.
    destruct d as [| ch d']; [| done]. cbn.
    destruct (truthy_opt device_arg) eqn:Htr; [| done].
    subst device_arg. discriminate Htr. }
  assert (PfrConfiguration.type cfg = Some cls) as Hct.
  { unfold cfg, PfrConfiguration__init__.
    destruct user_config_arg as [c |]; [| done]. cbn. by rewrite Hcls. }
  assert (truthy_str r = true -> PfrConfiguration.revision cfg = Some r) as Hcr.
  { intros Hrt. unfold cfg, PfrConfiguration__init__.
    destruct user_config_arg as [c |]; [| done]. cbn. by rewrite Hrt. }
  assert (forall self0 cfg0,
            class_name self0 = cls -> config self0 = database -> device self0 = d ->
            revision self0 = r ->
            PfrConfiguration.device cfg0 = Some d ->
            PfrConfiguration.type cfg0 = Some cls ->
            (truthy_str r = true -> PfrConfiguration.revision cfg0 = Some r) ->
            Ok (with_user_config self0 cfg0) = Ok self ->
            class_name self = cls /\ config self = database
            /\ device self ∈ get_devices database
            /\ revision self ∈ get_revisions database (device self)
            /\ PfrConfiguration.device (user_config self) = Some (device self)
            /\ PfrConfiguration.type (user_config self) = Some cls
            /\ (truthy_str (revision self) = true ->
                PfrConfiguration.revision (user_config self) = Some (revision self))
            /\ (truthy_str (device self) = true -> is_invalid (user_config self) = None))
    as Hdone.
  { intros self0 cfg0 <- <- <- <- Hd0 Ht0 Hr0 [= <-].
    cbn [class_name config device revision user_config with_user_config].
    split_and!; try done.
    intros Hdt. unfold is_invalid. rewrite Hd0, Ht0. cbn. by rewrite Hdt, Hcls. }
  destruct (PfrConfiguration.settings cfg) as [settings |] eqn:Hsettings.
  2: { by apply (Hdone self1 cfg). }
  destruct (bool_decide (settings = ∅)).
  { by apply (Hdone self1 cfg). }
  destruct (set_config _ cfg false) as [[self2 cfg2] |] eqn:Hset; [| discriminate H].
  cbn [mbind result_bind] in H.
  apply set_config_keeps_identity in Hset as (Hc2 & Hd2 & Hr2 & Hdb2 & Hcd2 & Hct2 & Hcr2).
  cbn [class_name config device revision with_user_config] in Hc2, Hd2, Hr2, Hdb2, Hcr2.
  apply (Hdone self2 cfg2); congruence.
Qed.

(** X24. The constructor takes the device from its argument and the
    type from its class, not from the user configuration: given a device,
    [__init__] does the same for any two configurations that differ in
    device and type only. It applies the settings of a configuration made
    out for another device or area, which [set_config], called with that
    configuration, turns down. *)
Theorem constructor_overrides_device_and_type_of_the_configuration
    (cls : string) (database : RegConfig) (device_arg revision_arg : option string)
    (user_config_arg : PfrConfiguration.t setting) (other_device other_type : option string) :
  truthy_str cls = true ->
  truthy_opt device_arg = true ->
  __init__ cls database device_arg revision_arg (Some user_config_arg)
  = __init__ cls database device_arg revision_arg
      (Some {| PfrConfiguration.device := other_device;
               PfrConfiguration.revision := PfrConfiguration.revision user_config_arg;
               PfrConfiguration.type := other_type;
               PfrConfiguration.settings := PfrConfiguration.settings user_config_arg |})
  /\ forall (self : BaseConfigArea) (raw : bool),
       truthy_str (device self) = true -> truthy_str (revision self) = true ->
       PfrConfiguration.device user_config_arg <> Some (device self) ->
       exists msg, set_config self user_config_arg raw = Raise (SPSDKPfrConfigError msg).
Proof.
  intros Hcls Hdev. split.
  - destruct device_arg as [dev |]; [| discriminate Hdev]. cbn in Hdev.
    unfold __init__. cbn [truthy_opt]. rewrite Hdev.
    cbn [orb assert mbind result_bind default from_option id
         PfrConfiguration.revision].
    repeat match goal with
           | |- (?m ≫= _) = (?m ≫= _) =>
               destruct m; cbn [mbind result_bind]; [| reflexivity]
           end.
    unfold PfrConfiguration__init__.
    cbn [PfrConfiguration.device PfrConfiguration.revision PfrConfiguration.type
         PfrConfiguration.settings truthy_opt].
    rewrite Hdev, Hcls. reflexivity.
  - intros self raw Hd Hr Hne. unfold set_config. rewrite Hd, Hr.
    cbn [assert mbind result_bind].
    rewrite (bool_decide_eq_false_2 _ Hne). cbn [negb]. eauto.
Qed.

End WithExternals.

Lemma constructed_area_owns_its_configuration_witness :
  exists self,
    __init__ (ext := Samples.externals) (init := InitSamples.init_externals)
      "CMPA" Samples.database None None (Some Samples.pin_config) = Ok self
    /\ device self = "lpc55s6x" /\ revision self = "1b"
    /\ PfrConfiguration.type (user_config self) = Some "CMPA"
    /\ is_invalid (user_config self) = None.
Proof.
  assert (exists self,
            __init__ (ext := Samples.externals) (init := InitSamples.init_externals)
              "CMPA" Samples.database None None (Some Samples.pin_config) = Ok self)
    as [self Hself] by (eexists; vm_compute; reflexivity).
  destruct (constructed_area_owns_its_configuration
              (EXT := Samples.externals) (INIT := InitSamples.init_externals)
              "CMPA" Samples.database None None (Some Samples.pin_config) self
              eq_refl Hself)
    as (_ & _ & _ & _ & Hdev & Htype & Hrev & Hvalid).
  exists self. split; [exact Hself |].
  assert (device self = "lpc55s6x" /\ revision self = "1b") as [Hd Hr].
  { vm_compute in Hself. by injection Hself as <-. }
  split_and!; [exact Hd | exact Hr | exact Htype |].
  apply Hvalid. by rewrite Hd.
Defined.

Lemma constructor_overrides_device_and_type_of_the_configuration_witness :
  __init__ (ext := Samples.externals) (init := InitSamples.init_externals)
    "CMPA" Samples.database (Some "lpc55s6x") None (Some InitSamples.foreign_config)
  = __init__ (ext := Samples.externals) (init := InitSamples.init_externals)
      "CMPA" Samples.database (Some "lpc55s6x") None
      (Some {| PfrConfiguration.device := Some "lpc55s6x";
               PfrConfiguration.revision := None;
               PfrConfiguration.type := Some "CMPA";
               PfrConfiguration.settings := Some Samples.pin_settings |}).
Proof.
  destruct (constructor_overrides_device_and_type_of_the_configuration
              (EXT := Samples.externals) (INIT := InitSamples.init_externals)
              "CMPA" Samples.database (Some "lpc55s6x") None InitSamples.foreign_config
              (Some "lpc55s6x") (Some "CMPA") eq_refl eq_refl) as [Hsame _].
  exact Hsame.
Defined.

(** On the samples: the constructor of CMPA for lpc55s6x takes the
    settings of a configuration made out for CFPA on lpc55s3x, and its
    hook has run on the register they set; [set_config] on the area so
    built turns the same configuration down. *)
Lemma foreign_configuration_on_sample :
  exists self,
    __init__ (ext := Samples.externals) (init := InitSamples.init_externals)
      "CMPA" Samples.database (Some "lpc55s6x") None (Some InitSamples.foreign_config)
    = Ok self
    /\ (get_value <$> find_reg (registers self) "DCFG_CC_SOCU_PIN")
       = Ok [xed; xcb; x12; x34]
    /\ set_config (ext := Samples.externals) self InitSamples.foreign_config false
       = Raise (SPSDKPfrConfigError "Invalid device in configuration.").
Proof. eexists. split_and!; vm_compute; reflexivity. Qed.

End InitProofs.

(** ** Reading a configuration dictionary *)

Module ConfigDictProofs.
Import PfrConfigurationDict.

Lemma dict_get_set (d : dict) (k key : string) (v : yval) :
  dict_get (dict_set d k v) key = if String.eqb k key then Some v else dict_get d key.
Proof.
  unfold dict_get. induction d as [| [k0 v0] d IH]; cbn.
  - by destruct (String.eqb k key).
  - destruct (String.eqb k0 k) eqn:Hk0; cbn.
    + apply String.eqb_eq in Hk0 as ->. by destruct (String.eqb k key).
    + destruct (String.eqb k0 key) eqn:Hkey; cbn; [| exact IH].
      destruct (String.eqb k key) eqn:Hk; [| done].
      apply String.eqb_eq in Hkey as ->, Hk as ->. by rewrite String.eqb_refl in Hk0.
Qed.

Lemma dict_get_absent (d : dict) (key : string) :
  key ∉ d.*1 -> dict_get d key = None.
Proof.
  unfold dict_get. induction d as [| [k v] d IH]; cbn; [done |].
  intros Hnot. apply not_elem_of_cons in Hnot as [Hne Hnot].
  destruct (String.eqb k key) eqn:Hk; [by apply String.eqb_eq in Hk | by apply IH].
Qed.

Lemma dict_get_cons (d : dict) (k key : string) (v : yval) :
  dict_get ((k, v) :: d) key = if String.eqb k key then Some v else dict_get d key.
Proof. unfold dict_get. cbn. by destruct (String.eqb k key). Qed.

(** An entry in the YML style. *)
Lemma detect_loop_converted (d : dict) :
  Forall (fun item => exists val, converted val = Some item.2) d ->
  detect_loop d = Done false.
Proof.
  induction 1 as [| [k v] d (val & Hval) _ IH]; [done |]. cbn in Hval.
  unfold converted in Hval. cbn [detect_loop].
  destruct (is_str_or_int val).
  - injection Hval as <-. cbn. exact IH.
  - destruct val; try discriminate Hval. injection Hval as <-. cbn. exact IH.
Qed.

Lemma dict_set_converted (d : dict) (k : string) (val v : yval) :
  converted val = Some v ->
  Forall (fun item => exists val, converted val = Some item.2) d ->
  Forall (fun item => exists val, converted val = Some item.2) (dict_set d k v).
Proof.
  intros Hv. induction 1 as [| [k0 v0] d Hitem Hd IH]; cbn.
  - constructor; [by exists val | constructor].
  - destruct (String.eqb k0 k); constructor; eauto.
Qed.

(** One turn of the loop of the conversion. *)
Lemma convert_step (yml_style : dict) (key : string) (val : yval) :
  (let yml_style :=
     if is_str_or_int val
     then dict_set yml_style key (YDict [("value", val)])
     else yml_style in
   match val with
   | YDict bitfields => dict_set yml_style key (YDict [("bitfields", YDict bitfields)])
   | _ => yml_style
   end)
  = match converted val with
    | Some v => dict_set yml_style key v
    | None => yml_style
    end.
Proof. by destruct val. Qed.

Lemma convert_loop_converted (items acc : dict) :
  Forall (fun item => exists val, converted val = Some item.2) acc ->
  Forall (fun item => exists val, converted val = Some item.2)
    (foldl (fun yml_style '(key, val) =>
              match converted val with
              | Some v => dict_set yml_style key v
              | None => yml_style
              end) acc items).
Proof.
  revert acc. induction items as [| [k val] items IH]; intros acc Hacc; [done |].
  cbn [foldl]. apply IH. destruct (converted val) as [v |] eqn:Hv; [| done].
  by eapply dict_set_converted.
Qed.

Lemma convert_loop_get (items acc : dict) (key : string) :
  NoDup items.*1 ->
  (forall k, k ∈ items.*1 -> dict_get acc k = None) ->
  dict_get
    (foldl (fun yml_style '(key, val) =>
              match converted val with
              | Some v => dict_set yml_style key v
              | None => yml_style
              end) acc items) key
  = match dict_get acc key with
    | Some v => Some v
    | None => dict_get items key ≫= converted
    end.
Proof.
  revert acc. induction items as [| [k val] items IH]; intros acc Hdup Hfresh.
  - cbn [foldl]. change (dict_get [] key) with (@None yval).
    by destruct (dict_get acc key).
  - cbn [fmap list_fmap fst] in Hdup. apply NoDup_cons in Hdup as [Hk Hdup].
    cbn [foldl]. rewrite IH; [| done |].
    + pose proof (Hfresh k ltac:(left)) as Hacc.
      rewrite (dict_get_cons items k key val).
      destruct (String.eqb k key) eqn:Heq.
      * apply String.eqb_eq in Heq as <-. rewrite Hacc. cbn [mbind option_bind].
        destruct (converted val) as [v |].
        -- by rewrite dict_get_set, String.eqb_refl.
        -- rewrite Hacc. by rewrite (dict_get_absent items k Hk).
      * destruct (converted val) as [v |]; [| done].
        by rewrite dict_get_set, Heq.
    + intros k' Hk'.
      destruct (converted val) as [v |]; [| apply Hfresh; by right].
      rewrite dict_get_set.
      destruct (String.eqb k k') eqn:Heq; [| apply Hfresh; by right].
      apply String.eqb_eq in Heq as <-. done.
Qed.

Lemma convert_loop_ext (items acc : dict) :
  foldl (fun yml_style '(key, val) =>
           let yml_style :=
             if is_str_or_int val
             then dict_set yml_style key (YDict [("value", val)])
             else yml_style in
           match val with
           | YDict bitfields =>
               dict_set yml_style key (YDict [("bitfields", YDict bitfields)])
           | _ => yml_style
           end) acc items
  = foldl (fun yml_style '(key, val) =>
             match converted val with
             | Some v => dict_set yml_style key v
             | None => yml_style
             end) acc items.
Proof.
  revert acc. induction items as [| [k val] items IH]; intros acc; [done |].
  cbn [foldl]. rewrite IH. f_equal. apply convert_step.
Qed.

(** X25. What [_get_yml_style_of_settings] returns is in the YML style:
    given its own result it returns it unchanged, so that the conversion
    of settings that went through it once is never repeated. *)
Theorem yml_style_is_a_fixed_point (data out : yval) :
  _get_yml_style_of_settings data = Done out ->
  _get_yml_style_of_settings out = Done out
  /\ _detect_obsolete_style_of_settings out = Done false.
Proof.
  unfold _get_yml_style_of_settings. intros H.
  destruct (_detect_obsolete_style_of_settings data) as [[|] |] eqn:Hdetect;
    try discriminate H; cbn [mbind outcome_bind negb] in H.
  2: { injection H as <-. by rewrite Hdetect. }
  destruct data as [| | | | | | items]; try discriminate H.
  injection H as <-. rewrite convert_loop_ext.
  pose proof (convert_loop_converted items [] (Forall_nil_2 _)) as Hout.
  remember (foldl _ [] items) as out eqn:Heq. clear Heq.
  assert (_detect_obsolete_style_of_settings (YDict out) = Done false) as Hgood.
  { unfold _detect_obsolete_style_of_settings. cbn [len mbind outcome_bind].
    destruct (length out =? 0)%nat; [done |]. by apply detect_loop_converted. }
  by rewrite Hgood.
Qed.

(** X26. In a document of the obsolete style with distinct keys, the
    conversion handles every entry by the kind of its value alone: a
    string or a number becomes the value of the register, a dictionary
    becomes its bit-fields even when it is an entry in the YML style
    already, and an entry of any other kind is left out. *)
Theorem obsolete_style_converts_every_entry_by_its_kind (items : dict) :
  NoDup items.*1 ->
  _detect_obsolete_style_of_settings (YDict items) = Done true ->
  exists out,
    _get_yml_style_of_settings (YDict items) = Done (YDict out)
    /\ forall key, dict_get out key = dict_get items key ≫= converted.
Proof.
  intros Hdup Hdetect. unfold _get_yml_style_of_settings. rewrite Hdetect.
  cbn [mbind outcome_bind negb]. eexists. split; [reflexivity |].
  intros key. rewrite convert_loop_ext, convert_loop_get; done.
Qed.

Lemma get_yml_style_never_raises_key_error (data : yval) (key : string) :
  _get_yml_style_of_settings data <> Raised (BuiltIn (KeyError key)).
Proof.
  unfold _get_yml_style_of_settings, _detect_obsolete_style_of_settings.
  destruct (len data) as [n |] eqn:Hlen.
  2: { destruct data; cbn in Hlen; try discriminate Hlen;
       injection Hlen as <-; cbn; discriminate. }
  cbn [mbind outcome_bind]. destruct (n =? 0)%nat; [done |].
  destruct data as [| | | | | | items]; try (cbn; discriminate).
  assert (forall d, detect_loop d <> Raised (BuiltIn (KeyError key))) as Hloop.
  { induction d as [| [k v] d IH]; cbn; [done |].
    destruct (is_str_or_int v); [done |].
    destruct v as [| | | | | | inner]; try exact IH.
    destruct inner as [| [first_key v'] inner]; [done |].
    by destruct (negb _). }
  specialize (Hloop items).
  destruct (detect_loop items) as [[|] |]; cbn; (discriminate || congruence).
Qed.

(** X27. [set_config_dict] takes device, revision and type from its
    arguments or from the description before it looks at the settings.
    A document without settings ends the call in
    [SPSDKPfrConfigReadError], and settings that cannot be converted end
    it in the error of the conversion; in both cases the object is left
    with the device, revision and type of the new document and with the
    settings it had. *)
Theorem set_config_dict_reads_the_description_first
    (self : PfrConfiguration) (items description : dict)
    (device_arg revision_arg cfg_type : option string) :
  items <> [] ->
  description_of items = YDict description ->
  let described :=
    {| device := chosen device_arg description "device";
       revision := chosen revision_arg description "revision";
       type := chosen cfg_type description "type";
       settings := settings self |} in
  set_config_dict self (YDict items) device_arg revision_arg cfg_type
  = match dict_get items "settings" with
    | None =>
        (described,
         Raised (SPSDKPfrConfigReadError "Missing fields in YAML configuration."))
    | Some data =>
        match _get_yml_style_of_settings data with
        | Done yml_style =>
            ({| device := device described; revision := revision described;
                type := type described; settings := yml_style |}, Done tt)
        | Raised e => (described, Raised e)
        end
    end.
Proof.
  intros Hne Hdescr. cbn zeta. unfold set_config_dict.
  destruct items as [| item items]; [done |].
  cbn [len length get]. fold (description_of (item :: items)). rewrite Hdescr.
  assert (forall arg key,
            or_else arg (get (YDict description) key YNone)
            = Done (chosen arg description key)) as Hchosen.
  { intros [[| c s] |] key; reflexivity. }
  rewrite !Hchosen. cbn [device revision type settings].
  unfold dict_item.
  destruct (dict_get (item :: items) "settings") as [data |]; [| reflexivity].
  cbn [mbind outcome_bind].
  destruct (_get_yml_style_of_settings data) as [yml_style | e] eqn:Hyml; [done |].
  destruct e as [| | [] |]; try reflexivity.
  by destruct (get_yml_style_never_raises_key_error data key).
Qed.

Lemma yml_style_is_a_fixed_point_witness :
  exists out,
    _get_yml_style_of_settings (YDict mixed_settings) = Done out
    /\ _get_yml_style_of_settings out = Done out
    /\ _detect_obsolete_style_of_settings out = Done false.
Proof.
  assert (exists out, _get_yml_style_of_settings (YDict mixed_settings) = Done out)
    as [out Hout] by (eexists; vm_compute; reflexivity).
  exists out. split; [exact Hout |].
  exact (yml_style_is_a_fixed_point (YDict mixed_settings) out Hout).
Defined.

Lemma obsolete_style_converts_every_entry_by_its_kind_witness :
  exists out,
    _get_yml_style_of_settings (YDict mixed_settings) = Done (YDict out)
    /\ forall key, dict_get out key = dict_get mixed_settings key ≫= converted.
Proof.
  apply (obsolete_style_converts_every_entry_by_its_kind mixed_settings).
  - cbn. repeat (apply NoDup_cons; split; [rewrite ?elem_of_cons, ?elem_of_nil;
                                            intros H; repeat destruct H as [H | H];
                                            (discriminate H || done) |]).
    apply NoDup_nil_2.
  - vm_compute. reflexivity.
Defined.

(** On the sample: the entry in the YML style comes out as a register
    with one bit-field called "value", and the entry without a value is
    gone. *)
Lemma mixed_document_on_sample :
  _get_yml_style_of_settings (YDict mixed_settings)
  = Done (YDict
      [ ("BOOT_CFG", YDict [("value", YStr "0x1")]);
        ("DCFG_CC_SOCU_PIN",
         YDict [("bitfields", YDict [("value", YStr "0x1234")])]);
        ("CUSTOMER",
         YDict [("bitfields", YDict [("FIELD_A", YInt 1); ("FIELD_B", YBool true)])]) ]).
Proof. vm_compute. reflexivity. Qed.

Lemma set_config_dict_reads_the_description_first_witness :
  set_config_dict empty_configuration (YDict no_settings_document) None (Some "0a") None
  = ({| device := YStr "lpc55s6x"; revision := YStr "0a"; type := YStr "CMPA";
        settings := YNone |},
     Raised (SPSDKPfrConfigReadError "Missing fields in YAML configuration.")).
Proof.
  apply (set_config_dict_reads_the_description_first empty_configuration
           no_settings_document
           [("device", YStr "lpc55s6x"); ("revision", YStr "1b"); ("type", YStr "CMPA")]
           None (Some "0a") None).
  - discriminate.
  - reflexivity.
Defined.

End ConfigDictProofs.

(** ** Looking up a curve *)

Module CurveProofs.
Import KeysManagement.

Section Curves.
Context {curve : Type}.
Variable _CURVE_TYPES : list (string * curve).

(** X28. [get_ec_curve_object] does not tell upper case from lower
    case. When no two names of the table differ in case only, a name
    that matches a name of the table up to case gets the curve of that
    name; a name that matches none up to case gets [SPSDKValueError]. *)
Theorem curve_lookup_ignores_case (name : string) :
  (forall key c,
     NoDup (lower <$> _CURVE_TYPES.*1) ->
     (key, c) ∈ _CURVE_TYPES -> lower name = lower key ->
     get_ec_curve_object _CURVE_TYPES name = inr c)
  /\ (Forall (fun item => lower item.1 <> lower name) _CURVE_TYPES ->
      get_ec_curve_object _CURVE_TYPES name
      = inl (SPSDKValueError
               ("The EC curve with name '" +:+ name +:+ "' is not supported."))).
Proof.
  unfold get_ec_curve_object. split.
  - intros key c Hdup Hin Hname. rewrite Hname. clear Hname.
    induction _CURVE_TYPES as [| [k0 c0] table IH]; [by apply elem_of_nil in Hin |].
    cbn [fmap list_fmap fst] in Hdup. apply NoDup_cons in Hdup as [Hk0 Hdup].
    cbn [List.find fst].
    destruct (String.eqb (lower k0) (lower key)) eqn:Heq.
    + apply String.eqb_eq in Heq.
      apply elem_of_cons in Hin as [[= -> ->] | Hin]; [done |].
      destruct Hk0. rewrite Heq. apply list_elem_of_fmap. exists key. split; [done |].
      apply list_elem_of_fmap. by exists (key, c).
    + apply elem_of_cons in Hin as [[= -> ->] | Hin].
      * by rewrite String.eqb_refl in Heq.
      * by apply IH.
  - intros Hnone.
    induction Hnone as [| [k0 c0] table Hne _ IH]; [done |].
    cbn [List.find fst]. cbn in Hne.
    destruct (String.eqb (lower k0) (lower name)) eqn:Heq; [| exact IH].
    by apply String.eqb_eq in Heq.
Qed.

End Curves.

Lemma curve_lookup_ignores_case_witness :
  get_ec_curve_object sample_curves "BRAINPOOLP256R1" = inr 256
  /\ get_ec_curve_object sample_curves "secp521r1"
     = inl (SPSDKValueError "The EC curve with name 'secp521r1' is not supported.").
Proof.
  split.
  - apply (proj1 (curve_lookup_ignores_case sample_curves "BRAINPOOLP256R1")
             "brainpoolP256r1" 256).
    + cbn. repeat (apply NoDup_cons; split; [rewrite ?elem_of_cons, ?elem_of_nil;
                                              intros H; repeat destruct H as [H | H];
                                              (discriminate H || done) |]).
      apply NoDup_nil_2.
    + unfold sample_curves. rewrite !elem_of_cons. auto 10.
    + reflexivity.
  - apply (proj2 (curve_lookup_ignores_case sample_curves "secp521r1")).
    unfold sample_curves.
    repeat (apply Forall_cons; split; [cbn; discriminate |]). apply Forall_nil_2.
Defined.

End CurveProofs.

(** ** The key hash of an RSA key does not tell modulus from exponent *)

Module RsaKeyHashProofs.
Import Pfr Stated RotkhProofs.

Lemma pow256_pos (k : nat) : (0 < 256 ^ Z.of_nat k)%Z.
Proof. apply Z.pow_pos_nonneg; lia. Qed.

Lemma pow256_succ (k : nat) : (256 ^ Z.of_nat (S k) = 256 * 256 ^ Z.of_nat k)%Z.
Proof. rewrite Nat2Z.inj_succ, Z.pow_succ_r by lia. done. Qed.

(** The number of bytes [calc_pub_key_hash] gives a positive number is
    the least that holds it. *)
Lemma byte_length_lower (n : Z) :
  (0 < n)%Z ->
  exists k, ceil_div8 (bit_length n) = S k /\ (256 ^ Z.of_nat k <= n)%Z.
Proof.
  intros Hn. unfold bit_length, ceil_div8.
  destruct (Z.eqb_spec n 0) as [-> | _]; [lia |].
  rewrite Z.abs_eq by lia.
  pose proof (Z.log2_spec n Hn) as [Hle _].
  pose proof (Z.log2_nonneg n) as Hl.
  set (b := Z.to_nat (Z.log2 n)) in *.
  pose proof (Nat.div_mod_eq (S b + 7) 8) as Hdm.
  pose proof (Nat.mod_upper_bound (S b + 7) 8) as Hmod.
  destruct ((S b + 7) / 8) as [| k] eqn:Hq; [lia |].
  exists k. split; [done |].
  eapply Z.le_trans; [| exact Hle].
  change 256%Z with (2 ^ 8)%Z. rewrite <- Z.pow_mul_r by lia.
  apply Z.pow_le_mono_r; lia.
Qed.

Lemma byte_length_unique (n : Z) (k : nat) :
  (256 ^ Z.of_nat k <= n < 256 ^ Z.of_nat (S k))%Z ->
  ceil_div8 (bit_length n) = S k.
Proof.
  intros [Hlo Hhi]. pose proof (pow256_pos k) as Hpos.
  destruct (byte_length_lower n ltac:(lia)) as (j & Hj & Hjlo).
  pose proof (fits_in_its_bit_length n ltac:(lia)) as Hjhi. rewrite Hj in *.
  assert (Z.of_nat j < Z.of_nat (S k))%Z as H1.
  { apply (Z.pow_lt_mono_r_iff 256); lia. }
  assert (Z.of_nat k < Z.of_nat (S j))%Z as H2.
  { apply (Z.pow_lt_mono_r_iff 256); lia. }
  f_equal. lia.
Qed.

Lemma byte_of_Z_mod (z : Z) : byte_of_Z (z mod 256) = byte_of_Z z.
Proof. unfold byte_of_Z. by rewrite Z.mod_mod. Qed.

Lemma byte_of_Z_add_mul (a b : Z) : byte_of_Z (a * 256 + b) = byte_of_Z b.
Proof. unfold byte_of_Z. by rewrite Z.add_comm, Z.mod_add. Qed.

(** The first of the digits. *)
Lemma be_digits_front (k : nat) (m : Z) :
  be_digits (S k) m = byte_of_Z (m / 256 ^ Z.of_nat k) :: be_digits k m.
Proof.
  revert m. induction k as [| k IH]; intros m.
  - cbn [be_digits app]. by rewrite Z.pow_0_r, Z.div_1_r.
  - change (be_digits (S (S k)) m) with (be_digits (S k) (m / 256) ++ [byte_of_Z m]).
    rewrite IH. cbn [app be_digits].
    rewrite pow256_succ, Z.div_div by (pose proof (pow256_pos k); lia). done.
Qed.

(** Digits above the length do not show. *)
Lemma be_digits_above (k : nat) (d e : Z) :
  be_digits k (d * 256 ^ Z.of_nat k + e) = be_digits k e.
Proof.
  revert d e. induction k as [| k IH]; intros d e; [done |].
  cbn [be_digits]. rewrite pow256_succ.
  replace (d * (256 * 256 ^ Z.of_nat k) + e)%Z
    with (d * 256 ^ Z.of_nat k * 256 + e)%Z by lia.
  rewrite byte_of_Z_add_mul, Z.div_add_l by lia. by rewrite IH.
Qed.

(** X29. The key hash of an RSA key does not tell where the modulus ends
    and the exponent begins. Moving the last byte of the modulus to the
    front of the exponent gives another pair of numbers with the same
    hash, whatever the backend, as the bytes hashed are the same: the
    numbers are encoded on as many bytes as they need, with nothing in
    between. *)
Theorem rsa_key_hash_does_not_separate_modulus_and_exponent
    (e n : Z) (backend : BackendClass) (sha_width : nat) :
  (0 < e)%Z -> (256 <= n)%Z -> (n mod 256 <> 0)%Z ->
  let shifted_e := (n mod 256 * 256 ^ Z.of_nat (ceil_div8 (bit_length e)) + e)%Z in
  let shifted_n := (n / 256)%Z in
  (shifted_n < n)%Z
  /\ calc_pub_key_hash (RSAPublicKey shifted_e shifted_n) backend sha_width
     = calc_pub_key_hash (RSAPublicKey e n) backend sha_width.
Proof.
  intros He Hn Hlow. cbn zeta.
  pose proof (Z.mod_pos_bound n 256 ltac:(lia)) as Hbyte.
  pose proof (Z.div_mod n 256 ltac:(lia)) as Hdm.
  split; [lia |].
  destruct (byte_length_lower e He) as (k & Hk & Hklo).
  pose proof (fits_in_its_bit_length e ltac:(lia)) as Hkhi.
  set (ke := ceil_div8 (bit_length e)) in *.
  pose proof (pow256_pos ke) as Hpos.
  assert (0 < n / 256)%Z as Hn' by (apply Z.div_str_pos; lia).
  destruct (byte_length_lower (n / 256) Hn') as (j & Hj & Hjlo).
  pose proof (fits_in_its_bit_length (n / 256) ltac:(lia)) as Hjhi.
  assert (ceil_div8 (bit_length n) = S (ceil_div8 (bit_length (n / 256)))) as Hlen_n.
  { apply byte_length_unique. rewrite Hj in *. rewrite !pow256_succ in *.
    pose proof (pow256_pos j). split; lia. }
  assert (ceil_div8 (bit_length (n mod 256 * 256 ^ Z.of_nat ke + e)) = S ke) as Hlen_e.
  { apply byte_length_unique. rewrite pow256_succ. split; nia. }
  clear Hj Hjlo Hjhi.
  unfold calc_pub_key_hash.
  rewrite !to_bytes_big_minimal by nia. cbn [mbind result_bind].
  do 2 f_equal. fold ke. rewrite Hlen_n, Hlen_e.
  rewrite be_digits_front, be_digits_above.
  rewrite Z.div_add_l, (Z.div_small e) by lia. rewrite Z.add_0_r, byte_of_Z_mod.
  cbn [be_digits]. by rewrite <- app_assoc.
Qed.

Lemma rsa_key_hash_does_not_separate_modulus_and_exponent_witness :
  (12 < 3233)%Z
  /\ calc_pub_key_hash (RSAPublicKey (161 * 256 ^ 1 + 17) 12)
       Samples.transparent_backend 256
     = calc_pub_key_hash (RSAPublicKey 17 3233) Samples.transparent_backend 256.
Proof.
  apply (rsa_key_hash_does_not_separate_modulus_and_exponent
           17 3233 Samples.transparent_backend 256); [lia | lia | discriminate].
Defined.

End RsaKeyHashProofs.
